(** * Authentication core of the admin panel

    A shallow embedding of the token service ([adapters/secondary/jwt]),
    the auth service ([core/services/auth_service.go]), the cookie service
    ([adapters/secondary/cookie]) and the request middleware
    ([package middleware]), with the properties of the authentication and
    authorization subsystem stated over them.

    Conventions.
    - A Go [string] is a [string] (a sequence of bytes); [len] is
      [String.length].
    - A Go [(T, error)] result is a [result T].
    - Instants are Unix nanoseconds in [Z]; a JWT numeric date is in whole
      seconds, as [jwt.NewNumericDate] truncates to [time.Second].
    - JSON numbers are the integers the service issues (user ids come from
      a [SERIAL] column, dates are whole seconds), which [float64] carries
      exactly; fractional numbers are not modelled.
    - [uint(f)] of such a number [f] is [Z.to_N].
    - A call of a service or of a handler happens at one instant, [now]:
      every [time.Now()] and [NOW()] within it reads the same clock value.
    - Logging calls have no effect on results and are left out.
    - The database is PostgreSQL with the encoding [UTF8], the encoding
      the driver [pgx] speaks: the length of a [VARCHAR(n)] column counts
      UTF-8 characters, and a text parameter that is not well-formed UTF-8
      or holds the byte 0 is refused. *)

From Stdlib Require Import ZArith NArith String Ascii List Bool Lia.
From stdpp Require Import gmap strings countable.
Import ListNotations.

Local Open Scope string_scope.

(** ** Results *)

Inductive result (E A : Type) : Type :=
| Ok (a : A)
| Err (e : E).
Arguments Ok {E A} a.
Arguments Err {E A} e.

Definition is_ok {E A} (r : result E A) : bool :=
  match r with Ok _ => true | Err _ => false end.

Definition is_err {E A} (r : result E A) : bool := negb (is_ok r).

(** ** Time, as package [time] counts it *)

Module time.
Definition Second : Z := 1000000000.
Definition Minute : Z := 60 * Second.

(** [int64] arithmetic wraps around. *)
Definition wrap_int64 (z : Z) : Z := (z + 2 ^ 63) mod 2 ^ 64 - 2 ^ 63.

(** [time.Duration(n) * time.Minute]. *)
Definition Minutes (n : Z) : Z := wrap_int64 (n * Minute).

(** [t.Add(d)]. *)
Definition Add (t d : Z) : Z := t + d.

(** Whole seconds of an instant: [t.Truncate(time.Second).Unix()]. *)
Definition Unix (t : Z) : Z := t / Second.

(** [t.Before(u)] for an instant [t] and a date [u] in whole seconds. *)
Definition Before (t : Z) (u : Z) : bool := (t <? u * Second)%Z.
End time.

(** ** The JWT library, [github.com/golang-jwt/jwt/v5]

    The parts of the library the token service calls: [NewWithClaims],
    [SignedString], [Parse] with its default validator, and the texts of
    the errors [Parse] returns. The compact serialisation (base64url of
    JSON, joined by dots) and the MAC are a [Codec]; the service relies on
    one law only, [codec_roundtrip]. *)

Module jwt.

(** A decoded JSON value of a claim ([interface{}] in a [MapClaims]):
    [float64], [string], an array of strings, or anything else. *)
Inductive Value : Type :=
| Number (n : Z)
| Str (s : string)
| Strs (l : list string)
| Other (raw : string).

Definition MapClaims := gmap string Value.

(** [*jwt.Token] as the service reads it. *)
Record Token : Type := {
  Method : string;      (* Header["alg"] *)
  Claims : MapClaims;
  Valid  : bool
}.

(** The three segments of a token string after [ParseUnverified]. *)
Record Segments : Type := {
  seg_alg : option string;       (* Header["alg"], when a string *)
  seg_claims : MapClaims;
  seg_signing_input : string;    (* parts[0] + "." + parts[1] *)
  seg_signature : string         (* decoded parts[2] *)
}.

Class Codec : Type := {
  (** [header.payload] for an algorithm and claims *)
  signing_input : string -> MapClaims -> string;
  (** the token string for an algorithm, claims and a signature *)
  encode_token : string -> MapClaims -> string -> string;
  (** segments of a token string, or why it is malformed *)
  decode_token : string -> result string Segments;
  (** [HMAC-SHA](key, message) for an [HS*] algorithm *)
  hmac : string -> string -> string -> string
}.

(** Decoding inverts encoding. *)
Definition codec_roundtrip `{Codec} : Prop :=
  forall alg m sig,
    decode_token (encode_token alg m sig) =
    Ok {| seg_alg := Some alg; seg_claims := m;
          seg_signing_input := signing_input alg m;
          seg_signature := sig |}.

(** *** Errors ([errors.go]) *)

Inductive ClaimError : Type :=
| ErrTokenExpired
| ErrTokenNotValidYet
| ErrInvalidType (key : string).

Inductive ParseError : Type :=
| ErrTokenMalformed (detail : string)
| ErrTokenUnverifiable (detail : string)
| ErrTokenSignatureInvalid
| ErrTokenInvalidClaims (causes : list ClaimError).

Definition ClaimError_text (e : ClaimError) : string :=
  match e with
  | ErrTokenExpired => "token is expired"
  | ErrTokenNotValidYet => "token is not valid yet"
  | ErrInvalidType key => "invalid type for claim: " +:+ key +:+ " is invalid"
  end.

Definition newline : string := String (ascii_of_nat 10) EmptyString.

(** [errors.Join]: the texts, one per line. *)
Fixpoint joinErrors (es : list ClaimError) : string :=
  match es with
  | [] => ""
  | [e] => ClaimError_text e
  | e :: rest => ClaimError_text e +:+ newline +:+ joinErrors rest
  end.

(** [err.Error()] of what [Parse] returns. [Parse] never returns a bare
    sentinel: every error goes through [newError(message, sentinel, cause)],
    which formats the sentinel first, then the message or the cause after
    a colon. For claims that do not validate it is
    [newError("", ErrTokenInvalidClaims, err)], with [err] the joined
    errors of the validator. *)
Definition Error (e : ParseError) : string :=
  match e with
  | ErrTokenMalformed d => "token is malformed: " +:+ d
  | ErrTokenUnverifiable d => "token is unverifiable: " +:+ d
  | ErrTokenSignatureInvalid => "token signature is invalid: signature is invalid"
  | ErrTokenInvalidClaims es => "token has invalid claims: " +:+ joinErrors es
  end.

(** *** Signing methods ([GetSigningMethod]) *)

Definition is_hmac (alg : string) : bool :=
  (alg =? "HS256") || (alg =? "HS384") || (alg =? "HS512").

Definition registered_methods : list string :=
  ["HS256"; "HS384"; "HS512"; "RS256"; "RS384"; "RS512";
   "ES256"; "ES384"; "ES512"; "PS256"; "PS384"; "PS512"; "EdDSA"; "none"].

Definition is_registered (alg : string) : bool :=
  existsb (String.eqb alg) registered_methods.

(** *** Claims validation ([validator.go], default options) *)

(** [MapClaims.parseNumericDate]: an absent claim and the number zero
    both count as no date. *)
Definition parseNumericDate (m : MapClaims) (key : string)
  : result ClaimError (option Z) :=
  match m !! key with
  | None => Ok None
  | Some (Number n) => if (n =? 0)%Z then Ok None else Ok (Some n)
  | Some _ => Err (ErrInvalidType key)
  end.

Definition verifyExpiresAt (now : Z) (m : MapClaims) : option ClaimError :=
  match parseNumericDate m "exp" with
  | Err e => Some e
  | Ok None => None
  | Ok (Some exp) => if time.Before now exp then None else Some ErrTokenExpired
  end.

Definition verifyNotBefore (now : Z) (m : MapClaims) : option ClaimError :=
  match parseNumericDate m "nbf" with
  | Err e => Some e
  | Ok None => None
  | Ok (Some nbf) => if time.Before now nbf then Some ErrTokenNotValidYet else None
  end.

(** [Validator.Validate]: expiry, then not-before; issued-at, audience,
    issuer and subject are not checked by default. *)
Definition Validate (now : Z) (m : MapClaims) : list ClaimError :=
  option_list (verifyExpiresAt now m) ++ option_list (verifyNotBefore now m).

Section WithCodec.
Context {codec : Codec}.

(** [jwt.NewWithClaims(method, claims).SignedString(key)] *)
Definition SignedString (alg : string) (m : MapClaims) (key : string) : string :=
  encode_token alg m (hmac alg key (signing_input alg m)).

(** [SigningMethodHMAC.Verify] *)
Definition Verify (alg key : string) (s : Segments) : bool :=
  hmac alg key (seg_signing_input s) =? seg_signature s.

(** [jwt.Parse(tokenString, keyFunc)] at instant [now]. [keyFunc] gets
    the algorithm of the token and returns the key or an error text. *)
Definition Parse (now : Z) (tokenString : string)
    (keyFunc : string -> result string string) : result ParseError Token :=
  match decode_token tokenString with
  | Err d => Err (ErrTokenMalformed d)
  | Ok s =>
    match seg_alg s with
    | None => Err (ErrTokenUnverifiable "signing method (alg) is unspecified")
    | Some alg =>
      if negb (is_registered alg)
      then Err (ErrTokenUnverifiable "signing method (alg) is unavailable")
      else
        match keyFunc alg with
        | Err msg =>
            Err (ErrTokenUnverifiable ("error while executing keyfunc: " +:+ msg))
        | Ok key =>
          if negb (Verify alg key s) then Err ErrTokenSignatureInvalid
          else
            match Validate now (seg_claims s) with
            | [] => Ok {| Method := alg; Claims := seg_claims s; Valid := true |}
            | es => Err (ErrTokenInvalidClaims es)
            end
        end
    end
  end.
End WithCodec.

End jwt.

(** ** Text in PostgreSQL

    What the server does with the text values the repository hands it:
    the check of the encoding when a parameter arrives, and the assignment
    of a value to a [VARCHAR(n)] column. *)

Module pg.

Definition byte (c : ascii) : N := N_of_ascii c.

(** [lo <= c <= hi] on the value of the byte. *)
Definition between (lo hi : N) (c : ascii) : bool :=
  (lo <=? byte c)%N && (byte c <=? hi)%N.

Definition continuation : ascii -> bool := between 0x80 0xBF.

(** The well-formed UTF-8 sequences of one to four bytes (the table of
    [pg_utf8_islegal]: no overlong form, no surrogate, nothing above
    U+10FFFF); the byte 0 is no character of a text value. *)
Definition char1 (b0 : ascii) : bool := between 0x01 0x7F b0.

Definition char2 (b0 b1 : ascii) : bool := between 0xC2 0xDF b0 && continuation b1.

Definition char3 (b0 b1 b2 : ascii) : bool :=
  (between 0xE0 0xE0 b0 && between 0xA0 0xBF b1
   || between 0xE1 0xEC b0 && continuation b1
   || between 0xED 0xED b0 && between 0x80 0x9F b1
   || between 0xEE 0xEF b0 && continuation b1)
  && continuation b2.

Definition char4 (b0 b1 b2 b3 : ascii) : bool :=
  (between 0xF0 0xF0 b0 && between 0x90 0xBF b1
   || between 0xF1 0xF3 b0 && continuation b1
   || between 0xF4 0xF4 b0 && between 0x80 0x8F b1)
  && continuation b2 && continuation b3.

Definition followed_by (c : string) (rest : option (list string)) : option (list string) :=
  match rest with
  | Some l => Some (c :: l)
  | None => None
  end.

(** The characters of a text, each in its encoding; [None] for bytes that
    are no text. *)
Fixpoint chars (s : string) : option (list string) :=
  match s with
  | EmptyString => Some []
  | String b0 s1 =>
    if char1 b0 then followed_by (String b0 "") (chars s1)
    else
      match s1 with
      | EmptyString => None
      | String b1 s2 =>
        if char2 b0 b1 then followed_by (String b0 (String b1 "")) (chars s2)
        else
          match s2 with
          | EmptyString => None
          | String b2 s3 =>
            if char3 b0 b1 b2
            then followed_by (String b0 (String b1 (String b2 ""))) (chars s3)
            else
              match s3 with
              | EmptyString => None
              | String b3 s4 =>
                if char4 b0 b1 b2 b3
                then followed_by (String b0 (String b1 (String b2 (String b3 ""))))
                       (chars s4)
                else None
              end
          end
      end
  end.

(** What the server accepts as the value of a text parameter. *)
Definition valid_text (s : string) : bool :=
  match chars s with Some _ => true | None => false end.

(** [char_length(s)] *)
Definition char_length (s : string) : nat :=
  match chars s with Some l => List.length l | None => 0 end.

(** The first [n] characters ([pg_mbcharclip]) and what follows them. *)
Definition clip (n : nat) (s : string) : string :=
  match chars s with Some l => String.concat "" (firstn n l) | None => s end.

Definition excess (n : nat) (s : string) : string :=
  match chars s with Some l => String.concat "" (skipn n l) | None => "" end.

(** Spaces only. *)
Fixpoint blank (s : string) : bool :=
  match s with
  | EmptyString => true
  | String c rest => Ascii.eqb c " " && blank rest
  end.

(** The assignment of a text to a [VARCHAR(n)] column: kept when it has
    at most [n] characters, cut to [n] characters when all that is cut is
    spaces, and refused otherwise ("value too long for type character
    varying(n)"). *)
Definition varchar (n : nat) (s : string) : option string :=
  if (char_length s <=? n)%nat then Some s
  else if blank (excess n s) then Some (clip n s)
  else None.

(** A text a [VARCHAR(n)] column stores as it is. *)
Definition fits (n : nat) (s : string) : bool :=
  valid_text s && (char_length s <=? n)%nat.

(** Visible ASCII characters only. *)
Fixpoint printable (s : string) : bool :=
  match s with
  | EmptyString => true
  | String c rest => between 0x21 0x7E c && printable rest
  end.

End pg.

(** ** Domain entities ([core/entities]) *)

Module entities.

(** [type Role string] *)
Definition Role := string.
Definition RoleAdmin : Role := "admin".
Definition RoleManager : Role := "manager".
Definition RoleUser : Role := "user".
Definition RoleGuest : Role := "guest".

Record User : Type := {
  ID : N;
  Username : string;
  Password : string;          (* the bcrypt hash *)
  FirstName : string;
  LastName : string;
  Role_ : Role;
  IsActive : bool;
  LastLogin : option Z;
  CreatedAt : Z;
  UpdatedAt : Z
}.

(** Go's [error] values met in the core: the domain sentinels, the errors
    of the JWT library, and errors made by [fmt.Errorf] / [errors.New]
    or returned by other libraries, known by their text. *)
Inductive error : Type :=
| ErrUserNotFound
| ErrUserAlreadyExists
| ErrInvalidCredentials
| ErrInvalidUsername
| ErrPasswordTooShort
| ErrUnauthorized
| ErrForbidden
| ErrInvalidToken
| ErrTokenExpired
| ErrInvalidRole
| ErrSessionNotFound
| ErrSessionExpired
| ErrUserDeactivated
| ErrJwt (e : jwt.ParseError)
| Errorf (text : string).

(** [err.Error()] *)
Definition Error (e : error) : string :=
  match e with
  | ErrUserNotFound => "user not found"
  | ErrUserAlreadyExists => "user already exists"
  | ErrInvalidCredentials => "invalid credentials"
  | ErrInvalidUsername => "invalid username"
  | ErrPasswordTooShort => "password too short"
  | ErrUnauthorized => "unauthorized"
  | ErrForbidden => "forbidden"
  | ErrInvalidToken => "invalid token"
  | ErrTokenExpired => "token expired"
  | ErrInvalidRole => "invalid role"
  | ErrSessionNotFound => "session not found"
  | ErrSessionExpired => "session expired"
  | ErrUserDeactivated => "user account is deactivated"
  | ErrJwt e => jwt.Error e
  | Errorf text => text
  end.

(** [bcrypt.ErrPasswordTooLong] *)
Definition ErrPasswordTooLong : error :=
  Errorf "bcrypt: password length exceeds 72 bytes".

(** [golang.org/x/crypto/bcrypt], as [User] calls it: a password of more
    than 72 bytes is refused, any other is hashed, and a hash is 60 visible
    ASCII characters. *)
Class Bcrypt : Type := {
  (** [GenerateFromPassword(password, DefaultCost)] *)
  GenerateFromPassword : string -> result error string;
  (** [CompareHashAndPassword(hash, password) == nil] *)
  CompareHashAndPassword : string -> string -> bool;
  password_too_long : forall password,
    (72 < String.length password)%nat ->
    GenerateFromPassword password = Err ErrPasswordTooLong;
  password_hashed : forall password,
    (String.length password <= 72)%nat ->
    is_ok (GenerateFromPassword password) = true;
  hash_shape : forall password hash,
    GenerateFromPassword password = Ok hash ->
    String.length hash = 60%nat /\ pg.printable hash = true
}.

Definition set_Password (u : User) (p : string) : User :=
  {| ID := ID u; Username := Username u; Password := p;
     FirstName := FirstName u; LastName := LastName u; Role_ := Role_ u;
     IsActive := IsActive u; LastLogin := LastLogin u;
     CreatedAt := CreatedAt u; UpdatedAt := UpdatedAt u |}.

Definition set_IsActive (u : User) (b : bool) : User :=
  {| ID := ID u; Username := Username u; Password := Password u;
     FirstName := FirstName u; LastName := LastName u; Role_ := Role_ u;
     IsActive := b; LastLogin := LastLogin u;
     CreatedAt := CreatedAt u; UpdatedAt := UpdatedAt u |}.

Definition set_LastLogin (u : User) (t : option Z) : User :=
  {| ID := ID u; Username := Username u; Password := Password u;
     FirstName := FirstName u; LastName := LastName u; Role_ := Role_ u;
     IsActive := IsActive u; LastLogin := t;
     CreatedAt := CreatedAt u; UpdatedAt := UpdatedAt u |}.

Definition set_Username (u : User) (name : string) : User :=
  {| ID := ID u; Username := name; Password := Password u;
     FirstName := FirstName u; LastName := LastName u; Role_ := Role_ u;
     IsActive := IsActive u; LastLogin := LastLogin u;
     CreatedAt := CreatedAt u; UpdatedAt := UpdatedAt u |}.

Definition set_FirstName (u : User) (name : string) : User :=
  {| ID := ID u; Username := Username u; Password := Password u;
     FirstName := name; LastName := LastName u; Role_ := Role_ u;
     IsActive := IsActive u; LastLogin := LastLogin u;
     CreatedAt := CreatedAt u; UpdatedAt := UpdatedAt u |}.

Definition set_LastName (u : User) (name : string) : User :=
  {| ID := ID u; Username := Username u; Password := Password u;
     FirstName := FirstName u; LastName := name; Role_ := Role_ u;
     IsActive := IsActive u; LastLogin := LastLogin u;
     CreatedAt := CreatedAt u; UpdatedAt := UpdatedAt u |}.

Definition set_Role (u : User) (r : Role) : User :=
  {| ID := ID u; Username := Username u; Password := Password u;
     FirstName := FirstName u; LastName := LastName u; Role_ := r;
     IsActive := IsActive u; LastLogin := LastLogin u;
     CreatedAt := CreatedAt u; UpdatedAt := UpdatedAt u |}.

Definition HasRole (u : User) (role : Role) : bool := Role_ u =? role.
Definition IsAdmin (u : User) : bool := Role_ u =? RoleAdmin.
Definition IsManagerOrHigher (u : User) : bool :=
  (Role_ u =? RoleAdmin) || (Role_ u =? RoleManager).

Section WithBcrypt.
Context {bcrypt : Bcrypt}.

(** [SetPassword]: the user with the hash stored, or the error. *)
Definition SetPassword (u : User) (password : string) : result error User :=
  match GenerateFromPassword password with
  | Err e => Err e
  | Ok hashedPassword => Ok (set_Password u hashedPassword)
  end.

Definition VerifyPassword (u : User) (password : string) : bool :=
  CompareHashAndPassword (Password u) password.
End WithBcrypt.

Definition UpdateLastLogin (now : Z) (u : User) : User :=
  set_LastLogin u (Some now).

(** [Validate]: [nil] is [None]. *)
Definition Validate (u : User) : option error :=
  if Username u =? "" then Some ErrInvalidUsername
  else if (String.length (Password u) <? 8)%nat then Some ErrPasswordTooShort
  else None.

End entities.

(** ** Configuration ([infra/config]), the JWT part *)

Module config.
Record JWTConfig : Type := {
  SecretKey : string;
  RefreshSecret : string;
  AccessExpiry : Z;    (* minutes *)
  RefreshExpiry : Z    (* minutes *)
}.
End config.

(** ** Ports ([core/ports/service])

    The fields of the request and response structs carry a prefix
    ([lr_], [rr_], [rt_], [ui_]) where two structs share a field name. *)

Module service.
Record UserInfo : Type := {
  ui_UserID : N;
  ui_Username : string;
  ui_Role : string
}.

Record LoginRequest : Type := {
  lr_Username : string;
  lr_Password : string
}.

Record LoginResponse : Type := {
  AccessToken : string;
  RefreshToken : string;
  User : entities.User;
  ExpiresIn : Z
}.

Record RegisterRequest : Type := {
  rr_Username : string;
  rr_Password : string;
  rr_FirstName : string;
  rr_LastName : string;
  rr_Role : entities.Role
}.

Record RefreshTokenRequest : Type := {
  rt_RefreshToken : string
}.

(** [Claims] of the ports: the identity and the registered claims that the
    token service's [ValidateToken] fills in, dates in whole seconds. *)
Record Claims : Type := {
  cl_UserID : N;
  cl_Username : string;
  cl_Role : string;
  cl_Subject : string;
  cl_ExpiresAt : Z;
  cl_NotBefore : Z;
  cl_IssuedAt : Z
}.

Record CreateUserRequest : Type := {
  cu_Username : string;
  cu_Password : string;
  cu_FirstName : string;
  cu_LastName : string;
  cu_Role : entities.Role;
  cu_IsActive : bool
}.

(** A [nil] pointer is [None]. *)
Record UpdateUserRequest : Type := {
  uu_Username : option string;
  uu_FirstName : option string;
  uu_LastName : option string;
  uu_Role : option entities.Role;
  uu_IsActive : option bool
}.

Record ChangePasswordRequest : Type := {
  cp_CurrentPassword : string;
  cp_NewPassword : string
}.

Record ConfirmPasswordResetRequest : Type := {
  cr_Token : string;
  cr_NewPassword : string
}.

Record ListUsersRequest : Type := {
  lu_Limit : Z;
  lu_Offset : Z;
  lu_Role : entities.Role;
  lu_IsActive : option bool;
  lu_Search : string
}.

Record ListUsersResponse : Type := {
  Users : list entities.User;
  Total : Z;
  Limit : Z;
  Offset : Z
}.
End service.

(** ** The token service ([adapters/secondary/jwt/jwt.go]) *)

Module JWTService.
Import config.

(** [fmt.Sprintf("%d", n)] *)
Definition Sprintf_d (n : N) : string := pretty.pretty n.

(** The [Claims] struct as the JSON object it marshals to. *)
Definition claims_map (now : Z) (ttl : Z) (user : entities.User) (type : string)
  : jwt.MapClaims :=
  <[ "iss" := jwt.Str "github.com/ontair/admin-panel" ]>
  (<[ "sub" := jwt.Str (Sprintf_d (entities.ID user)) ]>
  (<[ "aud" := jwt.Strs ["admin-panel-users"] ]>
  (<[ "exp" := jwt.Number (time.Unix (time.Add now (time.Minutes ttl))) ]>
  (<[ "nbf" := jwt.Number (time.Unix now) ]>
  (<[ "iat" := jwt.Number (time.Unix now) ]>
  (<[ "user_id" := jwt.Number (Z.of_N (entities.ID user)) ]>
  (<[ "username" := jwt.Str (entities.Username user) ]>
  (<[ "role" := jwt.Str (entities.Role_ user) ]>
  (<[ "type" := jwt.Str type ]> ∅))))))))).

Section WithCodec.
Context {codec : jwt.Codec}.
Variable cfg : JWTConfig.

Definition GenerateAccessToken (now : Z) (user : entities.User)
  : result entities.error string :=
  Ok (jwt.SignedString "HS256"
        (claims_map now (AccessExpiry cfg) user "access") (SecretKey cfg)).

Definition GenerateRefreshToken (now : Z) (user : entities.User)
  : result entities.error string :=
  Ok (jwt.SignedString "HS256"
        (claims_map now (RefreshExpiry cfg) user "refresh") (RefreshSecret cfg)).

(** The key function of [parseToken]: HMAC methods only. *)
Definition keyFunc (secret : string) (alg : string) : result string string :=
  if negb (jwt.is_hmac alg) then Err ("unexpected signing method: " +:+ alg)
  else Ok secret.

Definition parseToken (now : Z) (tokenString secret expectedType : string)
  : result entities.error jwt.Token :=
  match jwt.Parse now tokenString (keyFunc secret) with
  | Err e => Err (entities.ErrJwt e)
  | Ok token =>
    if jwt.Valid token then
      match jwt.Claims token !! "type" with
      | Some (jwt.Str tokenType) =>
          if negb (tokenType =? expectedType)
          then Err (entities.Errorf
                 ("invalid token type: expected " +:+ expectedType +:+
                  ", got " +:+ tokenType))
          else Ok token
      | _ => Err (entities.Errorf
                 ("invalid token type: expected " +:+ expectedType +:+ ", got "))
      end
    else Err (entities.Errorf "invalid token")
  end.

Definition ParseAccessToken (now : Z) (tokenString : string) :=
  parseToken now tokenString (SecretKey cfg) "access".

Definition ParseRefreshToken (now : Z) (tokenString : string) :=
  parseToken now tokenString (RefreshSecret cfg) "refresh".

Definition GetAccessTokenExpiry : Z := AccessExpiry cfg.

(** [ValidateToken] of the token service: the identity of a valid access
    token, with registered claims computed from the clock. *)
Definition ValidateToken (now : Z) (tokenString : string)
  : result entities.error service.Claims :=
  match ParseAccessToken now tokenString with
  | Err err => Err err
  | Ok token =>
    if negb (jwt.Valid token) then Err (entities.Errorf "invalid token claims")
    else
      match jwt.Claims token !! "user_id" with
      | Some (jwt.Number userIDFloat) =>
        match jwt.Claims token !! "username" with
        | Some (jwt.Str username) =>
          match jwt.Claims token !! "role" with
          | Some (jwt.Str role) =>
              Ok {| service.cl_UserID := Z.to_N userIDFloat;
                    service.cl_Username := username;
                    service.cl_Role := role;
                    service.cl_Subject := Sprintf_d (Z.to_N userIDFloat);
                    service.cl_ExpiresAt :=
                      time.Unix (time.Add now (time.Minutes (AccessExpiry cfg)));
                    service.cl_NotBefore := time.Unix now;
                    service.cl_IssuedAt := time.Unix now |}
          | _ => Err (entities.Errorf "invalid role in token")
          end
        | _ => Err (entities.Errorf "invalid username in token")
        end
      | _ => Err (entities.Errorf "invalid user_id in token")
      end
  end.
End WithCodec.

(** [ExtractUserFromToken] *)
Definition ExtractUserFromToken (token : jwt.Token)
  : result entities.error service.UserInfo :=
  if negb (jwt.Valid token) then Err (entities.Errorf "invalid token claims")
  else
    match jwt.Claims token !! "user_id" with
    | Some (jwt.Number userIDFloat) =>
      match jwt.Claims token !! "username" with
      | Some (jwt.Str username) =>
        match jwt.Claims token !! "role" with
        | Some (jwt.Str role) =>
            Ok {| service.ui_UserID := Z.to_N userIDFloat;
                  service.ui_Username := username;
                  service.ui_Role := role |}
        | _ => Err (entities.Errorf "invalid role in token")
        end
      | _ => Err (entities.Errorf "invalid username in token")
      end
    | _ => Err (entities.Errorf "invalid user_id in token")
    end.

End JWTService.


(** ** The user repository ([adapters/secondary/database/user_repository.go])

    The [users] table as the repository's statements read and write it: the
    rows in insertion order and the sequence behind [id SERIAL]. Of the
    schema ([createUsersTable]), the lengths of the [VARCHAR] columns, the
    unique index on [username] and the [CHECK] on [role] are kept; the
    connection is taken to be up. A lookup fails with [pgx.ErrNoRows]; one
    the server refuses to run (a username that is no text, an id beyond
    the type of the column) is counted with the lookups that find no row,
    since no caller of [GetByID] and [GetByUsername] looks at more of the
    error than whether it is [nil]. The messages of the server are
    shortened to their first words. *)

Module repository.
Import entities.

Record Store : Type := {
  rows : list User;
  next_id : N
}.

Definition by_id (id : N) (u : User) : bool := (ID u =? id)%N.
Definition by_username (username : string) (u : User) : bool := Username u =? username.

(** [CHECK (role IN ('admin', 'manager', 'user', 'guest'))] *)
Definition role_check (r : Role) : bool :=
  (r =? "admin") || (r =? "manager") || (r =? "user") || (r =? "guest").

(** [SELECT ... FROM users WHERE id = $1] *)
Definition GetByID (s : Store) (id : N) : result error User :=
  match find (by_id id) (rows s) with
  | Some u => Ok u
  | None => Err ErrUserNotFound
  end.

(** [SELECT ... FROM users WHERE username = $1] *)
Definition GetByUsername (s : Store) (username : string) : result error User :=
  match find (by_username username) (rows s) with
  | Some u => Ok u
  | None => Err ErrUserNotFound
  end.

(** Whether the server runs a prepared statement from a generic plan or
    from a custom one, which is for its plan cache to say and not for the
    program. In a custom plan the assignments of the parameters to their
    columns are folded while the statement is planned, so that a value too
    long is refused before anything is executed; in a generic plan they
    are evaluated for each row, after the defaults of the columns that
    come first. *)
Class PlanCache : Type := {
  generic_insert : Z -> Store -> User -> bool;
  generic_update : Z -> Store -> User -> bool
}.

(** The five text parameters of [INSERT] and [UPDATE] as they arrive. *)
Definition valid_params (user : User) : bool :=
  pg.valid_text (Username user) && pg.valid_text (Password user) &&
  pg.valid_text (FirstName user) && pg.valid_text (LastName user) &&
  pg.valid_text (Role_ user).

(** The values of [user] as assigned to the columns [username
    VARCHAR(50)], [password VARCHAR(255)], [first_name VARCHAR(50)],
    [last_name VARCHAR(50)] and [role VARCHAR(20)]; [None] when one of
    them is too long. *)
Definition assigned (user : User) : option User :=
  match pg.varchar 50 (Username user), pg.varchar 255 (Password user),
        pg.varchar 50 (FirstName user), pg.varchar 50 (LastName user),
        pg.varchar 20 (Role_ user) with
  | Some username, Some password, Some firstName, Some lastName, Some role =>
      Some {| ID := ID user; Username := username; Password := password;
              FirstName := firstName; LastName := lastName; Role_ := role;
              IsActive := IsActive user; LastLogin := LastLogin user;
              CreatedAt := CreatedAt user; UpdatedAt := UpdatedAt user |}
  | _, _, _, _, _ => None
  end.

(** A row whose text columns hold what they can hold. *)
Definition within_columns (r : User) : bool :=
  pg.fits 50 (Username r) && pg.fits 255 (Password r) &&
  pg.fits 50 (FirstName r) && pg.fits 50 (LastName r).

Section Statements.
Context {plans : PlanCache}.

(** [INSERT INTO users (...) VALUES (...) RETURNING id, created_at,
    updated_at]. A parameter that is no text is refused when it arrives,
    before the statement runs. The row is made of the values as assigned
    to the columns; it gets the next id and both timestamps, [last_login]
    stays [NULL]; the caller's struct gets the three returned columns and
    keeps its other fields. A row refused by the unique index or by the
    [CHECK] has drawn from the sequence; one refused for a value too long
    has if the plan was generic. *)
Definition Create (now : Z) (s : Store) (user : User) : result error User * Store :=
  if negb (valid_params user)
  then (Err (Errorf "failed to create user: invalid byte sequence for encoding UTF8"), s)
  else
    match assigned user with
    | None =>
        (Err (Errorf "failed to create user: value too long for type character varying"),
         {| rows := rows s;
            next_id := if generic_insert now s user then N.succ (next_id s)
                       else next_id s |})
    | Some values =>
      if existsb (by_username (Username values)) (rows s)
         || negb (role_check (Role_ values))
      then (Err (Errorf "failed to create user: constraint violation"),
            {| rows := rows s; next_id := N.succ (next_id s) |})
      else
        let row := {| ID := next_id s; Username := Username values;
                      Password := Password values; FirstName := FirstName values;
                      LastName := LastName values; Role_ := Role_ values;
                      IsActive := IsActive values; LastLogin := None;
                      CreatedAt := now; UpdatedAt := now |} in
        (Ok {| ID := next_id s; Username := Username user;
               Password := Password user; FirstName := FirstName user;
               LastName := LastName user; Role_ := Role_ user;
               IsActive := IsActive user; LastLogin := LastLogin user;
               CreatedAt := now; UpdatedAt := now |},
         {| rows := rows s ++ [row]; next_id := N.succ (next_id s) |})
    end.

(** The row of [user.ID] after [UPDATE users SET ... WHERE id = $1]. *)
Definition updated_row (now : Z) (user : User) (old : User) : User :=
  if by_id (ID user) old then
    {| ID := ID old; Username := Username user; Password := Password user;
       FirstName := FirstName user; LastName := LastName user;
       Role_ := Role_ user; IsActive := IsActive user;
       LastLogin := LastLogin user;
       CreatedAt := CreatedAt old; UpdatedAt := now |}
  else old.

(** [Update]: [nil] is [None]. A parameter that is no text is refused when
    it arrives. No row of that id: nothing is updated and no constraint is
    looked at, nor, in a generic plan, the length of a value. The row is
    updated with the values as assigned to the columns. *)
Definition Update (now : Z) (s : Store) (user : User) : option error * Store :=
  if negb (valid_params user)
  then (Some (Errorf "failed to update user: invalid byte sequence for encoding UTF8"), s)
  else
    match assigned user with
    | None =>
        if generic_update now s user && negb (existsb (by_id (ID user)) (rows s))
        then (Some ErrUserNotFound, s)
        else (Some (Errorf "failed to update user: value too long for type character varying"),
              s)
    | Some values =>
      if negb (existsb (by_id (ID user)) (rows s)) then (Some ErrUserNotFound, s)
      else if existsb (fun r => negb (by_id (ID user) r) && by_username (Username values) r)
                (rows s)
              || negb (role_check (Role_ values))
      then (Some (Errorf "failed to update user: constraint violation"), s)
      else (None, {| rows := map (updated_row now values) (rows s);
                     next_id := next_id s |})
    end.

End Statements.

(** [UPDATE users SET last_login = NOW() WHERE id = $1] *)
Definition UpdateLastLogin (now : Z) (s : Store) (userID : N) : option error * Store :=
  if negb (existsb (by_id userID) (rows s)) then (Some ErrUserNotFound, s)
  else (None,
        {| rows := map (fun r => if by_id userID r then set_LastLogin r (Some now) else r)
                       (rows s);
           next_id := next_id s |}).

(** [DELETE FROM users WHERE id = $1]; [nil] is [None]. *)
Definition Delete (s : Store) (id : N) : option error * Store :=
  if negb (existsb (by_id id) (rows s)) then (Some ErrUserNotFound, s)
  else (None, {| rows := List.filter (fun r => negb (by_id id r)) (rows s);
                 next_id := next_id s |}).

(** The order in which the database hands out the rows of a query that
    ends in [ORDER BY created_at DESC]. *)
Class RowOrder : Type := {
  order_by_created_at_desc : list User -> list User
}.

(** An ordering returns the rows it was given. *)
Definition order_keeps_rows `{RowOrder} : Prop :=
  forall l, Permutation (order_by_created_at_desc l) l.

Section Queries.
Context {order : RowOrder}.

(** [SELECT ... FROM users WHERE role = $1 ORDER BY created_at DESC] *)
Definition GetByRole (s : Store) (role : Role) : result error (list User) :=
  Ok (order_by_created_at_desc (List.filter (fun u => Role_ u =? role) (rows s))).

(** [SELECT ... FROM users WHERE role IN (...) ORDER BY created_at DESC];
    no query for an empty list of roles. *)
Definition GetByRoles (s : Store) (roles : list Role) : result error (list User) :=
  match roles with
  | [] => Ok []
  | _ =>
    Ok (order_by_created_at_desc
          (List.filter (fun u => existsb (String.eqb (Role_ u)) roles) (rows s)))
  end.

End Queries.

End repository.

(** ** Package [strings], the functions the user service calls *)

Module gotext.

(** [strings.ToLower] and [strings.Contains], left to the library. *)
Class Text : Type := {
  ToLower : string -> string;
  Contains : string -> string -> bool
}.

End gotext.

(** ** The services ([core/services]) *)

Module services.
Import entities repository.

(** *** [auth_service.go] *)

Definition getDefaultRole (role : Role) : Role :=
  if role =? "" then RoleUser
  else if (role =? RoleAdmin) || (role =? RoleManager) ||
          (role =? RoleUser) || (role =? RoleGuest)
       then role
       else RoleUser.

(** [validateRegistrationRequest]: [nil] is [None]. *)
Definition validateRegistrationRequest (req : service.RegisterRequest) : option error :=
  if (service.rr_Username req =? "") || (String.length (service.rr_Username req) <? 3)%nat
  then Some ErrInvalidUsername
  else if (service.rr_Password req =? "") || (String.length (service.rr_Password req) <? 8)%nat
  then Some ErrPasswordTooShort
  else None.

Definition getUserByUsername (s : Store) (username : string) : result error User :=
  match GetByUsername s username with
  | Err _ => Err ErrUserNotFound
  | Ok user => Ok user
  end.

(** [token.Claims.(jwt.MapClaims)["user_id"].(float64)] *)
Definition claim_user_id (token : jwt.Token) : option Z :=
  match jwt.Claims token !! "user_id" with
  | Some (jwt.Number userID) => Some userID
  | _ => None
  end.

Section AuthService.
Context {codec : jwt.Codec} {bcrypt : Bcrypt} {plans : PlanCache}.
Variable cfg : config.JWTConfig.

Definition Login (now : Z) (s : Store) (req : service.LoginRequest)
  : result error service.LoginResponse * Store :=
  if (service.lr_Username req =? "") || (service.lr_Password req =? "")
  then (Err ErrInvalidCredentials, s)
  else
    match getUserByUsername s (service.lr_Username req) with
    | Err _ => (Err ErrInvalidCredentials, s)
    | Ok user =>
      if negb (IsActive user) then (Err ErrUserDeactivated, s)
      else if negb (VerifyPassword user (service.lr_Password req))
      then (Err ErrInvalidCredentials, s)
      else
        match JWTService.GenerateAccessToken cfg now user with
        | Err e => (Err e, s)
        | Ok accessToken =>
          match JWTService.GenerateRefreshToken cfg now user with
          | Err e => (Err e, s)
          | Ok refreshToken =>
            let user := entities.UpdateLastLogin now user in
            (* the error of the repository call is dropped *)
            let s' := snd (repository.UpdateLastLogin now s (ID user)) in
            (Ok {| service.AccessToken := accessToken;
                   service.RefreshToken := refreshToken;
                   service.User := user;
                   service.ExpiresIn := 15 |}, s')
          end
        end
    end.

Definition Register (now : Z) (s : Store) (req : service.RegisterRequest)
  : result error User * Store :=
  match validateRegistrationRequest req with
  | Some e => (Err e, s)
  | None =>
    if is_ok (GetByUsername s (service.rr_Username req)) then (Err ErrUserAlreadyExists, s)
    else
      let user := {| ID := 0; Username := service.rr_Username req; Password := "";
                     FirstName := service.rr_FirstName req; LastName := service.rr_LastName req;
                     Role_ := getDefaultRole (service.rr_Role req); IsActive := true;
                     LastLogin := None; CreatedAt := 0; UpdatedAt := 0 |} in
      match SetPassword user (service.rr_Password req) with
      | Err e => (Err e, s)
      | Ok user =>
        match entities.Validate user with
        | Some e => (Err e, s)
        | None => Create now s user
        end
      end
  end.

Definition RefreshToken (now : Z) (s : Store) (req : service.RefreshTokenRequest)
  : result error service.LoginResponse :=
  match JWTService.ParseRefreshToken cfg now (service.rt_RefreshToken req) with
  | Err _ => Err ErrInvalidToken
  | Ok token =>
    match claim_user_id token with
    | None => Err ErrInvalidToken
    | Some userID =>
      match GetByID s (Z.to_N userID) with
      | Err _ => Err ErrUserNotFound
      | Ok user =>
        if negb (IsActive user) then Err ErrUserDeactivated
        else
          match JWTService.GenerateAccessToken cfg now user with
          | Err e => Err e
          | Ok accessToken =>
            match JWTService.GenerateRefreshToken cfg now user with
            | Err e => Err e
            | Ok newRefreshToken =>
              Ok {| service.AccessToken := accessToken;
                    service.RefreshToken := newRefreshToken;
                    service.User := user;
                    service.ExpiresIn := 15 |}
            end
          end
      end
    end
  end.

(** [Logout]: [nil] is [None]. *)
Definition Logout (now : Z) (token : string) : option error :=
  match JWTService.ParseAccessToken cfg now token with
  | Err _ => None
  | Ok parsedToken =>
    match claim_user_id parsedToken with
    | None => None
    | Some _ => None
    end
  end.

Definition ValidateToken (now : Z) (s : Store) (token : string) : result error User :=
  match JWTService.ParseAccessToken cfg now token with
  | Err _ => Err ErrInvalidToken
  | Ok parsedToken =>
    match claim_user_id parsedToken with
    | None => Err ErrInvalidToken
    | Some userID =>
      match GetByID s (Z.to_N userID) with
      | Err _ => Err ErrUserNotFound
      | Ok user =>
        if negb (IsActive user) then Err ErrUserDeactivated else Ok user
      end
    end
  end.

End AuthService.

(** *** [user_service.go], activation *)

Section Activation.
Context {plans : PlanCache}.

Definition toggleUserActiveStatus (now : Z) (s : Store) (id : N) (isActive : bool)
  : option error * Store :=
  match GetByID s id with
  | Err _ => (Some ErrUserNotFound, s)
  | Ok user => Update now s (set_IsActive user isActive)
  end.

Definition ActivateUser (now : Z) (s : Store) (id : N) := toggleUserActiveStatus now s id true.
Definition DeactivateUser (now : Z) (s : Store) (id : N) := toggleUserActiveStatus now s id false.

End Activation.


(** *** [user_service.go] *)

(** The outcome of code that may panic on a slice out of range. *)
Inductive outcome (A : Type) : Type :=
| Returns (a : A)
| Panics.
Arguments Returns {A} a.
Arguments Panics {A}.

(** Addition of two [int]s. *)
Definition int_add (a b : Z) : Z := time.wrap_int64 (a + b).

Definition getValidRole (role : Role) : Role :=
  if (role =? RoleAdmin) || (role =? RoleManager) ||
     (role =? RoleUser) || (role =? RoleGuest)
  then role
  else RoleUser.

(** [validateCreateUserRequest]: [nil] is [None]. *)
Definition validateCreateUserRequest (req : service.CreateUserRequest) : option error :=
  if (service.cu_Username req =? "") || (String.length (service.cu_Username req) <? 3)%nat
  then Some ErrInvalidUsername
  else if (service.cu_Password req =? "") || (String.length (service.cu_Password req) <? 8)%nat
  then Some ErrPasswordTooShort
  else None.

(** [validateUpdateUserRequest]: [nil] is [None]. *)
Definition validateUpdateUserRequest (req : service.UpdateUserRequest) : option error :=
  match service.uu_Username req with
  | Some username =>
      if (username =? "") || (String.length username <? 3)%nat
      then Some ErrInvalidUsername else None
  | None => None
  end.

Definition filterUsersByActiveStatus (users : list User) (isActive : bool) : list User :=
  List.filter (fun user => Bool.eqb (IsActive user) isActive) users.

(** [paginateUsers]; the slice expression [users[offset:end]] panics
    unless [0 <= offset <= end]. *)
Definition paginateUsers (users : list User) (limit offset : Z) : outcome (list User) :=
  let len := Z.of_nat (List.length users) in
  if (offset >=? len)%Z then Returns []
  else
    let end_ := int_add offset limit in
    let end_ := if (end_ >? len)%Z then len else end_ in
    if (0 <=? offset)%Z && (offset <=? end_)%Z
    then Returns (firstn (Z.to_nat (end_ - offset)) (skipn (Z.to_nat offset) users))
    else Panics.

Definition GetUser (s : Store) (id : N) : result error User :=
  match GetByID s id with
  | Err _ => Err ErrUserNotFound
  | Ok user => Ok user
  end.

Definition GetCurrentUser (s : Store) (userID : N) : result error User := GetUser s userID.

(** [DeleteUser]: [nil] is [None]. *)
Definition DeleteUser (s : Store) (id : N) : option error * Store :=
  match GetByID s id with
  | Err _ => (Some ErrUserNotFound, s)
  | Ok _ => Delete s id
  end.

(** [ResetPassword]: nothing is done yet, for a known user or not. *)
Definition ResetPassword (s : Store) (username : string) : option error :=
  match GetByUsername s username with
  | Err _ => None
  | Ok _ => None
  end.

Definition ConfirmPasswordReset (req : service.ConfirmPasswordResetRequest) : option error :=
  if (service.cr_Token req =? "") || (String.length (service.cr_NewPassword req) <? 8)%nat
  then Some ErrPasswordTooShort
  else None.

(** The fields of an update request written over the user, once the new
    username has been dealt with. *)
Definition apply_update (user : User) (req : service.UpdateUserRequest) : User :=
  let user := match service.uu_FirstName req with
              | Some name => set_FirstName user name
              | None => user
              end in
  let user := match service.uu_LastName req with
              | Some name => set_LastName user name
              | None => user
              end in
  let user := match service.uu_Role req with
              | Some role => set_Role user (getValidRole role)
              | None => user
              end in
  match service.uu_IsActive req with
  | Some isActive => set_IsActive user isActive
  | None => user
  end.

Section UserUpdate.
Context {plans : PlanCache}.

Definition UpdateUser (now : Z) (s : Store) (id : N) (req : service.UpdateUserRequest)
  : result error User * Store :=
  match GetByID s id with
  | Err _ => (Err ErrUserNotFound, s)
  | Ok user =>
    match validateUpdateUserRequest req with
    | Some err => (Err err, s)
    | None =>
      let renamed :=
        match service.uu_Username req with
        | Some username =>
          match GetByUsername s username with
          | Ok existingUser =>
              if negb (ID existingUser =? ID user)%N then Err ErrUserAlreadyExists
              else Ok (set_Username user username)
          | Err _ => Ok (set_Username user username)
          end
        | None => Ok user
        end in
      match renamed with
      | Err err => (Err err, s)
      | Ok user =>
        let user := apply_update user req in
        match entities.Validate user with
        | Some err => (Err err, s)
        | None =>
          match Update now s user with
          | (Some err, s') => (Err err, s')
          | (None, s') => (Ok user, s')
          end
        end
      end
    end
  end.

End UserUpdate.

Section UserService.
Context {bcrypt : Bcrypt} {plans : PlanCache}.

Definition CreateUser (now : Z) (s : Store) (req : service.CreateUserRequest)
  : result error User * Store :=
  match validateCreateUserRequest req with
  | Some err => (Err err, s)
  | None =>
    if is_ok (GetByUsername s (service.cu_Username req)) then (Err ErrUserAlreadyExists, s)
    else
      let user := {| ID := 0; Username := service.cu_Username req; Password := "";
                     FirstName := service.cu_FirstName req;
                     LastName := service.cu_LastName req;
                     Role_ := getValidRole (service.cu_Role req);
                     IsActive := service.cu_IsActive req;
                     LastLogin := None; CreatedAt := 0; UpdatedAt := 0 |} in
      match SetPassword user (service.cu_Password req) with
      | Err err => (Err err, s)
      | Ok user =>
        match entities.Validate user with
        | Some err => (Err err, s)
        | None => Create now s user
        end
      end
  end.

(** [ChangePassword]: [nil] is [None]. *)
Definition ChangePassword (now : Z) (s : Store) (userID : N)
    (req : service.ChangePasswordRequest) : option error * Store :=
  match GetByID s userID with
  | Err _ => (Some ErrUserNotFound, s)
  | Ok user =>
    if negb (VerifyPassword user (service.cp_CurrentPassword req))
    then (Some ErrInvalidCredentials, s)
    else if (String.length (service.cp_NewPassword req) <? 8)%nat
    then (Some ErrPasswordTooShort, s)
    else
      match SetPassword user (service.cp_NewPassword req) with
      | Err err => (Some err, s)
      | Ok user => Update now s user
      end
  end.

End UserService.

Section Listing.
Context {order : RowOrder} {text : gotext.Text}.

Definition filterUsersByText (users : list User) (search : string) : list User :=
  if search =? "" then users
  else
    let searchLower := gotext.ToLower search in
    List.filter
      (fun user =>
         gotext.Contains (gotext.ToLower (Username user)) searchLower ||
         gotext.Contains (gotext.ToLower (FirstName user)) searchLower ||
         gotext.Contains (gotext.ToLower (LastName user)) searchLower)
      users.

Definition ListUsersForManager (s : Store) (req : service.ListUsersRequest)
  : outcome (result error service.ListUsersResponse) :=
  let limit := if (service.lu_Limit req <=? 0)%Z || (service.lu_Limit req >? 100)%Z
               then 20%Z else service.lu_Limit req in
  let offset := if (service.lu_Offset req <? 0)%Z then 0%Z else service.lu_Offset req in
  let requestedRole := service.lu_Role req in
  if negb (requestedRole =? "") && negb (requestedRole =? RoleUser)
     && negb (requestedRole =? RoleGuest)
  then Returns (Ok {| service.Users := []; service.Total := 0;
                      service.Limit := limit; service.Offset := offset |})
  else
    match (if requestedRole =? "" then GetByRoles s [RoleUser; RoleGuest]
           else GetByRole s requestedRole) with
    | Err err => Returns (Err err)
    | Ok users =>
      let users := if negb (service.lu_Search req =? "")
                   then filterUsersByText users (service.lu_Search req)
                   else users in
      let total := Z.of_nat (List.length users) in
      match paginateUsers users limit offset with
      | Panics => Panics
      | Returns users =>
        let users := match service.lu_IsActive req with
                     | Some isActive => filterUsersByActiveStatus users isActive
                     | None => users
                     end in
        Returns (Ok {| service.Users := users; service.Total := total;
                       service.Limit := limit; service.Offset := offset |})
      end
    end.

End Listing.
End services.


(** ** Package [strings] *)

Module gostrings.

(** The text before and after the first space, when there is one. *)
Fixpoint cut_space (s : string) : option (string * string) :=
  match s with
  | EmptyString => None
  | String c rest =>
    if Ascii.eqb c " " then Some (EmptyString, rest)
    else match cut_space rest with
         | Some (before, after) => Some (String c before, after)
         | None => None
         end
  end.

(** [strings.SplitN(s, " ", 2)] *)
Definition SplitN_space_2 (s : string) : list string :=
  match cut_space s with
  | Some (before, after) => [before; after]
  | None => [s]
  end.

End gostrings.

(** ** The request context ([gin.Context]) *)

Module gin.

(** Values stored under [c.Set]. *)
Inductive Any : Type :=
| AnyUint (n : N)
| AnyString (s : string)
| AnyUserInfo (u : service.UserInfo).

(** [gin.H] with the values the handlers write. *)
Inductive HValue : Type :=
| HBool (b : bool)
| HString (s : string).

Definition H := list (string * HValue).

(** A [Set-Cookie] header of the response. *)
Record SetCookieHeader : Type := {
  ck_Name : string;
  ck_Value : string;
  ck_MaxAge : Z;
  ck_Path : string;
  ck_Domain : string;
  ck_Secure : bool;
  ck_HttpOnly : bool
}.

(** The request: its headers by canonical name, and its cookies in the
    order of the [Cookie] header, values unescaped. *)
Record Request : Type := {
  Header : gmap string string;
  Cookies : list (string * string)
}.

Record Context : Type := {
  Request_ : Request;
  Keys : gmap string Any;
  Response : option (Z * H);            (* status and body written *)
  SetCookies : list SetCookieHeader;    (* in the order written *)
  IsAborted : bool
}.

Definition GetHeader (c : Context) (key : string) : string :=
  default "" (Header (Request_ c) !! key).

(** [c.Cookie(name)]: the first cookie of that name. *)
Definition Cookie (c : Context) (name : string) : result entities.error string :=
  match find (fun kv => fst kv =? name) (Cookies (Request_ c)) with
  | Some kv => Ok (snd kv)
  | None => Err (entities.Errorf "http: named cookie not present")
  end.

Definition Set_ (c : Context) (key : string) (value : Any) : Context :=
  {| Request_ := Request_ c; Keys := <[ key := value ]> (Keys c);
     Response := Response c; SetCookies := SetCookies c; IsAborted := IsAborted c |}.

Definition Get (c : Context) (key : string) : option Any := Keys c !! key.

Definition JSON (c : Context) (code : Z) (obj : H) : Context :=
  {| Request_ := Request_ c; Keys := Keys c;
     Response := Some (code, obj); SetCookies := SetCookies c; IsAborted := IsAborted c |}.

Definition Abort (c : Context) : Context :=
  {| Request_ := Request_ c; Keys := Keys c;
     Response := Response c; SetCookies := SetCookies c; IsAborted := true |}.

Definition SetCookie (c : Context) (name value : string) (maxAge : Z)
    (path domain : string) (secure httpOnly : bool) : Context :=
  {| Request_ := Request_ c; Keys := Keys c; Response := Response c;
     SetCookies := SetCookies c ++
       [ {| ck_Name := name; ck_Value := value; ck_MaxAge := maxAge;
            ck_Path := if path =? "" then "/" else path;
            ck_Domain := domain; ck_Secure := secure; ck_HttpOnly := httpOnly |} ];
     IsAborted := IsAborted c |}.

(** [c.Next()] as the last action of a handler: the chain goes on, which
    is what returning without [Abort] does. *)
Definition Next (c : Context) : Context := c.

Definition HandlerFunc := Context -> Context.

(** The handler chain of a route: each handler in turn until one aborts. *)
Fixpoint run (handlers : list HandlerFunc) (c : Context) : Context :=
  match handlers with
  | [] => c
  | h :: rest => let c' := h c in if IsAborted c' then c' else run rest c'
  end.

Definition StatusUnauthorized : Z := 401.
Definition StatusForbidden : Z := 403.
Definition StatusInternalServerError : Z := 500.

End gin.

(** ** The cookie service ([adapters/secondary/cookie/cookie.go]) *)

Module cookie.
Import gin.

Record CookieService : Type := {
  accessTokenName : string;
  refreshTokenName : string;
  domain : string;
  secure : bool;
  httpOnly : bool
}.

Definition NewCookieService : CookieService :=
  {| accessTokenName := "access_token";
     refreshTokenName := "refresh_token";
     domain := "";
     secure := false;
     httpOnly := true |}.

Section CookieService.
Variable s : CookieService.

Definition SetAuthCookies (c : Context) (accessToken refreshToken : string) : Context :=
  let c := SetCookie c (accessTokenName s) accessToken (15 * 60) "/"
             (domain s) (secure s) (httpOnly s) in
  SetCookie c (refreshTokenName s) refreshToken (7 * 24 * 60 * 60) "/"
    (domain s) (secure s) (httpOnly s).

Definition GetAccessToken (c : Context) : result entities.error string :=
  match Cookie c (accessTokenName s) with
  | Err _ => Err (entities.Errorf "access token not found in cookie")
  | Ok token => Ok token
  end.

Definition GetRefreshToken (c : Context) : result entities.error string :=
  match Cookie c (refreshTokenName s) with
  | Err _ => Err (entities.Errorf "refresh token not found in cookie")
  | Ok token => Ok token
  end.

Definition GetTokenFromRequest (c : Context) : result entities.error string :=
  match GetAccessToken c with
  | Ok token => Ok token
  | Err _ =>
    let authHeader := GetHeader c "Authorization" in
    if authHeader =? "" then Err (entities.Errorf "no token found in request")
    else if (7 <? String.length authHeader)%nat && (substring 0 7 authHeader =? "Bearer ")
    then Ok (substring 7 (String.length authHeader - 7) authHeader)
    else Err (entities.Errorf "invalid authorization header format")
  end.

Definition ClearAuthCookies (c : Context) : Context :=
  let c := SetCookie c (accessTokenName s) "" (-1) "/" (domain s) (secure s) (httpOnly s) in
  SetCookie c (refreshTokenName s) "" (-1) "/" (domain s) (secure s) (httpOnly s).

End CookieService.
End cookie.

(** ** The middleware ([package middleware]) *)

Module middleware.
Import gin.

Definition isTokenExpiredError (err : entities.error) : bool :=
  (entities.Error err =? "token is expired") || (entities.Error err =? "Token is expired").

(** The four [c.Set] calls that attach the identity. *)
Definition set_user_info (c : Context) (userInfo : service.UserInfo) : Context :=
  let c := Set_ c "user_id" (AnyUint (service.ui_UserID userInfo)) in
  let c := Set_ c "username" (AnyString (service.ui_Username userInfo)) in
  let c := Set_ c "role" (AnyString (service.ui_Role userInfo)) in
  Set_ c "user_info" (AnyUserInfo userInfo).

(** [c.JSON(http.StatusUnauthorized, gin.H{...}); c.Abort()] *)
Definition unauthorized (c : Context) (message details : string) : Context :=
  Abort (JSON c StatusUnauthorized
           [("success", HBool false); ("error", HString "Unauthorized");
            ("message", HString message); ("details", HString details)]).

Section AuthMiddleware.
Context {codec : jwt.Codec}.
Variable cfg : config.JWTConfig.              (* of the jwtService *)
Variable cookieService : cookie.CookieService.

Definition extractToken (c : Context) : result entities.error string :=
  let authHeader := GetHeader c "Authorization" in
  match
    (if negb (authHeader =? "") then
       match gostrings.SplitN_space_2 authHeader with
       | [scheme; credential] =>
           if scheme =? "Bearer" then Some credential else None
       | _ => None
       end
     else None)
  with
  | Some credential => Ok credential
  | None =>
    match cookie.GetTokenFromRequest cookieService c with
    | Ok token =>
        if negb (token =? "") then Ok token
        else Err (entities.Errorf "no token found")
    | Err _ => Err (entities.Errorf "no token found")
    end
  end.

(** [attemptTokenRefresh]: at instant [now], with the auth service reading
    the store [s]; returns the flag and the context as left. *)
Definition attemptTokenRefresh (now : Z) (s : repository.Store) (c : Context)
  : bool * Context :=
  match cookie.GetRefreshToken cookieService c with
  | Err _ => (false, c)
  | Ok refreshToken =>
    match services.RefreshToken cfg now s {| service.rt_RefreshToken := refreshToken |} with
    | Err _ => (false, c)
    | Ok response =>
      let c := cookie.SetAuthCookies cookieService c
                 (service.AccessToken response) (service.RefreshToken response) in
      match JWTService.ParseAccessToken cfg now (service.AccessToken response) with
      | Err _ => (false, c)
      | Ok parsedToken =>
        match JWTService.ExtractUserFromToken parsedToken with
        | Err _ => (false, c)
        | Ok userInfo => (true, set_user_info c userInfo)
        end
      end
    end
  end.

Definition RequireAuth (now : Z) (s : repository.Store) : HandlerFunc := fun c =>
  match extractToken c with
  | Err _ =>
      unauthorized c "Invalid or missing token" "Please provide a valid authentication token"
  | Ok token =>
    match JWTService.ParseAccessToken cfg now token with
    | Err err =>
      let invalid c := unauthorized c "Invalid token" "Token validation failed" in
      if isTokenExpiredError err then
        let (refreshed, c) := attemptTokenRefresh now s c in
        if refreshed then Next c else invalid c
      else invalid c
    | Ok parsedToken =>
      match JWTService.ExtractUserFromToken parsedToken with
      | Err _ =>
          unauthorized c "Invalid token data" "Token contains invalid user information"
      | Ok userInfo => Next (set_user_info c userInfo)
      end
    end
  end.

End AuthMiddleware.

Definition RequireRole (role : entities.Role) : HandlerFunc := fun c =>
  match Get c "role" with
  | None =>
      Abort (JSON c StatusUnauthorized
               [("success", HBool false); ("error", HString "Unauthorized");
                ("message", HString "User role not found")])
  | Some (AnyString userRoleStr) =>
      if negb (userRoleStr =? role) then
        Abort (JSON c StatusForbidden
                 [("success", HBool false); ("error", HString "Forbidden");
                  ("message", HString ("Required role: " +:+ role))])
      else Next c
  | Some _ =>
      Abort (JSON c StatusInternalServerError
               [("success", HBool false); ("error", HString "Internal Server Error");
                ("message", HString "Invalid user role format")])
  end.

Definition RequireAdmin : HandlerFunc := RequireRole entities.RoleAdmin.

Definition RequireManagerOrHigher : HandlerFunc := fun c =>
  match Get c "role" with
  | None =>
      Abort (JSON c StatusUnauthorized
               [("success", HBool false); ("error", HString "Unauthorized");
                ("message", HString "User role not found")])
  | Some (AnyString userRoleStr) =>
      if negb (userRoleStr =? entities.RoleAdmin) && negb (userRoleStr =? entities.RoleManager)
      then
        Abort (JSON c StatusForbidden
                 [("success", HBool false); ("error", HString "Forbidden");
                  ("message", HString "Required role: manager or admin")])
      else Next c
  | Some _ =>
      Abort (JSON c StatusInternalServerError
               [("success", HBool false); ("error", HString "Internal Server Error");
                ("message", HString "Invalid user role format")])
  end.

End middleware.


(** ** The auth handler ([adapters/primary/api]), logout *)

Module api.
Import gin.

Definition StatusOK : Z := 200.

Section AuthHandler.
Context {codec : jwt.Codec}.
Variable cfg : config.JWTConfig.              (* of the jwtService *)
Variable cookieService : cookie.CookieService.

(** [Logout]. The identity read from the token goes to the log only. *)
Definition Logout (now : Z) : HandlerFunc := fun c =>
  match cookie.GetTokenFromRequest cookieService c with
  | Err _ =>
      JSON c StatusOK [("success", HBool true); ("message", HString "Already logged out")]
  | Ok token =>
    match services.Logout cfg now token with
    | Some _ =>
        JSON c StatusInternalServerError
          [("error", HString "Internal Server Error"); ("message", HString "Logout failed")]
    | None =>
        let c := cookie.ClearAuthCookies cookieService c in
        JSON c StatusOK
          [("success", HBool true); ("message", HString "Logged out successfully")]
    end
  end.

End AuthHandler.
End api.

(** ** A codec and a hash to run the model with

    [plain.codec] writes a token as the binary digits of a number that
    encodes its algorithm, claims and signature, and [plain.bcrypt] keeps
    the first characters of the password behind a fixed prefix. They stand in for base64url/JSON,
    HMAC-SHA256 and bcrypt where a statement is evaluated on concrete
    requests; [plain.codec] satisfies [jwt.codec_roundtrip]. *)

Module plain.

#[global] Instance Value_eq_dec : EqDecision jwt.Value.
Proof. solve_decision. Defined.

Definition Value_to_sum (v : jwt.Value) : Z + string + list string + string :=
  match v with
  | jwt.Number n => inl (inl (inl n))
  | jwt.Str s => inl (inl (inr s))
  | jwt.Strs l => inl (inr l)
  | jwt.Other raw => inr raw
  end.

Definition Value_of_sum (x : Z + string + list string + string) : jwt.Value :=
  match x with
  | inl (inl (inl n)) => jwt.Number n
  | inl (inl (inr s)) => jwt.Str s
  | inl (inr l) => jwt.Strs l
  | inr raw => jwt.Other raw
  end.

#[global] Program Instance Value_countable : Countable jwt.Value :=
  inj_countable' Value_to_sum Value_of_sum _.
Next Obligation. intros []; reflexivity. Qed.

Fixpoint digits (p : positive) : string :=
  match p with
  | xH => EmptyString
  | xO q => String "0" (digits q)
  | xI q => String "1" (digits q)
  end.

Fixpoint of_digits (s : string) : option positive :=
  match s with
  | EmptyString => Some xH
  | String c rest =>
    if Ascii.eqb c "0" then xO <$> of_digits rest
    else if Ascii.eqb c "1" then xI <$> of_digits rest
    else None
  end.

Definition signing_input (alg : string) (m : jwt.MapClaims) : string :=
  digits (encode (alg, m)).

Definition encode_token (alg : string) (m : jwt.MapClaims) (sig : string) : string :=
  digits (encode (alg, m, sig)).

Definition decode_token (s : string) : result string jwt.Segments :=
  match of_digits s ≫= decode with
  | Some (alg, m, sig) =>
      Ok {| jwt.seg_alg := Some alg; jwt.seg_claims := m;
            jwt.seg_signing_input := signing_input alg m;
            jwt.seg_signature := sig |}
  | None => Err "token contains an invalid number of segments"
  end.

(** A short tag of the key and the message. *)
Definition hmac (alg key message : string) : string :=
  alg +:+ ":" +:+ key +:+ ":" +:+ pretty.pretty (String.length message).

Definition codec : jwt.Codec :=
  {| jwt.signing_input := signing_input;
     jwt.encode_token := encode_token;
     jwt.decode_token := decode_token;
     jwt.hmac := hmac |}.

(** [n] characters made of [s]: its first characters, a dot for each that
    is not visible ASCII, and dots to fill. *)
Fixpoint fill (n : nat) (s : string) : string :=
  match n with
  | O => EmptyString
  | S n' =>
    match s with
    | EmptyString => String "." (fill n' EmptyString)
    | String c rest =>
        String (if pg.between 33 126 c then c else "."%char) (fill n' rest)
    end
  end.

(** The hash of a password: 60 characters behind the prefix of bcrypt. *)
Definition hash (password : string) : string := "$2a$10$" +:+ fill 53 password.

Program Definition bcrypt : entities.Bcrypt :=
  {| entities.GenerateFromPassword := fun password =>
       if (72 <? String.length password)%nat then Err entities.ErrPasswordTooLong
       else Ok (hash password);
     entities.CompareHashAndPassword := fun stored password =>
       stored =? hash password |}.
Next Obligation.
  intros password H. cbv beta. apply Nat.ltb_lt in H. rewrite H. reflexivity.
Qed.
Next Obligation.
  intros password H. cbv beta. apply Nat.ltb_ge in H. rewrite H. reflexivity.
Qed.
Next Obligation.
  intros password stored H. cbv beta in H.
  destruct (72 <? String.length password)%nat; [discriminate|].
  injection H as <-. unfold hash.
  assert (Hfill : forall n s, String.length (fill n s) = n /\ pg.printable (fill n s) = true).
  { induction n as [|n IH]; intros s; [split; reflexivity|].
    destruct s as [|c rest]; cbn [fill String.length pg.printable].
    - destruct (IH EmptyString) as [-> ->]. split; reflexivity.
    - destruct (IH rest) as [-> ->]. split; [reflexivity|].
      destruct (pg.between 33 126 c) eqn:E; [rewrite E|]; reflexivity. }
  destruct (Hfill 53%nat password) as [Hlen Hprint].
  split.
  - change (S (S (S (S (S (S (S (String.length (fill 53 password)))))))) = 60%nat).
    rewrite Hlen. reflexivity.
  - change (pg.printable (fill 53 password) = true). exact Hprint.
Qed.

(** A plan cache that turns to generic plans at even instants. *)
Definition plans : repository.PlanCache :=
  {| repository.generic_insert := fun now _ _ => Z.even now;
     repository.generic_update := fun now _ _ => Z.even now |}.

(** Rows by insertion, newest first. *)
Fixpoint insert_row (u : entities.User) (l : list entities.User) : list entities.User :=
  match l with
  | [] => [u]
  | v :: rest =>
    if (entities.CreatedAt v <? entities.CreatedAt u)%Z then u :: l
    else v :: insert_row u rest
  end.

Definition newest_first (l : list entities.User) : list entities.User :=
  fold_right insert_row [] l.

Definition row_order : repository.RowOrder :=
  {| repository.order_by_created_at_desc := newest_first |}.

(** Lower case of the letters A to Z. *)
Definition lower_ascii (c : ascii) : ascii :=
  let n := nat_of_ascii c in
  if (65 <=? n)%nat && (n <=? 90)%nat then ascii_of_nat (n + 32) else c.

Fixpoint lower (s : string) : string :=
  match s with
  | EmptyString => EmptyString
  | String c rest => String (lower_ascii c) (lower rest)
  end.

Fixpoint contains (s sub : string) : bool :=
  if String.prefix sub s then true
  else match s with
       | EmptyString => false
       | String _ rest => contains rest sub
       end.

Definition text : gotext.Text :=
  {| gotext.ToLower := lower; gotext.Contains := contains |}.

End plain.


(** ** Notions the statements use *)

Module spec.

(** [s] without the prefix [p], when it starts with it. *)
Fixpoint strip_prefix (p s : string) : option string :=
  match p, s with
  | EmptyString, _ => Some s
  | String a p', String b s' => if Ascii.eqb a b then strip_prefix p' s' else None
  | String _ _, EmptyString => None
  end.

(** The bearer credential of an authorization header: what follows
    ["Bearer "]. *)
Definition bearer_credential (authHeader : string) : option string :=
  strip_prefix "Bearer " authHeader.

(** The token stored in the cookie [name]: the value of the first cookie
    of that name, when it is not empty. *)
Definition cookie_token (name : string) (c : gin.Context) : option string :=
  match find (fun kv => fst kv =? name) (gin.Cookies (gin.Request_ c)) with
  | Some kv => if snd kv =? "" then None else Some (snd kv)
  | None => None
  end.

(** No space in [s]. *)
Fixpoint no_space (s : string) : bool :=
  match s with
  | EmptyString => true
  | String c rest => negb (Ascii.eqb c " ") && no_space rest
  end.


(** [username] is the username of some row of the store. *)
Definition present (s : repository.Store) (username : string) : Prop :=
  exists u, In u (repository.rows s) /\ entities.Username u = username.

(** The status of the response written, if any. *)
Definition status (c : gin.Context) : option Z := fst <$> gin.Response c.

(** The [ExpiresIn] of a successful response. *)
Definition expires_in (r : result entities.error service.LoginResponse) : option Z :=
  match r with
  | Ok response => Some (service.ExpiresIn response)
  | Err _ => None
  end.

(** The expiry date, in seconds, that the access token of a successful
    response carries (read with [plain.codec]). *)
Definition access_token_expiry (r : result entities.error service.LoginResponse)
  : option Z :=
  match r with
  | Ok response =>
    match plain.decode_token (service.AccessToken response) with
    | Ok seg =>
      match jwt.seg_claims seg !! "exp" with
      | Some (jwt.Number exp) => Some exp
      | _ => None
      end
    | Err _ => None
    end
  | Err _ => None
  end.


(** The table is as its schema keeps it: ids and usernames are unique, the
    ids are below the sequence, every role passes the [CHECK], and every
    text column holds a text of at most its length. *)
Definition well_formed (s : repository.Store) : Prop :=
  List.NoDup (map entities.ID (repository.rows s)) /\
  List.NoDup (map entities.Username (repository.rows s)) /\
  Forall (fun r => (entities.ID r < repository.next_id s)%N) (repository.rows s) /\
  Forall (fun r => repository.role_check (entities.Role_ r) = true) (repository.rows s) /\
  Forall (fun r => repository.within_columns r = true) (repository.rows s).

(** The encoding of one character: whatever follows it, [pg.chars] finds
    it first. *)
Definition is_char (c : string) : Prop :=
  c <> "" /\ forall t, pg.chars (c +:+ t) = pg.followed_by c (pg.chars t).

(** A text as a [VARCHAR(n)] column that accepts it stores it. *)
Definition column (n : nat) (text : string) : string :=
  match pg.varchar n text with
  | Some stored => stored
  | None => text
  end.

(** The row the table holds for a user that [Create] has returned. *)
Definition as_stored (u : entities.User) : entities.User :=
  {| entities.ID := entities.ID u;
     entities.Username := column 50 (entities.Username u);
     entities.Password := column 255 (entities.Password u);
     entities.FirstName := column 50 (entities.FirstName u);
     entities.LastName := column 50 (entities.LastName u);
     entities.Role_ := column 20 (entities.Role_ u);
     entities.IsActive := entities.IsActive u; entities.LastLogin := None;
     entities.CreatedAt := entities.CreatedAt u;
     entities.UpdatedAt := entities.UpdatedAt u |}.


(** The identity a token of [user] carries. *)
Definition identity_of (user : entities.User) : service.UserInfo :=
  {| service.ui_UserID := entities.ID user;
     service.ui_Username := entities.Username user;
     service.ui_Role := entities.Role_ user |}.

(** The expiry date, in seconds, of a token issued at [issued] to live
    [ttl] minutes. *)
Definition expiry (issued ttl : Z) : Z := time.Unix (time.Add issued (time.Minutes ttl)).

(** [now] is within the lifetime of such a token. *)
Definition live (issued ttl now : Z) : Prop :=
  (issued <= now)%Z /\ time.Before now (expiry issued ttl) = true.

(** A row without its last login. *)
Definition forget_last_login (u : entities.User) : entities.User :=
  entities.set_LastLogin u None.

(** A row after [toggleUserActiveStatus]: the flag as asked, the update
    stamp renewed, the rest as it was. *)
Definition toggled (now : Z) (isActive : bool) (r : entities.User) : entities.User :=
  {| entities.ID := entities.ID r; entities.Username := entities.Username r;
     entities.Password := entities.Password r;
     entities.FirstName := entities.FirstName r; entities.LastName := entities.LastName r;
     entities.Role_ := entities.Role_ r; entities.IsActive := isActive;
     entities.LastLogin := entities.LastLogin r;
     entities.CreatedAt := entities.CreatedAt r; entities.UpdatedAt := now |}.

(** A row after [ChangePassword]: the new hash, the update stamp renewed,
    the rest as it was. *)
Definition rehashed (now : Z) (hash : string) (r : entities.User) : entities.User :=
  {| entities.ID := entities.ID r; entities.Username := entities.Username r;
     entities.Password := hash;
     entities.FirstName := entities.FirstName r; entities.LastName := entities.LastName r;
     entities.Role_ := entities.Role_ r; entities.IsActive := entities.IsActive r;
     entities.LastLogin := entities.LastLogin r;
     entities.CreatedAt := entities.CreatedAt r; entities.UpdatedAt := now |}.
(** The rows a manager may be shown for the role asked for. *)
Definition manager_rows (s : repository.Store) (role : entities.Role) : list entities.User :=
  List.filter
    (fun u => if role =? "" then (entities.Role_ u =? entities.RoleUser)
                                 || (entities.Role_ u =? entities.RoleGuest)
              else entities.Role_ u =? role)
    (repository.rows s).
(** A cookie as rewritten to make the browser drop it: no value, and a
    negative [Max-Age]. *)
Definition expired (h : gin.SetCookieHeader) : gin.SetCookieHeader :=
  {| gin.ck_Name := gin.ck_Name h; gin.ck_Value := ""; gin.ck_MaxAge := -1;
     gin.ck_Path := gin.ck_Path h; gin.ck_Domain := gin.ck_Domain h;
     gin.ck_Secure := gin.ck_Secure h; gin.ck_HttpOnly := gin.ck_HttpOnly h |}.
End spec.


(** ** Concrete users, tokens and requests *)

Module scenario.
Import entities.

Definition cfg : config.JWTConfig :=
  {| config.SecretKey := "access-secret"; config.RefreshSecret := "refresh-secret";
     config.AccessExpiry := 15; config.RefreshExpiry := 1440 |}.

(** As [cfg], with access tokens living thirty minutes. *)
Definition cfg30 : config.JWTConfig :=
  {| config.SecretKey := "access-secret"; config.RefreshSecret := "refresh-secret";
     config.AccessExpiry := 30; config.RefreshExpiry := 1440 |}.

Definition alice : User :=
  {| ID := 1; Username := "alice"; Password := plain.hash "wonderland";
     FirstName := "Alice"; LastName := "Liddell"; Role_ := RoleAdmin;
     IsActive := true; LastLogin := None; CreatedAt := 0; UpdatedAt := 0 |}.

Definition bob : User :=
  {| ID := 2; Username := "bob"; Password := plain.hash "builder99";
     FirstName := "Bob"; LastName := "Builder"; Role_ := RoleManager;
     IsActive := true; LastLogin := None; CreatedAt := 0; UpdatedAt := 0 |}.

Definition store : repository.Store :=
  {| repository.rows := [alice; bob]; repository.next_id := 3 |}.

(** The store once [bob] has been deactivated, at instant 5, and his row
    in it. *)
Definition store_bob_off : repository.Store :=
  snd (@services.DeactivateUser plain.plans 5 store 2).

Definition bob_off : User :=
  {| ID := 2; Username := "bob"; Password := plain.hash "builder99";
     FirstName := "Bob"; LastName := "Builder"; Role_ := RoleManager;
     IsActive := false; LastLogin := None; CreatedAt := 0; UpdatedAt := 5 |}.

Definition token_of (r : result error string) : string :=
  match r with Ok t => t | Err _ => "" end.

(** Tokens issued at instant 0. *)
Definition alice_access : string :=
  token_of (@JWTService.GenerateAccessToken plain.codec cfg 0 alice).
Definition alice_refresh : string :=
  token_of (@JWTService.GenerateRefreshToken plain.codec cfg 0 alice).
Definition bob_access : string :=
  token_of (@JWTService.GenerateAccessToken plain.codec cfg 0 bob).
Definition bob_refresh : string :=
  token_of (@JWTService.GenerateRefreshToken plain.codec cfg 0 bob).

Definition request (authorization : option string) (cookies : list (string * string))
  : gin.Context :=
  {| gin.Request_ :=
       {| gin.Header := match authorization with
                        | Some h => {[ "Authorization" := h ]}
                        | None => ∅
                        end;
          gin.Cookies := cookies |};
     gin.Keys := ∅; gin.Response := None; gin.SetCookies := [];
     gin.IsAborted := false |}.

(** Sixteen minutes after the tokens were issued: the access token has
    expired, the refresh token has not. *)
Definition later : Z := 16 * time.Minute.

Definition with_both_cookies : gin.Context :=
  request None [("access_token", alice_access); ("refresh_token", alice_refresh)].

Definition with_access_cookie_only : gin.Context :=
  request None [("access_token", alice_access)].


(** As [cfg], with another secret for access tokens. *)
Definition cfg_other : config.JWTConfig :=
  {| config.SecretKey := "another-secret"; config.RefreshSecret := "refresh-secret";
     config.AccessExpiry := 15; config.RefreshExpiry := 1440 |}.

(** One minute after the tokens were issued. *)
Definition soon : Z := time.Minute.

(** The claims of [alice]'s access token under the algorithm [none], with
    no signature. *)
Definition alice_unsigned : string :=
  plain.encode_token "none" (JWTService.claims_map 0 15 alice "access") "".


(** A username of 50 characters, the same with one more, and the same
    followed by a space. *)
Definition fifty : string := "a-username-that-fills-its-column-to-the-last-place".
Definition fifty_and_space : string := fifty +:+ " ".


(** A user yet to be stored. *)
Definition dave : User :=
  {| ID := 0; Username := "dave"; Password := plain.hash "longpassword";
     FirstName := "Dave"; LastName := "Bowman"; Role_ := RoleUser;
     IsActive := true; LastLogin := None; CreatedAt := 0; UpdatedAt := 0 |}.

End scenario.


(** * Properties *)

(** ** Strings *)

Section Strings.
Import gostrings spec.
Local Arguments Ascii.eqb : simpl never.

Lemma cut_space_strip_prefix (p h : string) :
  no_space p = true ->
  match cut_space h with
  | Some (before, after) => if before =? p then Some after else None
  | None => None
  end = strip_prefix (p +:+ " ") h.
Proof.
  revert h. induction p as [|x p IH]; intros h Hp; simpl in *.
  - destruct h as [|c r]; simpl; [reflexivity|].
    rewrite (Ascii.eqb_sym " " c).
    destruct (Ascii.eqb c " "); simpl; [reflexivity|].
    destruct (cut_space r) as [[a b]|]; reflexivity.
  - apply andb_prop in Hp as [Hx Hp].
    destruct h as [|c r]; simpl; [reflexivity|].
    destruct (Ascii.eqb_spec c " ") as [->|Hc]; simpl.
    + destruct (Ascii.eqb x " "); [discriminate|reflexivity].
    + specialize (IH r Hp).
      rewrite (Ascii.eqb_sym x c).
      destruct (cut_space r) as [[a b]|]; simpl.
      * destruct (Ascii.eqb c x); [exact IH|reflexivity].
      * destruct (Ascii.eqb c x); [exact IH|reflexivity].
Qed.

Lemma strip_prefix_of_substring (p h : string) :
  substring 0 (String.length p) h = p -> is_Some (strip_prefix p h).
Proof.
  revert h. induction p as [|x p IH]; intros h; simpl.
  - intros _. destruct h; eexists; reflexivity.
  - destruct h as [|c r]; simpl; [discriminate|].
    intros Heq. injection Heq as -> Hr.
    rewrite Ascii.eqb_refl. apply IH, Hr.
Qed.

End Strings.

(** ** Token extraction *)

Section Extraction.
Import gin middleware spec.

(** The header branch of [extractToken] is [bearer_credential]. *)
Lemma header_branch_bearer_credential (authHeader : string) :
  (if negb (authHeader =? "") then
     match gostrings.SplitN_space_2 authHeader with
     | [scheme; credential] => if scheme =? "Bearer" then Some credential else None
     | _ => None
     end
   else None) = bearer_credential authHeader.
Proof.
  unfold bearer_credential, gostrings.SplitN_space_2.
  change "Bearer " with ("Bearer" +:+ " ").
  rewrite <- (cut_space_strip_prefix "Bearer" authHeader eq_refl).
  destruct authHeader as [|a rest]; [reflexivity|].
  cbn [String.eqb negb].
  destruct (gostrings.cut_space (String a rest)) as [[before after]|]; reflexivity.
Qed.

(** Without a bearer credential in the header, [GetTokenFromRequest] has
    the access cookie to offer and nothing else. *)
Lemma cookie_branch_cookie_token (cookieService : cookie.CookieService) (c : Context) :
  bearer_credential (GetHeader c "Authorization") = None ->
  match cookie.GetTokenFromRequest cookieService c with
  | Ok token =>
      if negb (token =? "") then Ok token else Err (entities.Errorf "no token found")
  | Err _ => Err (entities.Errorf "no token found")
  end =
  match cookie_token (cookie.accessTokenName cookieService) c with
  | Some token => Ok token
  | None => Err (entities.Errorf "no token found")
  end.
Proof.
  intros Hnone.
  unfold cookie.GetTokenFromRequest, cookie.GetAccessToken, cookie_token, Cookie.
  destruct (find _ _) as [kv|]; cbn [snd].
  - destruct (snd kv =? ""); reflexivity.
  - set (h := GetHeader c "Authorization") in *.
    destruct (h =? ""); [reflexivity|].
    destruct ((7 <? String.length h)%nat && (substring 0 7 h =? "Bearer ")) eqn:E;
      [|reflexivity].
    apply andb_prop in E as [_ E]. apply String.eqb_eq in E.
    destruct (strip_prefix_of_substring "Bearer " h E) as [r Hr].
    unfold bearer_credential in Hnone. congruence.
Qed.

(** C4. [extractToken] returns the bearer credential of the authorization
    header when the header carries one; otherwise the token of the access
    cookie when that cookie is there and not empty; otherwise it fails
    with the error "no token found". *)
Theorem extractToken_header_then_cookie
    (cookieService : cookie.CookieService) (c : Context) :
  extractToken cookieService c =
  match bearer_credential (GetHeader c "Authorization") with
  | Some credential => Ok credential
  | None =>
    match cookie_token (cookie.accessTokenName cookieService) c with
    | Some token => Ok token
    | None => Err (entities.Errorf "no token found")
    end
  end.
Proof.
  unfold extractToken. rewrite header_branch_bearer_credential.
  destruct (bearer_credential (GetHeader c "Authorization")) eqn:Hheader;
    [reflexivity|].
  apply cookie_branch_cookie_token, Hheader.
Qed.

Example extractToken_header_wins :
  extractToken cookie.NewCookieService
    (scenario.request (Some "Bearer abc.def") [("access_token", "xyz")]) = Ok "abc.def".
Proof. reflexivity. Qed.

Example extractToken_other_scheme_falls_back :
  extractToken cookie.NewCookieService
    (scenario.request (Some "Basic abc") [("access_token", "xyz")]) = Ok "xyz".
Proof. reflexivity. Qed.

Example extractToken_nothing :
  extractToken cookie.NewCookieService
    (scenario.request (Some "Bearer") [("access_token", ""); ("refresh_token", "r")])
  = Err (entities.Errorf "no token found").
Proof. reflexivity. Qed.

(** The credential after ["Bearer "] may be empty; it is returned as it
    is and the cookie is not consulted. *)
Example extractToken_empty_credential :
  extractToken cookie.NewCookieService
    (scenario.request (Some "Bearer ") [("access_token", "xyz")]) = Ok "".
Proof. reflexivity. Qed.

End Extraction.

(** ** The codec used for evaluation *)

Lemma of_digits_digits (p : positive) : plain.of_digits (plain.digits p) = Some p.
Proof.
  induction p as [p IH|p IH|]; simpl; [rewrite IH ..|]; reflexivity.
Qed.

Lemma plain_codec_roundtrip : @jwt.codec_roundtrip plain.codec.
Proof.
  intros alg m sig. simpl.
  unfold plain.decode_token, plain.encode_token.
  rewrite of_digits_digits. simpl. rewrite decode_encode. reflexivity.
Qed.

(** ** The token service *)

Section TokenService.
Context {codec : jwt.Codec}.
Variable cfg : config.JWTConfig.
Import JWTService.

Lemma claims_map_type now ttl user type :
  claims_map now ttl user type !! "type" = Some (jwt.Str type).
Proof. reflexivity. Qed.

Lemma claims_map_user_id now ttl user type :
  claims_map now ttl user type !! "user_id" = Some (jwt.Number (Z.of_N (entities.ID user))).
Proof. reflexivity. Qed.

Lemma claims_map_exp now ttl user type :
  claims_map now ttl user type !! "exp"
  = Some (jwt.Number (time.Unix (time.Add now (time.Minutes ttl)))).
Proof. reflexivity. Qed.

Lemma claims_map_nbf now ttl user type :
  claims_map now ttl user type !! "nbf" = Some (jwt.Number (time.Unix now)).
Proof. reflexivity. Qed.


(** A token is within its lifetime from the instant it was issued until
    its expiry date. *)
Lemma Validate_issued now issued ttl user type :
  (issued <= now)%Z ->
  time.Before now (time.Unix (time.Add issued (time.Minutes ttl))) = true ->
  jwt.Validate now (claims_map issued ttl user type) = [].
Proof.
  intros Hle Hexp.
  unfold jwt.Validate, jwt.verifyExpiresAt, jwt.verifyNotBefore, jwt.parseNumericDate.
  rewrite claims_map_exp, claims_map_nbf.
  assert (Hnbf : time.Before now (time.Unix issued) = false).
  { unfold time.Before, time.Unix, time.Second. apply Z.ltb_ge.
    pose proof (Z.mul_div_le issued 1000000000 ltac:(lia)). lia. }
  destruct (_ =? 0)%Z; destruct (_ =? 0)%Z; rewrite ?Hexp, ?Hnbf; reflexivity.
Qed.

Lemma parseToken_signed now m key type :
  jwt.codec_roundtrip ->
  jwt.Validate now m = [] ->
  m !! "type" = Some (jwt.Str type) ->
  parseToken now (jwt.SignedString "HS256" m key) key type
  = Ok {| jwt.Method := "HS256"; jwt.Claims := m; jwt.Valid := true |}.
Proof.
  intros Hrt Hval Hty.
  unfold parseToken, jwt.Parse, jwt.SignedString.
  rewrite Hrt. cbn [jwt.seg_alg jwt.seg_claims].
  change (jwt.is_registered "HS256") with true.
  change (keyFunc key "HS256") with (@Ok string string key).
  cbn [negb]. unfold jwt.Verify. cbn [jwt.seg_signing_input jwt.seg_signature].
  rewrite String.eqb_refl. cbn [negb].
  rewrite Hval. cbn [jwt.Valid jwt.Claims]. rewrite Hty.
  rewrite String.eqb_refl. reflexivity.
Qed.

(** What a successful [parseToken] tells about the token string. *)
Lemma parseToken_Ok now tokenString secret expectedType token :
  parseToken now tokenString secret expectedType = Ok token ->
  exists seg,
    jwt.decode_token tokenString = Ok seg /\
    jwt.Claims token = jwt.seg_claims seg /\
    jwt.Valid token = true /\
    jwt.Claims token !! "type" = Some (jwt.Str expectedType) /\
    jwt.Validate now (jwt.Claims token) = [].
Proof.
  unfold parseToken, jwt.Parse.
  destruct (jwt.decode_token tokenString) as [seg|d]; [|discriminate].
  destruct (jwt.seg_alg seg) as [alg|]; [|discriminate].
  destruct (negb (jwt.is_registered alg)); [discriminate|].
  destruct (keyFunc secret alg) as [key|msg]; [|discriminate].
  destruct (negb (jwt.Verify alg key seg)); [discriminate|].
  destruct (jwt.Validate now (jwt.seg_claims seg)) eqn:Hval; [|discriminate].
  cbn [jwt.Valid jwt.Claims].
  destruct (jwt.seg_claims seg !! "type") as [[n|ty|l|raw]|] eqn:Hty; try discriminate.
  destruct (String.eqb_spec ty expectedType) as [->|Hne]; [|discriminate].
  cbn [negb]. intros [= <-]. exists seg. cbn [jwt.Valid jwt.Claims]. auto.
Qed.

(** A token whose discriminator is not the expected one is refused,
    whatever its signature and dates. *)
Lemma parseToken_other_type now tokenString secret expectedType seg type :
  jwt.decode_token tokenString = Ok seg ->
  jwt.seg_claims seg !! "type" = Some (jwt.Str type) ->
  type <> expectedType ->
  is_err (parseToken now tokenString secret expectedType) = true.
Proof.
  intros Hdec Hty Hne.
  destruct (parseToken now tokenString secret expectedType) as [token|e] eqn:E;
    [|reflexivity].
  apply parseToken_Ok in E as (seg' & Hdec' & Hcl & _ & Hty' & _).
  rewrite Hdec in Hdec'. injection Hdec' as <-.
  rewrite Hcl, Hty in Hty'. congruence.
Qed.

(** No error of [parseToken] has the text the middleware takes for an
    expiry: the library wraps [ErrTokenExpired] in [ErrTokenInvalidClaims],
    whose text comes first. *)
Lemma parseToken_error_text now tokenString secret expectedType err :
  parseToken now tokenString secret expectedType = Err err ->
  middleware.isTokenExpiredError err = false.
Proof.
  unfold parseToken.
  destruct (jwt.Parse now tokenString (keyFunc secret)) as [token|e].
  - destruct (jwt.Valid token).
    + destruct (jwt.Claims token !! "type") as [[n|ty|l|raw]|];
        try (intros [= <-]; reflexivity).
      destruct (negb (ty =? expectedType)); [|discriminate].
      intros [= <-]. reflexivity.
    + intros [= <-]. reflexivity.
  - intros [= <-]. destruct e; reflexivity.
Qed.

End TokenService.

(** C2. A token issued as an access token is refused where a refresh token
    is expected, and a token issued as a refresh token is refused where an
    access token is expected, for every user, configuration and pair of
    instants; and no token string at all is accepted as both. *)
Theorem discriminator_mismatch_rejected `{jwt.Codec}
    (cfg : config.JWTConfig) (issued now : Z) (user : entities.User) :
  jwt.codec_roundtrip ->
  (exists token,
     JWTService.GenerateAccessToken cfg issued user = Ok token /\
     is_err (JWTService.ParseRefreshToken cfg now token) = true) /\
  (exists token,
     JWTService.GenerateRefreshToken cfg issued user = Ok token /\
     is_err (JWTService.ParseAccessToken cfg now token) = true) /\
  (forall tokenString,
     is_ok (JWTService.ParseAccessToken cfg now tokenString) &&
     is_ok (JWTService.ParseRefreshToken cfg now tokenString) = false).
Proof.
  intros Hrt. repeat split.
  - eexists. split; [reflexivity|].
    unfold JWTService.ParseRefreshToken, jwt.SignedString.
    eapply parseToken_other_type;
      [apply Hrt | cbn [jwt.seg_claims]; apply claims_map_type | discriminate].
  - eexists. split; [reflexivity|].
    unfold JWTService.ParseAccessToken, jwt.SignedString.
    eapply parseToken_other_type;
      [apply Hrt | cbn [jwt.seg_claims]; apply claims_map_type | discriminate].
  - intros tokenString.
    unfold JWTService.ParseAccessToken, JWTService.ParseRefreshToken.
    destruct (JWTService.parseToken now tokenString _ "access") as [t1|] eqn:E1;
      [|reflexivity].
    destruct (JWTService.parseToken now tokenString _ "refresh") as [t2|] eqn:E2;
      [|reflexivity].
    apply parseToken_Ok in E1 as (seg1 & Hd1 & Hc1 & _ & Ht1 & _).
    apply parseToken_Ok in E2 as (seg2 & Hd2 & Hc2 & _ & Ht2 & _).
    rewrite Hd1 in Hd2. injection Hd2 as <-.
    rewrite Hc1 in Ht1. rewrite Hc2 in Ht2. congruence.
Qed.

Lemma discriminator_mismatch_rejected_witness :
  (exists token,
     @JWTService.GenerateAccessToken plain.codec scenario.cfg 0 scenario.alice = Ok token /\
     is_err (@JWTService.ParseRefreshToken plain.codec scenario.cfg 1 token) = true) /\
  (exists token,
     @JWTService.GenerateRefreshToken plain.codec scenario.cfg 0 scenario.alice = Ok token /\
     is_err (@JWTService.ParseAccessToken plain.codec scenario.cfg 1 token) = true) /\
  (forall tokenString,
     is_ok (@JWTService.ParseAccessToken plain.codec scenario.cfg 1 tokenString) &&
     is_ok (@JWTService.ParseRefreshToken plain.codec scenario.cfg 1 tokenString) = false).
Proof.
  exact (@discriminator_mismatch_rejected plain.codec scenario.cfg 0 1
           scenario.alice plain_codec_roundtrip).
Defined.

(** ** Text in PostgreSQL *)

Section PgText.
Import pg spec.

Lemma chars_step (s : string) (l : list string) :
  chars s = Some l ->
  (s = "" /\ l = []) \/
  exists c t l', s = c +:+ t /\ l = c :: l' /\ chars t = Some l' /\ is_char c.
Proof.
  destruct s as [|b0 s1]; [intros [= <-]; left; auto|].
  intros H. right. cbn [chars] in H.
  destruct (char1 b0) eqn:E1.
  { destruct (chars s1) as [l'|] eqn:E; [|discriminate]. injection H as <-.
    exists (String b0 ""), s1, l'. (split; [reflexivity|]); (split; [reflexivity|]); (split; [exact E|]); (split; [discriminate|]).
    intros t. cbv [append]; cbn [chars]. rewrite E1. reflexivity. }
  destruct s1 as [|b1 s2]; [discriminate|].
  destruct (char2 b0 b1) eqn:E2.
  { destruct (chars s2) as [l'|] eqn:E; [|discriminate]. injection H as <-.
    exists (String b0 (String b1 "")), s2, l'. (split; [reflexivity|]); (split; [reflexivity|]); (split; [exact E|]); (split; [discriminate|]).
    intros t. cbv [append]; cbn [chars]. rewrite E1, E2. reflexivity. }
  destruct s2 as [|b2 s3]; [discriminate|].
  destruct (char3 b0 b1 b2) eqn:E3.
  { destruct (chars s3) as [l'|] eqn:E; [|discriminate]. injection H as <-.
    exists (String b0 (String b1 (String b2 ""))), s3, l'. (split; [reflexivity|]); (split; [reflexivity|]); (split; [exact E|]); (split; [discriminate|]).
    intros t. cbv [append]; cbn [chars]. rewrite E1, E2, E3. reflexivity. }
  destruct s3 as [|b3 s4]; [discriminate|].
  destruct (char4 b0 b1 b2 b3) eqn:E4; [|discriminate].
  destruct (chars s4) as [l'|] eqn:E; [|discriminate]. injection H as <-.
  exists (String b0 (String b1 (String b2 (String b3 "")))), s4, l'.
  (split; [reflexivity|]); (split; [reflexivity|]); (split; [exact E|]); (split; [discriminate|]).
  intros t. cbv [append]; cbn [chars]. rewrite E1, E2, E3, E4. reflexivity.
Qed.

Lemma length_append (p r : string) :
  String.length (p +:+ r) = (String.length p + String.length r)%nat.
Proof. induction p as [|x p IH]; simpl; [reflexivity|]. rewrite IH. reflexivity. Qed.

Lemma append_empty (c : string) : c +:+ "" = c.
Proof.
  induction c as [|x c IH]; [reflexivity|].
  change (String x (c +:+ "") = String x c). rewrite IH. reflexivity.
Qed.

Lemma concat_cons (c : string) (l : list string) :
  String.concat "" (c :: l) = c +:+ String.concat "" l.
Proof.
  destruct l as [|c' l]; cbn [String.concat]; [|reflexivity].
  symmetry. apply append_empty.
Qed.

Lemma chars_sound (s : string) (l : list string) :
  chars s = Some l -> Forall is_char l /\ String.concat "" l = s.
Proof.
  remember (String.length s) as n eqn:Hn. revert s l Hn.
  induction n as [n IH] using lt_wf_ind. intros s l Hn H.
  destruct (chars_step s l H) as [[-> ->]|(c & t & l' & -> & -> & Ht & Hc)];
    [split; [constructor|reflexivity]|].
  assert (Hlt : (String.length t < n)%nat).
  { subst n. rewrite length_append. destruct Hc as [Hne _].
    destruct c; [contradiction|]. simpl. lia. }
  destruct (IH _ Hlt t l' eq_refl Ht) as [Hall Hcat].
  split; [constructor; assumption|].
  rewrite concat_cons, Hcat. reflexivity.
Qed.

Lemma chars_complete (l : list string) :
  Forall is_char l -> chars (String.concat "" l) = Some l.
Proof.
  induction 1 as [|c l [_ Hc] _ IH]; [reflexivity|].
  rewrite concat_cons, Hc, IH. reflexivity.
Qed.

Lemma chars_clip (n : nat) (s : string) (l : list string) :
  chars s = Some l -> chars (clip n s) = Some (firstn n l).
Proof.
  intros H. unfold clip. rewrite H.
  apply chars_complete, Forall_take, (chars_sound s l H).
Qed.

Lemma fits_varchar (n : nat) (s : string) : fits n s = true -> varchar n s = Some s.
Proof.
  unfold fits, varchar. intros H. apply andb_prop in H as [_ ->]. reflexivity.
Qed.

Lemma varchar_fits (n : nat) (s stored : string) :
  valid_text s = true -> varchar n s = Some stored -> fits n stored = true.
Proof.
  unfold valid_text, varchar, fits. intros Hv.
  destruct (chars s) as [l|] eqn:E; [|discriminate].
  destruct (char_length s <=? n)%nat eqn:Hlen.
  - intros [= <-]. unfold valid_text. rewrite E, Hlen. reflexivity.
  - destruct (blank (excess n s)); [|discriminate]. intros [= <-].
    unfold valid_text, char_length. rewrite (chars_clip n s l E). cbn [andb].
    apply Nat.leb_le. rewrite length_take. lia.
Qed.

Lemma varchar_short (n : nat) (s stored : string) :
  (char_length s <= n)%nat -> varchar n s = Some stored -> stored = s.
Proof.
  unfold varchar. intros H. apply Nat.leb_le in H. rewrite H. congruence.
Qed.

Lemma varchar_long (n : nat) (s stored : string) :
  (n < char_length s)%nat -> varchar n s = Some stored ->
  stored = clip n s /\ char_length stored = n /\ stored <> s.
Proof.
  unfold varchar. intros H. assert (Hlen := H). apply Nat.leb_gt in Hlen. rewrite Hlen.
  destruct (blank (excess n s)); [|discriminate]. intros [= <-].
  assert (Hclip : char_length (clip n s) = n).
  { unfold char_length at 1. unfold char_length in H.
    destruct (chars s) as [l|] eqn:E; [|simpl in H; lia].
    rewrite (chars_clip n s l E), length_take. lia. }
  split; [reflexivity|]. split; [exact Hclip|].
  intros Heq. rewrite Heq in Hclip. lia.
Qed.

Lemma fits_valid_text (n : nat) (s : string) : fits n s = true -> valid_text s = true.
Proof. unfold fits. intros H. apply andb_prop in H as [H _]. exact H. Qed.

Lemma fits_char_length (n : nat) (s : string) :
  fits n s = true -> (char_length s <= n)%nat.
Proof. unfold fits. intros H. apply andb_prop in H as [_ H]. apply Nat.leb_le, H. Qed.

Lemma column_fits (n : nat) (s : string) : fits n s = true -> column n s = s.
Proof. intros H. unfold column. rewrite (fits_varchar n s H). reflexivity. Qed.

Lemma column_short (n : nat) (s : string) : (char_length s <= n)%nat -> column n s = s.
Proof.
  intros H. unfold column, varchar. apply Nat.leb_le in H. rewrite H. reflexivity.
Qed.

Lemma printable_chars (s : string) :
  printable s = true ->
  chars s = Some (map (fun c => String c "") (list_ascii_of_string s)).
Proof.
  induction s as [|c s IH]; [reflexivity|]. cbn [printable].
  intros H. apply andb_prop in H as [Hc Hs].
  cbn [chars list_ascii_of_string map].
  assert (H1 : char1 c = true).
  { unfold char1, between in *. apply andb_prop in Hc as [Hlo Hhi].
    apply N.leb_le in Hlo, Hhi. apply andb_true_intro.
    split; apply N.leb_le; lia. }
  rewrite H1, (IH Hs). reflexivity.
Qed.

Lemma printable_fits (n : nat) (s : string) :
  printable s = true -> (String.length s <= n)%nat -> fits n s = true.
Proof.
  intros Hp Hn. unfold fits, valid_text, char_length.
  rewrite (printable_chars s Hp), length_map. cbn [andb].
  apply Nat.leb_le.
  replace (List.length (list_ascii_of_string s)) with (String.length s); [exact Hn|].
  clear. induction s as [|c s IH]; simpl; congruence.
Qed.

End PgText.

(** ** The user repository *)

Section Repository.
Import entities repository spec.

Lemma GetByUsername_absent (s : Store) (username : string) :
  ~ present s username -> GetByUsername s username = Err ErrUserNotFound.
Proof.
  intros Hno. unfold GetByUsername.
  destruct (find (by_username username) (rows s)) as [u|] eqn:E; [|reflexivity].
  apply find_some in E as [Hin Hu]. apply String.eqb_eq in Hu.
  exfalso. apply Hno. exists u. auto.
Qed.


Lemma existsb_by_username_absent (s : Store) (username : string) :
  ~ present s username -> existsb (by_username username) (rows s) = false.
Proof.
  intros Hno. destruct (existsb _ _) eqn:E; [|reflexivity].
  apply existsb_exists in E as (u & Hin & Hu). apply String.eqb_eq in Hu.
  exfalso. apply Hno. exists u. auto.
Qed.


Lemma GetByID_found (s : Store) (id : N) (u : User) :
  GetByID s id = Ok u -> In u (rows s) /\ ID u = id.
Proof.
  unfold GetByID. destruct (find (by_id id) (rows s)) as [v|] eqn:E; [|discriminate].
  intros [= <-]. apply find_some in E as [Hin Hid]. apply N.eqb_eq in Hid. auto.
Qed.

(** *** The columns *)

Lemma role_check_cases (r : Role) :
  role_check r = true -> r = "admin" \/ r = "manager" \/ r = "user" \/ r = "guest".
Proof.
  unfold role_check. rewrite !orb_true_iff, !String.eqb_eq. tauto.
Qed.

(** A role that passes the [CHECK] is a text its column stores as it is. *)
Lemma role_check_fits (r : Role) : role_check r = true -> pg.fits 20 r = true.
Proof.
  intros H. destruct (role_check_cases r H) as [-> | [-> | [-> | ->]]]; reflexivity.
Qed.

(** A role that passes the [CHECK] once assigned was not cut. *)
Lemma varchar_role (r stored : Role) :
  pg.varchar 20 r = Some stored -> role_check stored = true -> stored = r.
Proof.
  intros Hv Hcheck.
  destruct (le_lt_dec (pg.char_length r) 20) as [Hle|Hgt];
    [exact (varchar_short 20 r stored Hle Hv)|].
  destruct (varchar_long 20 r stored Hgt Hv) as (_ & Hlen & _).
  destruct (role_check_cases stored Hcheck) as [-> | [-> | [-> | ->]]]; discriminate Hlen.
Qed.

(** What [assigned] leaves as it is, and what it makes of the rest. *)
Lemma assigned_Some (user values : User) :
  assigned user = Some values ->
  values = {| ID := ID user; Username := column 50 (Username user);
              Password := column 255 (Password user);
              FirstName := column 50 (FirstName user);
              LastName := column 50 (LastName user);
              Role_ := column 20 (Role_ user);
              IsActive := IsActive user; LastLogin := LastLogin user;
              CreatedAt := CreatedAt user; UpdatedAt := UpdatedAt user |} /\
  pg.varchar 50 (Username user) = Some (Username values) /\
  pg.varchar 255 (Password user) = Some (Password values) /\
  pg.varchar 50 (FirstName user) = Some (FirstName values) /\
  pg.varchar 50 (LastName user) = Some (LastName values) /\
  pg.varchar 20 (Role_ user) = Some (Role_ values).
Proof.
  unfold assigned, column.
  destruct (pg.varchar 50 (Username user)) as [u|]; [|discriminate].
  destruct (pg.varchar 255 (Password user)) as [p|]; [|discriminate].
  destruct (pg.varchar 50 (FirstName user)) as [f|]; [|discriminate].
  destruct (pg.varchar 50 (LastName user)) as [l|]; [|discriminate].
  destruct (pg.varchar 20 (Role_ user)) as [r|]; [|discriminate].
  intros [= <-]. repeat split.
Qed.

(** The values assigned from parameters that are texts are within the
    columns. *)
Lemma assigned_within_columns (user values : User) :
  valid_params user = true -> assigned user = Some values ->
  within_columns values = true.
Proof.
  unfold valid_params. rewrite !andb_true_iff.
  intros ((((Hu & Hp) & Hf) & Hl) & _) Ha.
  destruct (assigned_Some user values Ha) as (_ & Eu & Ep & Ef & El & _).
  unfold within_columns.
  rewrite (varchar_fits _ _ _ Hu Eu), (varchar_fits _ _ _ Hp Ep),
          (varchar_fits _ _ _ Hf Ef), (varchar_fits _ _ _ Hl El).
  reflexivity.
Qed.

(** A row as the table holds it goes back into its columns as it is. *)
Lemma stored_row_assigned (r : User) :
  within_columns r = true -> role_check (Role_ r) = true ->
  valid_params r = true /\ assigned r = Some r.
Proof.
  unfold within_columns. rewrite !andb_true_iff.
  intros (((Hu & Hp) & Hf) & Hl) Hrole.
  pose proof (role_check_fits _ Hrole) as Hr.
  split.
  - unfold valid_params.
    rewrite (fits_valid_text _ _ Hu), (fits_valid_text _ _ Hp), (fits_valid_text _ _ Hf),
            (fits_valid_text _ _ Hl), (fits_valid_text _ _ Hr).
    reflexivity.
  - unfold assigned.
    rewrite (fits_varchar _ _ Hu), (fits_varchar _ _ Hp), (fits_varchar _ _ Hf),
            (fits_varchar _ _ Hl), (fits_varchar _ _ Hr).
    destruct r; reflexivity.
Qed.

Section Statements.
Context {plans : PlanCache}.

(** What a successful [Create] has done. *)
Lemma Create_Ok (now : Z) (s s' : Store) (user created : User) :
  Create now s user = (Ok created, s') ->
  exists values,
    valid_params user = true /\ assigned user = Some values /\
    existsb (by_username (Username values)) (rows s) = false /\
    role_check (Role_ values) = true /\
    created = {| ID := next_id s; Username := Username user;
                 Password := Password user; FirstName := FirstName user;
                 LastName := LastName user; Role_ := Role_ user;
                 IsActive := IsActive user; LastLogin := LastLogin user;
                 CreatedAt := now; UpdatedAt := now |} /\
    s' = {| rows := rows s ++
                    [{| ID := next_id s; Username := Username values;
                        Password := Password values; FirstName := FirstName values;
                        LastName := LastName values; Role_ := Role_ values;
                        IsActive := IsActive values; LastLogin := None;
                        CreatedAt := now; UpdatedAt := now |}];
            next_id := N.succ (next_id s) |}.
Proof.
  unfold Create.
  destruct (valid_params user); [|discriminate]. cbn [negb].
  destruct (assigned user) as [values|]; [|discriminate].
  destruct (existsb _ _) eqn:Ename; [discriminate|].
  destruct (role_check _) eqn:Erole; [|discriminate]. cbn [orb negb].
  intros [= <- <-]. exists values. repeat split; assumption.
Qed.

(** [Create] either stores one row more or leaves the rows as they are. *)
Lemma Create_Err (now : Z) (s s' : Store) (user : User) (err : error) :
  Create now s user = (Err err, s') ->
  rows s' = rows s /\ (next_id s <= next_id s')%N /\
  exists text, err = Errorf text.
Proof.
  unfold Create.
  destruct (valid_params user); cbn [negb];
    [|intros [= <- <-]; split; [reflexivity|]; split; [lia|eauto]].
  destruct (assigned user) as [values|].
  - destruct (_ || _); [|discriminate].
    intros [= <- <-]. cbn. split; [reflexivity|]. split; [lia|eauto].
  - intros [= <- <-]. cbn. split; [reflexivity|].
    split; [destruct (generic_insert now s user); lia|eauto].
Qed.

(** [Create] of values the columns take as they are. *)
Lemma Create_within (now : Z) (s : Store) (user : User) :
  valid_params user = true -> assigned user = Some user ->
  Create now s user =
  if existsb (by_username (Username user)) (rows s) || negb (role_check (Role_ user))
  then (Err (Errorf "failed to create user: constraint violation"),
        {| rows := rows s; next_id := N.succ (next_id s) |})
  else
    (Ok {| ID := next_id s; Username := Username user;
           Password := Password user; FirstName := FirstName user;
           LastName := LastName user; Role_ := Role_ user;
           IsActive := IsActive user; LastLogin := LastLogin user;
           CreatedAt := now; UpdatedAt := now |},
     {| rows := rows s ++
                [{| ID := next_id s; Username := Username user;
                    Password := Password user; FirstName := FirstName user;
                    LastName := LastName user; Role_ := Role_ user;
                    IsActive := IsActive user; LastLogin := None;
                    CreatedAt := now; UpdatedAt := now |}];
        next_id := N.succ (next_id s) |}).
Proof.
  intros Hv Ha. unfold Create. rewrite Hv, Ha. reflexivity.
Qed.

(** What a successful [Update] has done. *)
Lemma Update_None (now : Z) (s s' : Store) (user : User) :
  Update now s user = (None, s') ->
  exists values,
    valid_params user = true /\ assigned user = Some values /\
    existsb (by_id (ID user)) (rows s) = true /\
    existsb (fun r => negb (by_id (ID user) r) && by_username (Username values) r)
      (rows s) = false /\
    role_check (Role_ values) = true /\
    s' = {| rows := map (updated_row now values) (rows s); next_id := next_id s |}.
Proof.
  unfold Update.
  destruct (valid_params user); [|discriminate]. cbn [negb].
  destruct (assigned user) as [values|];
    [|destruct (_ && _); discriminate].
  destruct (existsb (by_id (ID user)) (rows s)); [|discriminate]. cbn [negb].
  destruct (existsb _ _) eqn:Ename; [discriminate|].
  destruct (role_check _) eqn:Erole; [|discriminate]. cbn [orb negb].
  intros [= <-]. exists values. repeat split; assumption.
Qed.

(** A refused [Update] leaves the store as it is. *)
Lemma Update_Some (now : Z) (s s' : Store) (user : User) (err : error) :
  Update now s user = (Some err, s') ->
  s' = s /\ (err = ErrUserNotFound \/ exists text, err = Errorf text).
Proof.
  unfold Update.
  destruct (valid_params user); cbn [negb]; [|intros [= <- <-]; eauto].
  destruct (assigned user) as [values|].
  - destruct (negb (existsb (by_id (ID user)) (rows s))); [intros [= <- <-]; auto|].
    destruct (_ || _); [|discriminate]. intros [= <- <-]. eauto.
  - destruct (_ && _); intros [= <- <-]; eauto.
Qed.

(** [Update] with values the columns take as they are. *)
Lemma Update_within (now : Z) (s : Store) (user : User) :
  valid_params user = true -> assigned user = Some user ->
  Update now s user =
  if negb (existsb (by_id (ID user)) (rows s)) then (Some ErrUserNotFound, s)
  else if existsb (fun r => negb (by_id (ID user) r) && by_username (Username user) r)
            (rows s)
          || negb (role_check (Role_ user))
  then (Some (Errorf "failed to update user: constraint violation"), s)
  else (None, {| rows := map (updated_row now user) (rows s); next_id := next_id s |}).
Proof.
  intros Hv Ha. unfold Update. rewrite Hv, Ha. reflexivity.
Qed.

End Statements.

End Repository.

(** ** Login *)

Section Login.
Context {codec : jwt.Codec} {bcrypt : entities.Bcrypt}.
Variable cfg : config.JWTConfig.
Import entities repository services spec.

Lemma Login_ExpiresIn now s req response s' :
  Login cfg now s req = (Ok response, s') -> service.ExpiresIn response = 15%Z.
Proof.
  unfold Login.
  destruct (_ || _); [discriminate|].
  destruct (getUserByUsername _ _) as [user|]; [|discriminate].
  destruct (negb (IsActive user)); [discriminate|].
  destruct (negb (VerifyPassword _ _)); [discriminate|].
  cbn. intros [= <- _]. reflexivity.
Qed.

Lemma RefreshToken_ExpiresIn now s req response :
  RefreshToken cfg now s req = Ok response -> service.ExpiresIn response = 15%Z.
Proof.
  unfold RefreshToken.
  destruct (JWTService.ParseRefreshToken _ _ _) as [token|]; [|discriminate].
  destruct (claim_user_id token) as [userID|]; [|discriminate].
  destruct (GetByID _ _) as [user|]; [|discriminate].
  destruct (negb (IsActive user)); [discriminate|].
  cbn. intros [= <-]. reflexivity.
Qed.

(** C5. For a username that no row of the store carries, [Login] answers
    [ErrInvalidCredentials] whatever the password and leaves the store as
    it is; a wrong password for an active account of the store gets the
    very same answer. *)
Theorem Login_unknown_username_as_wrong_password
    (now : Z) (s : Store) (username password : string) :
  ~ present s username ->
  Login cfg now s {| service.lr_Username := username; service.lr_Password := password |}
  = (Err ErrInvalidCredentials, s) /\
  forall (known wrong : string) (user : User),
    GetByUsername s known = Ok user ->
    IsActive user = true ->
    VerifyPassword user wrong = false ->
    Login cfg now s {| service.lr_Username := known; service.lr_Password := wrong |}
    = Login cfg now s {| service.lr_Username := username; service.lr_Password := password |}.
Proof.
  intros Hno.
  assert (Hunknown :
    Login cfg now s {| service.lr_Username := username; service.lr_Password := password |}
    = (Err ErrInvalidCredentials, s)).
  { unfold Login, getUserByUsername. cbn [service.lr_Username service.lr_Password].
    rewrite (GetByUsername_absent _ _ Hno).
    destruct (_ || _); reflexivity. }
  split; [exact Hunknown|].
  intros known wrong user Hget Hact Hpw. rewrite Hunknown.
  unfold Login, getUserByUsername. cbn [service.lr_Username service.lr_Password].
  rewrite Hget, Hact, Hpw. cbn [negb].
  destruct (_ || _); reflexivity.
Qed.

(** C10, as the code has it. [Login] with an empty username or an empty
    password answers [ErrInvalidCredentials] without looking at the store,
    whatever the account. For an account of the store whose active flag
    is off, [Login] with a username and a password that are not empty
    answers [ErrUserDeactivated], whether the password is the right one or
    not. In both cases the store is left as it is. *)
Theorem Login_deactivated_account
    (now : Z) (s : Store) (username password : string) (user : User) :
  (username = "" \/ password = "" ->
   Login cfg now s {| service.lr_Username := username; service.lr_Password := password |}
   = (Err ErrInvalidCredentials, s)) /\
  (GetByUsername s username = Ok user ->
   IsActive user = false ->
   username <> "" ->
   password <> "" ->
   Login cfg now s {| service.lr_Username := username; service.lr_Password := password |}
   = (Err ErrUserDeactivated, s)).
Proof.
  split.
  - intros Hempty. unfold Login. cbn [service.lr_Username service.lr_Password].
    destruct Hempty as [-> | ->]; [reflexivity|].
    rewrite String.eqb_refl, orb_true_r. reflexivity.
  - intros Hget Hact Hu Hp.
    unfold Login, getUserByUsername. cbn [service.lr_Username service.lr_Password].
    apply String.eqb_neq in Hu, Hp. rewrite Hu, Hp, Hget, Hact. reflexivity.
Qed.

End Login.

Lemma Login_unknown_username_as_wrong_password_witness :
  @services.Login plain.codec plain.bcrypt scenario.cfg 7 scenario.store
    {| service.lr_Username := "carol"; service.lr_Password := "secret123" |}
  = (Err entities.ErrInvalidCredentials, scenario.store) /\
  @services.Login plain.codec plain.bcrypt scenario.cfg 7 scenario.store
    {| service.lr_Username := "alice"; service.lr_Password := "guess" |}
  = (Err entities.ErrInvalidCredentials, scenario.store).
Proof.
  assert (Hno : ~ spec.present scenario.store "carol").
  { intros (u & Hin & Hu). simpl in Hin.
    destruct Hin as [<-|[<-|[]]]; discriminate Hu. }
  destruct (@Login_unknown_username_as_wrong_password plain.codec plain.bcrypt
              scenario.cfg 7 scenario.store "carol" "secret123" Hno) as [H1 H2].
  split; [exact H1|].
  rewrite (H2 "alice" "guess" scenario.alice eq_refl eq_refl eq_refl). exact H1.
Defined.

Lemma Login_deactivated_account_witness :
  @services.Login plain.codec plain.bcrypt scenario.cfg 7 scenario.store_bob_off
    {| service.lr_Username := "bob"; service.lr_Password := "builder99" |}
  = (Err entities.ErrUserDeactivated, scenario.store_bob_off) /\
  @services.Login plain.codec plain.bcrypt scenario.cfg 7 scenario.store_bob_off
    {| service.lr_Username := "bob"; service.lr_Password := "guess" |}
  = (Err entities.ErrUserDeactivated, scenario.store_bob_off) /\
  @services.Login plain.codec plain.bcrypt scenario.cfg 7 scenario.store_bob_off
    {| service.lr_Username := "bob"; service.lr_Password := "" |}
  = (Err entities.ErrInvalidCredentials, scenario.store_bob_off).
Proof.
  split; [|split].
  - apply (@Login_deactivated_account plain.codec plain.bcrypt scenario.cfg 7
             scenario.store_bob_off "bob" "builder99"
             scenario.bob_off);
      [reflexivity | reflexivity | discriminate | discriminate].
  - apply (@Login_deactivated_account plain.codec plain.bcrypt scenario.cfg 7
             scenario.store_bob_off "bob" "guess"
             scenario.bob_off);
      [reflexivity | reflexivity | discriminate | discriminate].
  - apply (@Login_deactivated_account plain.codec plain.bcrypt scenario.cfg 7
             scenario.store_bob_off "bob" ""
             scenario.bob_off).
    right. reflexivity.
Defined.

(** C10, as stated, fails: an empty password is turned down with
    [ErrInvalidCredentials] before the account is looked at. *)
Lemma Login_deactivated_empty_password :
  ~ (forall (C : jwt.Codec) (B : entities.Bcrypt) (cfg : config.JWTConfig)
            (now : Z) (s : repository.Store) (username password : string)
            (user : entities.User),
       repository.GetByUsername s username = Ok user ->
       entities.IsActive user = false ->
       fst (services.Login cfg now s
              {| service.lr_Username := username; service.lr_Password := password |})
       = Err entities.ErrUserDeactivated).
Proof.
  intros Hall.
  specialize (Hall plain.codec plain.bcrypt scenario.cfg 7%Z scenario.store_bob_off
                "bob" "" _ eq_refl eq_refl).
  discriminate Hall.
Qed.

(** C3, on the code. With access tokens configured to live thirty minutes,
    a successful [Login] and a successful [RefreshToken] both report an
    [ExpiresIn] of 15, while [GetAccessTokenExpiry] is 30 and the access
    token issued does expire thirty minutes after it was issued. *)
Theorem ExpiresIn_is_15_whatever_the_configuration :
  let login :=
    fst (@services.Login plain.codec plain.bcrypt scenario.cfg30 0 scenario.store
           {| service.lr_Username := "alice"; service.lr_Password := "wonderland" |}) in
  let refresh :=
    @services.RefreshToken plain.codec scenario.cfg30 0 scenario.store
      {| service.rt_RefreshToken := scenario.alice_refresh |} in
  spec.expires_in login = Some 15%Z /\
  spec.expires_in refresh = Some 15%Z /\
  JWTService.GetAccessTokenExpiry scenario.cfg30 = 30%Z /\
  spec.access_token_expiry login = Some (30 * 60)%Z.
Proof. vm_compute. repeat split; reflexivity. Qed.

(** ** Registration *)

Section Register.
Context {bcrypt : entities.Bcrypt} {plans : repository.PlanCache}.
Import entities repository services spec.



Example getDefaultRole_examples :
  getDefaultRole "manager" = "manager" /\ getDefaultRole "" = "user" /\
  getDefaultRole "root" = "user" /\ getDefaultRole "Admin" = "user".
Proof. repeat split; reflexivity. Qed.

Lemma validateRegistrationRequest_spec (req : service.RegisterRequest) :
  validateRegistrationRequest req =
  if (String.length (service.rr_Username req) <? 3)%nat then Some ErrInvalidUsername
  else if (String.length (service.rr_Password req) <? 8)%nat then Some ErrPasswordTooShort
  else None.
Proof.
  unfold validateRegistrationRequest.
  destruct (service.rr_Username req) as [|a u]; [reflexivity|].
  cbn [String.eqb orb].
  destruct (_ <? 3)%nat; [reflexivity|].
  destruct (service.rr_Password req) as [|b p]; reflexivity.
Qed.

Lemma existsb_false_find {A} (f : A -> bool) (l : list A) :
  existsb f l = false -> find f l = None.
Proof.
  induction l as [|x l IH]; cbn; [reflexivity|].
  destruct (f x); [discriminate|]. exact IH.
Qed.



End Register.



(** ** Tokens of a deactivated user *)

Section Deactivated.
Context {codec : jwt.Codec}.
Variable cfg : config.JWTConfig.
Import entities repository services.

Lemma parseToken_signed_claims now m key secret type token :
  jwt.codec_roundtrip ->
  JWTService.parseToken now (jwt.SignedString "HS256" m key) secret type = Ok token ->
  jwt.Claims token = m.
Proof.
  intros Hrt Hparse.
  apply parseToken_Ok in Hparse as (seg & Hdec & Hcl & _).
  unfold jwt.SignedString in Hdec. rewrite Hrt in Hdec.
  injection Hdec as <-. exact Hcl.
Qed.

Lemma claim_user_id_claims_map token now ttl user type :
  jwt.Claims token = JWTService.claims_map now ttl user type ->
  claim_user_id token = Some (Z.of_N (ID user)).
Proof.
  intros Hcl. unfold claim_user_id. rewrite Hcl, claims_map_user_id. reflexivity.
Qed.

(** C6. Take the access and the refresh token issued for a user, and a
    store in which the row of that user's id has its active flag off.
    Then [ValidateToken] on the access token and [RefreshToken] on the
    refresh token fail at every instant, and from the instant of issue
    until the expiry date of the token, when signature, dates and
    discriminator are all in order, they fail with [ErrUserDeactivated]. *)
Theorem deactivated_user_tokens_refused
    (issued now : Z) (s : Store) (user row : User) :
  jwt.codec_roundtrip ->
  GetByID s (ID user) = Ok row ->
  IsActive row = false ->
  (issued <= now)%Z ->
  exists access refresh,
    JWTService.GenerateAccessToken cfg issued user = Ok access /\
    JWTService.GenerateRefreshToken cfg issued user = Ok refresh /\
    is_err (ValidateToken cfg now s access) = true /\
    is_err (RefreshToken cfg now s {| service.rt_RefreshToken := refresh |}) = true /\
    (time.Before now
       (time.Unix (time.Add issued (time.Minutes (config.AccessExpiry cfg)))) = true ->
     is_ok (JWTService.ParseAccessToken cfg now access) = true /\
     ValidateToken cfg now s access = Err ErrUserDeactivated) /\
    (time.Before now
       (time.Unix (time.Add issued (time.Minutes (config.RefreshExpiry cfg)))) = true ->
     is_ok (JWTService.ParseRefreshToken cfg now refresh) = true /\
     RefreshToken cfg now s {| service.rt_RefreshToken := refresh |}
     = Err ErrUserDeactivated).
Proof.
  intros Hrt Hget Hoff Hle.
  do 2 eexists. split; [reflexivity|]. split; [reflexivity|].
  assert (Hany : forall secret type ttl token,
    JWTService.parseToken now
      (jwt.SignedString "HS256" (JWTService.claims_map issued ttl user type) secret)
      secret type = Ok token ->
    claim_user_id token = Some (Z.of_N (ID user))).
  { intros secret type ttl token Hparse.
    eapply claim_user_id_claims_map, parseToken_signed_claims; eassumption. }
  repeat split.
  - unfold ValidateToken, JWTService.ParseAccessToken.
    destruct (JWTService.parseToken _ _ _ _) as [token|] eqn:E; [|reflexivity].
    rewrite (Hany _ _ _ _ E), N2Z.id, Hget, Hoff. reflexivity.
  - unfold RefreshToken, JWTService.ParseRefreshToken. cbn [service.rt_RefreshToken].
    destruct (JWTService.parseToken _ _ _ _) as [token|] eqn:E; [|reflexivity].
    rewrite (Hany _ _ _ _ E), N2Z.id, Hget, Hoff. reflexivity.
  - unfold JWTService.ParseAccessToken.
    rewrite parseToken_signed;
      [reflexivity | exact Hrt | apply Validate_issued; assumption | apply claims_map_type].
  - unfold ValidateToken, JWTService.ParseAccessToken.
    rewrite parseToken_signed;
      [| exact Hrt | apply Validate_issued; assumption | apply claims_map_type].
    unfold claim_user_id. cbn [jwt.Claims].
    rewrite claims_map_user_id, N2Z.id, Hget, Hoff. reflexivity.
  - unfold JWTService.ParseRefreshToken.
    rewrite parseToken_signed;
      [reflexivity | exact Hrt | apply Validate_issued; assumption | apply claims_map_type].
  - unfold RefreshToken, JWTService.ParseRefreshToken. cbn [service.rt_RefreshToken].
    rewrite parseToken_signed;
      [| exact Hrt | apply Validate_issued; assumption | apply claims_map_type].
    unfold claim_user_id. cbn [jwt.Claims].
    rewrite claims_map_user_id, N2Z.id, Hget, Hoff. reflexivity.
Qed.

End Deactivated.

Lemma deactivated_user_tokens_refused_witness :
  @services.ValidateToken plain.codec scenario.cfg time.Minute scenario.store_bob_off
    scenario.bob_access = Err entities.ErrUserDeactivated /\
  @services.RefreshToken plain.codec scenario.cfg time.Minute scenario.store_bob_off
    {| service.rt_RefreshToken := scenario.bob_refresh |} = Err entities.ErrUserDeactivated.
Proof.
  destruct (@deactivated_user_tokens_refused plain.codec scenario.cfg 0 time.Minute
              scenario.store_bob_off scenario.bob scenario.bob_off
              plain_codec_roundtrip eq_refl eq_refl ltac:(vm_compute; discriminate))
    as (access & refresh & Ea & Er & _ & _ & Hv & Hr).
  split.
  - replace scenario.bob_access with access
      by (unfold scenario.bob_access; rewrite Ea; reflexivity).
    apply Hv. reflexivity.
  - replace scenario.bob_refresh with refresh
      by (unfold scenario.bob_refresh; rewrite Er; reflexivity).
    apply Hr. reflexivity.
Defined.

Lemma find_updated_row (now : Z) (user : entities.User) (l : list entities.User) :
  is_Some (find (repository.by_id (entities.ID user)) l) ->
  exists row,
    find (repository.by_id (entities.ID user)) (map (repository.updated_row now user) l)
    = Some row /\
    entities.IsActive row = entities.IsActive user.
Proof.
  induction l as [|r l IH]; cbn [map find]; intros Hsome.
  - destruct Hsome; discriminate.
  - destruct (repository.by_id (entities.ID user) r) eqn:Er.
    + assert (Hhit : repository.by_id (entities.ID user)
                       (repository.updated_row now user r) = true).
      { unfold repository.updated_row. rewrite Er. exact Er. }
      rewrite Hhit. eexists. split; [reflexivity|].
      unfold repository.updated_row. rewrite Er. reflexivity.
    + assert (Hmiss : repository.updated_row now user r = r).
      { unfold repository.updated_row. rewrite Er. reflexivity. }
      rewrite Hmiss, Er. apply IH, Hsome.
Qed.

(** [DeactivateUser] is one way to get the store of the statement above. *)
Lemma DeactivateUser_turns_flag_off `{repository.PlanCache}
    (now : Z) (s s' : repository.Store) (id : N) :
  services.DeactivateUser now s id = (None, s') ->
  exists row, repository.GetByID s' id = Ok row /\ entities.IsActive row = false.
Proof.
  unfold services.DeactivateUser, services.toggleUserActiveStatus.
  destruct (repository.GetByID s id) as [user|] eqn:Hget; [|discriminate].
  pose proof (GetByID_found _ _ _ Hget) as [_ Hid].
  intros Hupdate.
  apply Update_None in Hupdate as (values & _ & Ha & _ & _ & _ & ->).
  apply assigned_Some in Ha as (Hvalues & _).
  assert (Hvid : entities.ID values = id) by (rewrite Hvalues; exact Hid).
  assert (Hoff : entities.IsActive values = false) by (rewrite Hvalues; reflexivity).
  unfold repository.GetByID in *. cbn [repository.rows].
  destruct (find_updated_row now values (repository.rows s)) as (row & Hrow & Hflag).
  - rewrite Hvid. destruct (find _ _); [eexists; reflexivity|discriminate].
  - rewrite Hvid in Hrow. rewrite Hrow. exists row. split; [reflexivity|congruence].
Qed.

(** ** Role gates *)

Section RoleGates.
Import gin middleware.

Lemma Get_role_set_user_info (c : Context) (userInfo : service.UserInfo) :
  Get (set_user_info c userInfo) "role" = Some (AnyString (service.ui_Role userInfo)).
Proof.
  unfold Get, set_user_info, Set_. cbn [Keys].
  rewrite lookup_insert_ne by discriminate. apply lookup_insert_eq.
Qed.

(** C8. On a request whose identity has been attached, [RequireAdmin] is
    [RequireRole] of the admin role; it lets the request through
    untouched when the role of the identity is [admin], and for every
    other role, [manager] among them, it aborts with status 403. *)
Theorem RequireAdmin_admits_admin_only (c : Context) (userInfo : service.UserInfo) :
  let c' := set_user_info c userInfo in
  RequireAdmin c' = RequireRole entities.RoleAdmin c' /\
  RequireAdmin c' =
    (if service.ui_Role userInfo =? "admin" then c'
     else Abort (JSON c' StatusForbidden
                   [("success", HBool false); ("error", HString "Forbidden");
                    ("message", HString "Required role: admin")])) /\
  (IsAborted c = false ->
   (IsAborted (RequireAdmin c') = false <-> service.ui_Role userInfo = "admin") /\
   (service.ui_Role userInfo <> "admin" -> spec.status (RequireAdmin c') = Some 403%Z) /\
   (service.ui_Role userInfo = "manager" -> spec.status (RequireAdmin c') = Some 403%Z)).
Proof.
  intros c'.
  assert (Heq : RequireAdmin c' =
    (if service.ui_Role userInfo =? "admin" then c'
     else Abort (JSON c' StatusForbidden
                   [("success", HBool false); ("error", HString "Forbidden");
                    ("message", HString "Required role: admin")]))).
  { unfold RequireAdmin, RequireRole. subst c'. rewrite Get_role_set_user_info.
    unfold entities.RoleAdmin. destruct (_ =? "admin"); reflexivity. }
  split; [reflexivity|]. split; [exact Heq|].
  intros Hc. rewrite Heq.
  destruct (String.eqb_spec (service.ui_Role userInfo) "admin") as [Hr|Hr].
  - split; [split; [intros _; exact Hr | intros _; exact Hc]|].
    split; [intros Hne; contradiction|].
    intros Hm. rewrite Hm in Hr. discriminate Hr.
  - split; [split; [discriminate | intros Ha; contradiction]|].
    split; reflexivity.
Qed.

End RoleGates.

Lemma RequireAdmin_admits_admin_only_witness :
  let attached role :=
    middleware.set_user_info (scenario.request None [])
      {| service.ui_UserID := 2; service.ui_Username := "bob"; service.ui_Role := role |} in
  gin.IsAborted (middleware.RequireAdmin (attached "admin")) = false /\
  spec.status (middleware.RequireAdmin (attached "manager")) = Some 403%Z /\
  gin.IsAborted (middleware.RequireAdmin (attached "manager")) = true.
Proof.
  intros attached.
  destruct (RequireAdmin_admits_admin_only (scenario.request None [])
              {| service.ui_UserID := 2; service.ui_Username := "bob";
                 service.ui_Role := "admin" |}) as (_ & _ & Hadmin).
  destruct (RequireAdmin_admits_admin_only (scenario.request None [])
              {| service.ui_UserID := 2; service.ui_Username := "bob";
                 service.ui_Role := "manager" |}) as (_ & Hmanager & Hgate).
  destruct (Hadmin eq_refl) as (Hiff & _).
  destruct (Hgate eq_refl) as (_ & _ & Hstatus).
  split; [apply Hiff; reflexivity|].
  split; [apply Hstatus; reflexivity|].
  unfold attached. rewrite Hmanager. reflexivity.
Defined.

(** ** Authentication of a request *)

Section RequireAuth.
Context {codec : jwt.Codec}.
Variable cfg : config.JWTConfig.
Variable cookieService : cookie.CookieService.
Import gin middleware.

(** Without a refresh token that validates, [attemptTokenRefresh] gives up
    and leaves the context as it was. *)
Lemma attemptTokenRefresh_gives_up (now : Z) (s : repository.Store) (c : Context) :
  is_err (cookie.GetRefreshToken cookieService c) = true \/
  (exists refreshToken,
     cookie.GetRefreshToken cookieService c = Ok refreshToken /\
     is_err (JWTService.ParseRefreshToken cfg now refreshToken) = true) ->
  attemptTokenRefresh cfg cookieService now s c = (false, c).
Proof.
  unfold attemptTokenRefresh.
  intros [Hnone|(refreshToken & Hget & Hbad)].
  - destruct (cookie.GetRefreshToken cookieService c); [discriminate|reflexivity].
  - rewrite Hget. unfold services.RefreshToken. cbn [service.rt_RefreshToken].
    destruct (JWTService.ParseRefreshToken cfg now refreshToken);
      [discriminate|reflexivity].
Qed.

(** With a refresh token that [RefreshToken] accepts, [attemptTokenRefresh]
    writes the new pair of tokens to the cookies and attaches the identity
    of the new access token, provided that token is not expired the moment
    it is issued. *)
Lemma attemptTokenRefresh_renews (now : Z) (s : repository.Store) (c : Context)
    (refreshToken : string) (response : service.LoginResponse) :
  jwt.codec_roundtrip ->
  cookie.GetRefreshToken cookieService c = Ok refreshToken ->
  services.RefreshToken cfg now s {| service.rt_RefreshToken := refreshToken |}
  = Ok response ->
  time.Before now
    (time.Unix (time.Add now (time.Minutes (config.AccessExpiry cfg)))) = true ->
  let user := service.User response in
  attemptTokenRefresh cfg cookieService now s c =
  (true,
   set_user_info
     (cookie.SetAuthCookies cookieService c
        (service.AccessToken response) (service.RefreshToken response))
     {| service.ui_UserID := entities.ID user;
        service.ui_Username := entities.Username user;
        service.ui_Role := entities.Role_ user |}).
Proof.
  intros Hrt Hget Hrefresh Hlive user. subst user.
  unfold attemptTokenRefresh. rewrite Hget, Hrefresh.
  revert Hrefresh. unfold services.RefreshToken.
  destruct (JWTService.ParseRefreshToken _ _ _) as [token|]; [|discriminate].
  destruct (services.claim_user_id token) as [userID|]; [|discriminate].
  destruct (repository.GetByID _ _) as [user|]; [|discriminate].
  destruct (negb (entities.IsActive user)); [discriminate|].
  cbn. intros [= <-]. cbn [service.AccessToken service.RefreshToken service.User].
  unfold JWTService.ParseAccessToken.
  rewrite parseToken_signed;
    [| exact Hrt | apply Validate_issued; [lia | exact Hlive] | apply claims_map_type].
  unfold JWTService.ExtractUserFromToken. cbn [jwt.Valid jwt.Claims negb].
  rewrite claims_map_user_id.
  change (JWTService.claims_map now (config.AccessExpiry cfg) user "access" !! "username")
    with (Some (jwt.Str (entities.Username user))).
  change (JWTService.claims_map now (config.AccessExpiry cfg) user "access" !! "role")
    with (Some (jwt.Str (entities.Role_ user))).
  rewrite N2Z.id. reflexivity.
Qed.

Example isTokenExpiredError_bare_text :
  isTokenExpiredError (entities.Errorf "token is expired") = true /\
  isTokenExpiredError (entities.ErrJwt (jwt.ErrTokenInvalidClaims [jwt.ErrTokenExpired]))
  = false.
Proof. split; reflexivity. Qed.

(** Whatever makes the access token fail to validate, [RequireAuth] does
    not get to [attemptTokenRefresh]. *)
Lemma RequireAuth_invalid_token (now : Z) (s : repository.Store) (c : Context)
    (token : string) (err : entities.error) :
  extractToken cookieService c = Ok token ->
  JWTService.ParseAccessToken cfg now token = Err err ->
  RequireAuth cfg cookieService now s c
  = unauthorized c "Invalid token" "Token validation failed".
Proof.
  intros Hext Hparse. unfold RequireAuth. rewrite Hext, Hparse.
  rewrite (parseToken_error_text _ _ _ _ _ Hparse). reflexivity.
Qed.

(** C7. A request whose access token fails to validate, by expiry or
    otherwise, and whose refresh cookie is missing or carries a token that
    does not validate as a refresh token, is answered with status 401 and
    aborted; nothing is attached to the keys of the context and no cookie
    is written. *)
Theorem RequireAuth_rejects_without_valid_refresh_token
    (now : Z) (s : repository.Store) (c : Context)
    (token : string) (err : entities.error) :
  extractToken cookieService c = Ok token ->
  JWTService.ParseAccessToken cfg now token = Err err ->
  is_err (cookie.GetRefreshToken cookieService c) = true \/
  (exists refreshToken,
     cookie.GetRefreshToken cookieService c = Ok refreshToken /\
     is_err (JWTService.ParseRefreshToken cfg now refreshToken) = true) ->
  let c' := RequireAuth cfg cookieService now s c in
  c' = unauthorized c "Invalid token" "Token validation failed" /\
  spec.status c' = Some 401%Z /\
  IsAborted c' = true /\
  Keys c' = Keys c /\
  SetCookies c' = SetCookies c.
Proof.
  intros Hext Hparse Hrefresh c'.
  assert (Heq : c' = unauthorized c "Invalid token" "Token validation failed").
  { subst c'. unfold RequireAuth. rewrite Hext, Hparse.
    destruct (isTokenExpiredError err); [|reflexivity].
    rewrite (attemptTokenRefresh_gives_up now s c Hrefresh). reflexivity. }
  rewrite Heq. repeat split.
Qed.

End RequireAuth.

Lemma RequireAuth_rejects_without_valid_refresh_token_witness :
  let c := scenario.with_access_cookie_only in
  let c' := @middleware.RequireAuth plain.codec scenario.cfg cookie.NewCookieService
              scenario.later scenario.store c in
  c' = middleware.unauthorized c "Invalid token" "Token validation failed" /\
  spec.status c' = Some 401%Z /\
  gin.IsAborted c' = true /\
  gin.Keys c' = gin.Keys c /\
  gin.SetCookies c' = gin.SetCookies c.
Proof.
  exact (@RequireAuth_rejects_without_valid_refresh_token plain.codec scenario.cfg
           cookie.NewCookieService scenario.later scenario.store
           scenario.with_access_cookie_only scenario.alice_access
           (entities.ErrJwt (jwt.ErrTokenInvalidClaims [jwt.ErrTokenExpired]))
           ltac:(vm_compute; reflexivity) ltac:(vm_compute; reflexivity)
           (or_introl eq_refl)).
Defined.

(** C1, on the code. Sixteen minutes after issue, a request carries an
    expired access token and a refresh token that [RefreshToken] accepts.
    The error of the access token reads "token has invalid claims: token is
    expired", [isTokenExpiredError] does not take it for an expiry, and
    [RequireAuth] answers 401 with no cookie written and no identity
    attached, although [attemptTokenRefresh] on the same request would
    have renewed the tokens. *)
Theorem RequireAuth_expired_token_not_renewed :
  let c := scenario.with_both_cookies in
  let parsed := @JWTService.ParseAccessToken plain.codec scenario.cfg scenario.later
                  scenario.alice_access in
  let c' := @middleware.RequireAuth plain.codec scenario.cfg cookie.NewCookieService
              scenario.later scenario.store c in
  middleware.extractToken cookie.NewCookieService c = Ok scenario.alice_access /\
  parsed = Err (entities.ErrJwt (jwt.ErrTokenInvalidClaims [jwt.ErrTokenExpired])) /\
  entities.Error (entities.ErrJwt (jwt.ErrTokenInvalidClaims [jwt.ErrTokenExpired]))
    = "token has invalid claims: token is expired" /\
  middleware.isTokenExpiredError
    (entities.ErrJwt (jwt.ErrTokenInvalidClaims [jwt.ErrTokenExpired])) = false /\
  is_ok (@services.RefreshToken plain.codec scenario.cfg scenario.later scenario.store
           {| service.rt_RefreshToken := scenario.alice_refresh |}) = true /\
  fst (@middleware.attemptTokenRefresh plain.codec scenario.cfg cookie.NewCookieService
         scenario.later scenario.store c) = true /\
  c' = middleware.unauthorized c "Invalid token" "Token validation failed" /\
  spec.status c' = Some 401%Z /\ gin.IsAborted c' = true /\
  gin.Keys c' = ∅ /\ gin.SetCookies c' = [].
Proof. vm_compute. repeat split; reflexivity. Qed.

(** * Further properties *)

(** ** The token service, issue and parse *)

Section TokenRoundTrip.
Context {codec : jwt.Codec}.
Import JWTService.

Lemma ExtractUserFromToken_claims_map now ttl user type alg :
  ExtractUserFromToken
    {| jwt.Method := alg; jwt.Claims := claims_map now ttl user type; jwt.Valid := true |}
  = Ok (spec.identity_of user).
Proof.
  unfold ExtractUserFromToken, spec.identity_of. cbn [jwt.Valid jwt.Claims negb].
  rewrite claims_map_user_id.
  change (claims_map now ttl user type !! "username")
    with (Some (jwt.Str (entities.Username user))).
  change (claims_map now ttl user type !! "role")
    with (Some (jwt.Str (entities.Role_ user))).
  rewrite N2Z.id. reflexivity.
Qed.

(** X1. Issue, then parse. The access token issued to a user parses as an
    access token at every instant of its lifetime and the identity read
    from it is the id, username and role of that user; the same for the
    refresh token as a refresh token. *)
Theorem issued_tokens_parse_to_the_user
    (cfg : config.JWTConfig) (issued now : Z) (user : entities.User) :
  jwt.codec_roundtrip ->
  exists access refresh,
    GenerateAccessToken cfg issued user = Ok access /\
    GenerateRefreshToken cfg issued user = Ok refresh /\
    (spec.live issued (config.AccessExpiry cfg) now ->
     exists token,
       ParseAccessToken cfg now access = Ok token /\
       ExtractUserFromToken token = Ok (spec.identity_of user)) /\
    (spec.live issued (config.RefreshExpiry cfg) now ->
     exists token,
       ParseRefreshToken cfg now refresh = Ok token /\
       ExtractUserFromToken token = Ok (spec.identity_of user)).
Proof.
  intros Hrt. do 2 eexists. split; [reflexivity|]. split; [reflexivity|].
  split; intros [Hle Hlive]; eexists.
  - unfold ParseAccessToken. split.
    + apply parseToken_signed;
        [exact Hrt | apply Validate_issued; assumption | apply claims_map_type].
    + apply ExtractUserFromToken_claims_map.
  - unfold ParseRefreshToken. split.
    + apply parseToken_signed;
        [exact Hrt | apply Validate_issued; assumption | apply claims_map_type].
    + apply ExtractUserFromToken_claims_map.
Qed.

(** X2. From its expiry date on, an issued access token is refused, and
    the error is the library's invalid-claims error wrapping the expiry,
    whose text is not the bare "token is expired". *)
Theorem issued_access_token_expires
    (cfg : config.JWTConfig) (issued now : Z) (user : entities.User) :
  jwt.codec_roundtrip ->
  (issued <= now)%Z ->
  spec.expiry issued (config.AccessExpiry cfg) <> 0%Z ->
  time.Before now (spec.expiry issued (config.AccessExpiry cfg)) = false ->
  exists access,
    GenerateAccessToken cfg issued user = Ok access /\
    ParseAccessToken cfg now access
    = Err (entities.ErrJwt (jwt.ErrTokenInvalidClaims [jwt.ErrTokenExpired])) /\
    entities.Error (entities.ErrJwt (jwt.ErrTokenInvalidClaims [jwt.ErrTokenExpired]))
    = "token has invalid claims: token is expired".
Proof.
  intros Hrt Hle Hnz Hdead. eexists. split; [reflexivity|]. split; [|reflexivity].
  unfold ParseAccessToken, parseToken, jwt.Parse, jwt.SignedString.
  rewrite Hrt. cbn [jwt.seg_alg jwt.seg_claims].
  change (jwt.is_registered "HS256") with true.
  change (keyFunc (config.SecretKey cfg) "HS256")
    with (@Ok string string (config.SecretKey cfg)).
  cbn [negb]. unfold jwt.Verify. cbn [jwt.seg_signing_input jwt.seg_signature].
  rewrite String.eqb_refl. cbn [negb].
  unfold jwt.Validate, jwt.verifyExpiresAt, jwt.verifyNotBefore, jwt.parseNumericDate.
  rewrite claims_map_exp, claims_map_nbf.
  fold (spec.expiry issued (config.AccessExpiry cfg)).
  apply Z.eqb_neq in Hnz. rewrite Hnz, Hdead.
  assert (Hnbf : time.Before now (time.Unix issued) = false).
  { unfold time.Before, time.Unix, time.Second. apply Z.ltb_ge.
    pose proof (Z.mul_div_le issued 1000000000 ltac:(lia)). lia. }
  destruct (time.Unix issued =? 0)%Z; rewrite ?Hnbf; reflexivity.
Qed.

(** X3. A token presented to a service whose secret gives another MAC for
    it is refused with the signature error, at every instant. *)
Theorem token_of_another_secret_refused
    (cfg cfg' : config.JWTConfig) (issued now : Z) (user : entities.User) :
  jwt.codec_roundtrip ->
  (let input := jwt.signing_input "HS256"
                  (claims_map issued (config.AccessExpiry cfg) user "access") in
   jwt.hmac "HS256" (config.SecretKey cfg') input
   <> jwt.hmac "HS256" (config.SecretKey cfg) input) ->
  exists access,
    GenerateAccessToken cfg issued user = Ok access /\
    ParseAccessToken cfg' now access = Err (entities.ErrJwt jwt.ErrTokenSignatureInvalid).
Proof.
  intros Hrt Hmac. eexists. split; [reflexivity|].
  unfold ParseAccessToken, parseToken, jwt.Parse, jwt.SignedString.
  rewrite Hrt. cbn [jwt.seg_alg jwt.seg_claims].
  change (jwt.is_registered "HS256") with true.
  change (keyFunc (config.SecretKey cfg') "HS256")
    with (@Ok string string (config.SecretKey cfg')).
  cbn [negb]. unfold jwt.Verify. cbn [jwt.seg_signing_input jwt.seg_signature].
  cbv zeta in Hmac. apply String.eqb_neq in Hmac. rewrite Hmac. reflexivity.
Qed.

(** X4. What [parseToken] accepts: the token string decodes, its algorithm
    is one of the HMAC family, its signature is the MAC of its first two
    segments under the secret given, no date claim is violated at that
    instant, and its discriminator is the expected one. *)
Theorem parseToken_accepts_only
    (now : Z) (tokenString secret expectedType : string) (token : jwt.Token) :
  parseToken now tokenString secret expectedType = Ok token ->
  exists seg alg,
    jwt.decode_token tokenString = Ok seg /\
    jwt.seg_alg seg = Some alg /\
    jwt.is_hmac alg = true /\
    jwt.hmac alg secret (jwt.seg_signing_input seg) = jwt.seg_signature seg /\
    jwt.Validate now (jwt.seg_claims seg) = [] /\
    jwt.seg_claims seg !! "type" = Some (jwt.Str expectedType) /\
    token = {| jwt.Method := alg; jwt.Claims := jwt.seg_claims seg; jwt.Valid := true |}.
Proof.
  unfold parseToken, jwt.Parse.
  destruct (jwt.decode_token tokenString) as [seg|d]; [|discriminate].
  destruct (jwt.seg_alg seg) as [alg|] eqn:Halg; [|discriminate].
  destruct (negb (jwt.is_registered alg)); [discriminate|].
  unfold keyFunc. destruct (jwt.is_hmac alg) eqn:Hhmac; [|discriminate].
  cbn [negb]. unfold jwt.Verify.
  destruct (String.eqb_spec (jwt.hmac alg secret (jwt.seg_signing_input seg))
              (jwt.seg_signature seg)) as [Hsig|]; [|discriminate].
  cbn [negb].
  destruct (jwt.Validate now (jwt.seg_claims seg)) eqn:Hval; [|discriminate].
  cbn [jwt.Valid jwt.Claims].
  destruct (jwt.seg_claims seg !! "type") as [[n|ty|l|raw]|] eqn:Hty; try discriminate.
  destruct (String.eqb_spec ty expectedType) as [->|]; [|discriminate].
  cbn [negb]. intros [= <-]. exists seg, alg. auto 10.
Qed.

(** X5. A token string whose header names an algorithm outside the HMAC
    family, [none] included, is refused as unverifiable before its
    signature or claims are looked at. *)
Theorem parseToken_refuses_other_algorithms
    (now : Z) (tokenString secret expectedType : string)
    (seg : jwt.Segments) (alg : string) :
  jwt.decode_token tokenString = Ok seg ->
  jwt.seg_alg seg = Some alg ->
  jwt.is_hmac alg = false ->
  exists detail,
    parseToken now tokenString secret expectedType
    = Err (entities.ErrJwt (jwt.ErrTokenUnverifiable detail)).
Proof.
  intros Hdec Halg Hhmac. unfold parseToken, jwt.Parse.
  rewrite Hdec, Halg. unfold keyFunc. rewrite Hhmac. cbn [negb].
  destruct (negb (jwt.is_registered alg)); eexists; reflexivity.
Qed.

(** X6. The token service's [ValidateToken] accepts exactly the strings
    that [ParseAccessToken] and then [ExtractUserFromToken] accept, with
    the same errors and the same identity; the dates it returns are
    computed from the clock, not read from the token. *)
Theorem ValidateToken_is_parse_then_extract
    (cfg : config.JWTConfig) (now : Z) (tokenString : string) :
  ValidateToken cfg now tokenString =
  match ParseAccessToken cfg now tokenString with
  | Err err => Err err
  | Ok token =>
    match ExtractUserFromToken token with
    | Err err => Err err
    | Ok info =>
        Ok {| service.cl_UserID := service.ui_UserID info;
              service.cl_Username := service.ui_Username info;
              service.cl_Role := service.ui_Role info;
              service.cl_Subject := Sprintf_d (service.ui_UserID info);
              service.cl_ExpiresAt := spec.expiry now (config.AccessExpiry cfg);
              service.cl_NotBefore := time.Unix now;
              service.cl_IssuedAt := time.Unix now |}
    end
  end.
Proof.
  unfold ValidateToken, ExtractUserFromToken.
  destruct (ParseAccessToken cfg now tokenString) as [token|]; [|reflexivity].
  destruct (negb (jwt.Valid token)); [reflexivity|].
  destruct (jwt.Claims token !! "user_id") as [[]|]; try reflexivity.
  destruct (jwt.Claims token !! "username") as [[]|]; try reflexivity.
  destruct (jwt.Claims token !! "role") as [[]|]; reflexivity.
Qed.

End TokenRoundTrip.

Lemma issued_tokens_parse_to_the_user_witness :
  exists access token,
    @JWTService.GenerateAccessToken plain.codec scenario.cfg 0 scenario.alice = Ok access /\
    @JWTService.ParseAccessToken plain.codec scenario.cfg scenario.soon access = Ok token /\
    JWTService.ExtractUserFromToken token
    = Ok {| service.ui_UserID := 1; service.ui_Username := "alice";
            service.ui_Role := "admin" |}.
Proof.
  destruct (@issued_tokens_parse_to_the_user plain.codec scenario.cfg 0 scenario.soon
              scenario.alice plain_codec_roundtrip)
    as (access & refresh & Ea & _ & Ha & _).
  assert (Hlive : spec.live 0 (config.AccessExpiry scenario.cfg) scenario.soon)
    by (split; [vm_compute; discriminate | reflexivity]).
  destruct (Ha Hlive) as (token & Hp & He).
  exists access, token. split; [exact Ea|]. split; [exact Hp|exact He].
Defined.

Lemma issued_access_token_expires_witness :
  exists access,
    @JWTService.GenerateAccessToken plain.codec scenario.cfg 0 scenario.alice = Ok access /\
    @JWTService.ParseAccessToken plain.codec scenario.cfg scenario.later access
    = Err (entities.ErrJwt (jwt.ErrTokenInvalidClaims [jwt.ErrTokenExpired])) /\
    entities.Error (entities.ErrJwt (jwt.ErrTokenInvalidClaims [jwt.ErrTokenExpired]))
    = "token has invalid claims: token is expired".
Proof.
  exact (@issued_access_token_expires plain.codec scenario.cfg 0 scenario.later
           scenario.alice plain_codec_roundtrip
           ltac:(vm_compute; discriminate) ltac:(vm_compute; discriminate) eq_refl).
Defined.

Lemma token_of_another_secret_refused_witness :
  exists access,
    @JWTService.GenerateAccessToken plain.codec scenario.cfg 0 scenario.alice = Ok access /\
    @JWTService.ParseAccessToken plain.codec scenario.cfg_other scenario.soon access
    = Err (entities.ErrJwt jwt.ErrTokenSignatureInvalid).
Proof.
  exact (@token_of_another_secret_refused plain.codec scenario.cfg scenario.cfg_other
           0 scenario.soon scenario.alice plain_codec_roundtrip
           ltac:(vm_compute; discriminate)).
Defined.

Lemma parseToken_accepts_only_witness :
  exists seg alg,
    plain.decode_token scenario.alice_access = Ok seg /\
    jwt.seg_alg seg = Some alg /\
    jwt.is_hmac alg = true /\
    plain.hmac alg "access-secret" (jwt.seg_signing_input seg) = jwt.seg_signature seg /\
    jwt.Validate scenario.soon (jwt.seg_claims seg) = [] /\
    jwt.seg_claims seg !! "type" = Some (jwt.Str "access") /\
    {| jwt.Method := "HS256";
       jwt.Claims := JWTService.claims_map 0 15 scenario.alice "access";
       jwt.Valid := true |}
    = {| jwt.Method := alg; jwt.Claims := jwt.seg_claims seg; jwt.Valid := true |}.
Proof.
  exact (@parseToken_accepts_only plain.codec scenario.soon scenario.alice_access
           "access-secret" "access" _ ltac:(vm_compute; reflexivity)).
Defined.

Lemma parseToken_refuses_other_algorithms_witness :
  exists detail,
    @JWTService.parseToken plain.codec scenario.soon scenario.alice_unsigned
      "access-secret" "access"
    = Err (entities.ErrJwt (jwt.ErrTokenUnverifiable detail)).
Proof.
  exact (@parseToken_refuses_other_algorithms plain.codec scenario.soon
           scenario.alice_unsigned "access-secret" "access" _ "none"
           (plain_codec_roundtrip "none"
              (JWTService.claims_map 0 15 scenario.alice "access") "")
           eq_refl eq_refl).
Defined.

(** ** The repository: keys and lookups *)

Section RepositoryKeys.
Context {plans : repository.PlanCache}.
Import entities repository spec.

Lemma NoDup_map_filter {A B} (f : A -> B) (p : A -> bool) (l : list A) :
  List.NoDup (map f l) -> List.NoDup (map f (List.filter p l)).
Proof.
  induction l as [|x l IH]; cbn [map List.filter]; intros Hnd; [constructor|].
  apply List.NoDup_cons_iff in Hnd as [Hx Hl].
  destruct (p x); cbn [map]; [|auto].
  apply List.NoDup_cons_iff. split; [|auto].
  intros Hin. apply Hx. apply in_map_iff in Hin as (y & Hy & Hyin).
  apply filter_In in Hyin as [Hyin _]. apply in_map_iff. eauto.
Qed.

Lemma updated_row_ID now user r : ID (updated_row now user r) = ID r.
Proof. unfold updated_row. destruct (by_id (ID user) r); reflexivity. Qed.

Lemma updated_row_miss now user r :
  by_id (ID user) r = false -> updated_row now user r = r.
Proof. unfold updated_row. intros ->. reflexivity. Qed.

Lemma updated_row_Username now user r :
  Username (updated_row now user r) = if by_id (ID user) r then Username user else Username r.
Proof. unfold updated_row. destruct (by_id (ID user) r); reflexivity. Qed.

Lemma updated_row_Role now user r :
  Role_ (updated_row now user r) = if by_id (ID user) r then Role_ user else Role_ r.
Proof. unfold updated_row. destruct (by_id (ID user) r); reflexivity. Qed.

(** Renaming the row of one id keeps usernames unique when no other row
    has the new name. *)
Lemma NoDup_usernames_updated now user (l : list User) :
  List.NoDup (map ID l) ->
  List.NoDup (map Username l) ->
  existsb (fun r => negb (by_id (ID user) r) && by_username (Username user) r) l = false ->
  List.NoDup (map Username (map (updated_row now user) l)).
Proof.
  induction l as [|r l IH]; cbn [map existsb]; intros Hids Hnames Hfree; [constructor|].
  apply List.NoDup_cons_iff in Hids as [Hid Hids].
  apply List.NoDup_cons_iff in Hnames as [Hname Hnames].
  apply orb_false_iff in Hfree as [Hr Hfree].
  assert (Hother : forall r', In r' l -> by_id (ID user) r' = false ->
                              Username r' <> Username user).
  { intros r' Hin Hmiss Heq.
    assert (Hex : existsb (fun r => negb (by_id (ID user) r) && by_username (Username user) r) l
                  = true).
    { apply existsb_exists. exists r'. split; [exact Hin|].
      rewrite Hmiss. unfold by_username. rewrite Heq, String.eqb_refl. reflexivity. }
    congruence. }
  apply List.NoDup_cons_iff. split; [|apply IH; assumption].
  rewrite updated_row_Username. intros Hin.
  apply in_map_iff in Hin as (r'' & Hname'' & Hin'').
  apply in_map_iff in Hin'' as (r' & <- & Hin').
  rewrite updated_row_Username in Hname''.
  destruct (by_id (ID user) r) eqn:Er.
  - destruct (by_id (ID user) r') eqn:Er'.
    + apply Hid. unfold by_id in Er, Er'. apply N.eqb_eq in Er, Er'.
      apply in_map_iff. exists r'. split; [congruence|exact Hin'].
    + apply (Hother r' Hin' Er'). exact Hname''.
  - destruct (by_id (ID user) r') eqn:Er'.
    + cbn [negb andb] in Hr. unfold by_username in Hr.
      apply String.eqb_neq in Hr. congruence.
    + apply Hname. apply in_map_iff. exists r'. auto.
Qed.

Lemma updated_row_within now user r :
  within_columns (updated_row now user r)
  = if by_id (ID user) r then within_columns user else within_columns r.
Proof. unfold updated_row. destruct (by_id (ID user) r); reflexivity. Qed.

(** A store with the same rows and a sequence no lower is as well formed. *)
Lemma well_formed_sequence (s s' : Store) :
  rows s' = rows s -> (next_id s <= next_id s')%N -> well_formed s -> well_formed s'.
Proof.
  intros Hrows Hseq (Hids & Hnames & Hbelow & Hroles & Hcols).
  unfold well_formed. rewrite Hrows. repeat split; try assumption.
  eapply List.Forall_impl; [|exact Hbelow]. cbn. intros r Hr. lia.
Qed.

Lemma Create_well_formed (now : Z) (s : Store) (user : User) :
  well_formed s -> well_formed (snd (Create now s user)).
Proof.
  intros Hwf.
  destruct (Create now s user) as [[created|err] s'] eqn:E; cbn [snd].
  - apply Create_Ok in E
      as (values & Hvalid & Hassigned & Etaken & Erole & _ & ->).
    destruct Hwf as (Hids & Hnames & Hseq & Hroles & Hcols).
    unfold well_formed. cbn [rows next_id].
    split; [|split; [|split; [|split]]].
    + rewrite map_app. cbn [map ID]. apply List.NoDup_app.
      * exact Hids.
      * constructor; [intros []|constructor].
      * intros x Hx [<-|[]]. apply in_map_iff in Hx as (r & Hr & Hin).
        rewrite List.Forall_forall in Hseq. specialize (Hseq r Hin). lia.
    + rewrite map_app. cbn [map Username]. apply List.NoDup_app.
      * exact Hnames.
      * constructor; [intros []|constructor].
      * intros x Hx [<-|[]]. apply in_map_iff in Hx as (r & Hr & Hin).
        assert (Hex : existsb (by_username (Username values)) (rows s) = true).
        { apply existsb_exists. exists r. split; [exact Hin|].
          unfold by_username. rewrite Hr. apply String.eqb_refl. }
        congruence.
    + apply List.Forall_app. split.
      * eapply List.Forall_impl; [|exact Hseq]. cbn. intros r Hr. lia.
      * constructor; [cbn; lia|constructor].
    + apply List.Forall_app. split; [exact Hroles|].
      constructor; [exact Erole|constructor].
    + apply List.Forall_app. split; [exact Hcols|].
      constructor; [|constructor].
      exact (assigned_within_columns user values Hvalid Hassigned).
  - apply Create_Err in E as (Hrows & Hseq & _).
    exact (well_formed_sequence s s' Hrows Hseq Hwf).
Qed.

Lemma Update_well_formed (now : Z) (s : Store) (user : User) :
  well_formed s -> well_formed (snd (Update now s user)).
Proof.
  intros Hwf.
  destruct (Update now s user) as [[err|] s'] eqn:E; cbn [snd].
  - apply Update_Some in E as [-> _]. exact Hwf.
  - apply Update_None in E
      as (values & Hvalid & Hassigned & _ & Efree & Erole & ->).
    pose proof (assigned_within_columns user values Hvalid Hassigned) as Hwithin.
    apply assigned_Some in Hassigned as (Hvalues & _).
    assert (Hid : ID values = ID user) by (rewrite Hvalues; reflexivity).
    rewrite <- Hid in Efree.
    destruct Hwf as (Hids & Hnames & Hseq & Hroles & Hcols).
    unfold well_formed. cbn [rows next_id].
    split; [|split; [|split; [|split]]].
    + rewrite map_map. erewrite map_ext; [exact Hids|]. intros r. apply updated_row_ID.
    + apply NoDup_usernames_updated; assumption.
    + apply List.Forall_map. eapply List.Forall_impl; [|exact Hseq].
      cbn. intros r Hr. rewrite updated_row_ID. exact Hr.
    + apply List.Forall_map. eapply List.Forall_impl; [|exact Hroles].
      cbn. intros r Hr. rewrite updated_row_Role.
      destruct (by_id (ID values) r); assumption.
    + apply List.Forall_map. eapply List.Forall_impl; [|exact Hcols].
      cbn. intros r Hr. rewrite updated_row_within.
      destruct (by_id (ID values) r); assumption.
Qed.

Lemma Delete_well_formed (s : Store) (id : N) :
  well_formed s -> well_formed (snd (Delete s id)).
Proof.
  intros (Hids & Hnames & Hseq & Hroles & Hcols).
  unfold Delete. destruct (negb _); cbn [snd]; [repeat split; assumption|].
  unfold well_formed. cbn [rows next_id].
  split; [apply NoDup_map_filter, Hids|].
  split; [apply NoDup_map_filter, Hnames|].
  rewrite !List.Forall_forall in *.
  repeat split; intros r Hr; apply filter_In in Hr as [Hr _]; auto.
Qed.

Lemma UpdateLastLogin_well_formed (now : Z) (s : Store) (id : N) :
  well_formed s -> well_formed (snd (UpdateLastLogin now s id)).
Proof.
  intros (Hids & Hnames & Hseq & Hroles & Hcols).
  unfold UpdateLastLogin. destruct (negb _); cbn [snd]; [repeat split; assumption|].
  unfold well_formed. cbn [rows next_id].
  split; [|split; [|split; [|split]]].
  - rewrite map_map. erewrite map_ext; [exact Hids|].
    intros r. destruct (by_id id r); reflexivity.
  - rewrite map_map. erewrite map_ext; [exact Hnames|].
    intros r. destruct (by_id id r); reflexivity.
  - apply List.Forall_map. eapply List.Forall_impl; [|exact Hseq].
    cbn. intros r Hr. destruct (by_id id r); exact Hr.
  - apply List.Forall_map. eapply List.Forall_impl; [|exact Hroles].
    cbn. intros r Hr. destruct (by_id id r); exact Hr.
  - apply List.Forall_map. eapply List.Forall_impl; [|exact Hcols].
    cbn. intros r Hr. destruct (by_id id r); exact Hr.
Qed.

Lemma repository_ops_well_formed
    (now : Z) (s : Store) (user : User) (id : N) :
  well_formed s ->
  well_formed (snd (Create now s user)) /\
  well_formed (snd (Update now s user)) /\
  well_formed (snd (Delete s id)) /\
  well_formed (snd (UpdateLastLogin now s id)).
Proof.
  intros Hwf.
  split; [apply Create_well_formed, Hwf|].
  split; [apply Update_well_formed, Hwf|].
  split; [apply Delete_well_formed, Hwf|apply UpdateLastLogin_well_formed, Hwf].
Qed.

(** X7. Each writing operation of the repository, whether it succeeds or
    refuses, leaves the table with unique ids, unique usernames, ids below
    the sequence, roles that pass the check and texts within the lengths
    of their columns, if it found it so. *)
Theorem repository_keeps_the_keys
    (now : Z) (s : Store) (user : User) (id : N) :
  well_formed s ->
  well_formed (snd (Create now s user)) /\
  well_formed (snd (Update now s user)) /\
  well_formed (snd (Delete s id)) /\
  well_formed (snd (UpdateLastLogin now s id)).
Proof. apply repository_ops_well_formed. Qed.

End RepositoryKeys.

Section RepositoryLookups.
Context {plans : repository.PlanCache}.
Import entities repository spec.

Lemma find_app_single {A} (f : A -> bool) (l : list A) (x : A) :
  find f (l ++ [x]) =
  match find f l with
  | Some y => Some y
  | None => if f x then Some x else None
  end.
Proof.
  induction l as [|y l IH]; cbn [app find]; [reflexivity|].
  destruct (f y); [reflexivity|exact IH].
Qed.

(** The row [Create] has stored is the returned user as the columns hold
    it. *)
Lemma Create_stored (now : Z) (s s' : Store) (user created : User) :
  Create now s user = (Ok created, s') ->
  rows s' = (rows s ++ [as_stored created])%list /\
  ID created = next_id s /\
  Username (as_stored created) = column 50 (Username user) /\
  existsb (by_username (Username (as_stored created))) (rows s) = false /\
  pg.varchar 50 (Username user) = Some (Username (as_stored created)) /\
  Role_ (as_stored created) = Role_ user /\
  IsActive (as_stored created) = IsActive user /\
  (pg.fits 255 (Password user) = true ->
   Password (as_stored created) = Password user) /\
  (within_columns user = true -> as_stored created = set_LastLogin created None).
Proof.
  intros E. apply Create_Ok in E as (values & Hvalid & Ha & Etaken & Erole & -> & ->).
  destruct (assigned_Some user values Ha) as (Hvalues & Eu & Ep & Ef & El & Er).
  pose proof (varchar_role _ _ Er Erole) as Hrole.
  assert (Hcol : column 20 (Role_ user) = Role_ user).
  { unfold column. rewrite Er. exact Hrole. }
  rewrite Hvalues in Etaken, Eu. cbn [Username] in Etaken, Eu.
  unfold as_stored. cbn [rows ID Username Password FirstName LastName Role_ IsActive
                         LastLogin CreatedAt UpdatedAt].
  split; [rewrite Hvalues; reflexivity|].
  split; [reflexivity|]. split; [reflexivity|].
  split; [exact Etaken|]. split; [exact Eu|].
  split; [exact Hcol|]. split; [reflexivity|].
  split; [intros Hfit; apply column_fits, Hfit|].
  intros Hwithin. unfold within_columns in Hwithin. rewrite !andb_true_iff in Hwithin.
  destruct Hwithin as (((Hu & Hp) & Hf) & Hl).
  rewrite (column_fits _ _ Hu), (column_fits _ _ Hp), (column_fits _ _ Hf),
          (column_fits _ _ Hl), Hcol.
  reflexivity.
Qed.

Lemma Create_lookup
    (now : Z) (s s' : Store) (user created : User) :
  well_formed s ->
  Create now s user = (Ok created, s') ->
  let row := as_stored created in
  GetByID s' (ID created) = Ok row /\
  GetByUsername s' (Username row) = Ok row /\
  (forall id, id <> ID created -> GetByID s' id = GetByID s id) /\
  (forall username, username <> Username row ->
     GetByUsername s' username = GetByUsername s username) /\
  ((pg.char_length (Username user) <= 50)%nat ->
   Username row = Username user /\ GetByUsername s' (Username user) = Ok row) /\
  ((50 < pg.char_length (Username user))%nat ->
   Username row <> Username user /\
   GetByUsername s' (Username user) = Err ErrUserNotFound) /\
  (within_columns user = true -> row = set_LastLogin created None).
Proof.
  intros (_ & _ & Hseq & _ & Hcols) E row.
  destruct (Create_stored now s s' user created E)
    as (Hrows & Hid & Hname & Etaken & Evarchar & _ & _ & _ & Hsame).
  fold row in Hrows, Hname, Etaken, Evarchar, Hsame.
  assert (Hrowid : ID row = ID created) by reflexivity.
  unfold GetByID, GetByUsername. rewrite Hrows.
  assert (Hfresh_id : find (by_id (ID created)) (rows s) = None).
  { destruct (find (by_id (ID created)) (rows s)) as [r|] eqn:Er; [|reflexivity].
    apply find_some in Er as [Hin Hr]. apply N.eqb_eq in Hr.
    rewrite List.Forall_forall in Hseq. specialize (Hseq r Hin). lia. }
  pose proof (existsb_false_find _ _ Etaken) as Hfresh_name.
  assert (Hfound : find (by_username (Username row)) (rows s ++ [row]) = Some row).
  { rewrite find_app_single, Hfresh_name. unfold by_username.
    rewrite String.eqb_refl. reflexivity. }
  split; [|split; [|split; [|split; [|split; [|split]]]]].
  - rewrite find_app_single, Hfresh_id. unfold by_id. rewrite Hrowid, N.eqb_refl.
    reflexivity.
  - rewrite Hfound. reflexivity.
  - intros id Hne. rewrite find_app_single. unfold by_id at 2. rewrite Hrowid.
    apply N.eqb_neq in Hne. rewrite N.eqb_sym, Hne.
    destruct (find (by_id id) (rows s)); reflexivity.
  - intros username Hne. rewrite find_app_single. unfold by_username at 2.
    apply String.eqb_neq in Hne. rewrite String.eqb_sym, Hne.
    destruct (find (by_username username) (rows s)); reflexivity.
  - intros Hshort.
    assert (Heq : Username row = Username user)
      by exact (varchar_short 50 _ _ Hshort Evarchar).
    split; [exact Heq|]. rewrite <- Heq, Hfound. reflexivity.
  - intros Hlong.
    destruct (varchar_long 50 _ _ Hlong Evarchar) as (_ & _ & Hne).
    split; [exact Hne|].
    rewrite find_app_single.
    assert (Hold : find (by_username (Username user)) (rows s) = None).
    { destruct (find (by_username (Username user)) (rows s)) as [r|] eqn:Er; [|reflexivity].
      apply find_some in Er as [Hin Hr]. apply String.eqb_eq in Hr.
      rewrite List.Forall_forall in Hcols. specialize (Hcols r Hin).
      unfold within_columns in Hcols. rewrite !andb_true_iff in Hcols.
      destruct Hcols as (((Hu & _) & _) & _).
      apply fits_char_length in Hu. rewrite Hr in Hu. lia. }
    rewrite Hold. unfold by_username.
    apply String.eqb_neq in Hne. rewrite Hne. reflexivity.
  - exact Hsame.
Qed.

(** X8. Insert, then look up. After [Create] has accepted a user in a
    well-formed table, a lookup by the id it returned finds the new row:
    the returned user as the columns hold it, with no last login, which is
    the returned user itself when its texts are within the columns. A
    lookup by the username as stored finds the same row; lookups of every
    other id and username answer as before. The username as stored is the
    username given when that has at most 50 characters; when it has more,
    the characters in excess being spaces, the stored one is another and a
    lookup by the username given finds nothing. *)
Theorem Create_then_lookup
    (now : Z) (s s' : Store) (user created : User) :
  well_formed s ->
  Create now s user = (Ok created, s') ->
  let row := as_stored created in
  GetByID s' (ID created) = Ok row /\
  GetByUsername s' (Username row) = Ok row /\
  (forall id, id <> ID created -> GetByID s' id = GetByID s id) /\
  (forall username, username <> Username row ->
     GetByUsername s' username = GetByUsername s username) /\
  ((pg.char_length (Username user) <= 50)%nat ->
   Username row = Username user /\ GetByUsername s' (Username user) = Ok row) /\
  ((50 < pg.char_length (Username user))%nat ->
   Username row <> Username user /\
   GetByUsername s' (Username user) = Err ErrUserNotFound) /\
  (within_columns user = true -> row = set_LastLogin created None).
Proof. apply Create_lookup. Qed.

End RepositoryLookups.

(** ** The auth service, success and failure *)

Section AuthServiceMore.
Context {codec : jwt.Codec} {bcrypt : entities.Bcrypt}.
Variable cfg : config.JWTConfig.
Import entities repository services spec.

Lemma GetByUsername_found (s : Store) (username : string) (user : User) :
  GetByUsername s username = Ok user -> In user (rows s) /\ Username user = username.
Proof.
  unfold GetByUsername.
  destruct (find (by_username username) (rows s)) as [v|] eqn:E; [|discriminate].
  intros [= <-]. apply find_some in E as [Hin Hname]. apply String.eqb_eq in Hname. auto.
Qed.

Lemma find_after_last_login (now : Z) (id : N) (l : list User) :
  find (by_id id) (map (fun r => if by_id id r then set_LastLogin r (Some now) else r) l)
  = option_map (fun r => set_LastLogin r (Some now)) (find (by_id id) l).
Proof.
  induction l as [|r l IH]; cbn [map find option_map]; [reflexivity|].
  destruct (by_id id r) eqn:Er.
  - unfold by_id in *. cbn [ID set_LastLogin]. rewrite Er. reflexivity.
  - rewrite Er. exact IH.
Qed.

Lemma Login_ok
    (now : Z) (s : Store) (username password : string) (user : User) :
  username <> "" ->
  password <> "" ->
  GetByUsername s username = Ok user ->
  IsActive user = true ->
  VerifyPassword user password = true ->
  exists access refresh s' row,
    JWTService.GenerateAccessToken cfg now user = Ok access /\
    JWTService.GenerateRefreshToken cfg now user = Ok refresh /\
    Login cfg now s {| service.lr_Username := username; service.lr_Password := password |}
    = (Ok {| service.AccessToken := access; service.RefreshToken := refresh;
             service.User := set_LastLogin user (Some now);
             service.ExpiresIn := 15 |}, s') /\
    GetByID s' (ID user) = Ok row /\
    LastLogin row = Some now.
Proof.
  intros Hu Hp Hget Hact Hpw.
  apply String.eqb_neq in Hu, Hp.
  pose proof (GetByUsername_found _ _ _ Hget) as [Hin _].
  assert (Hex : existsb (by_id (ID user)) (rows s) = true).
  { apply existsb_exists. exists user. split; [exact Hin|]. apply N.eqb_refl. }
  assert (Hfind : exists r, find (by_id (ID user)) (rows s) = Some r).
  { destruct (find (by_id (ID user)) (rows s)) as [r|] eqn:E; [eauto|].
    apply (find_none _ _ E) in Hin. unfold by_id in Hin. rewrite N.eqb_refl in Hin.
    discriminate. }
  destruct Hfind as [r Hr].
  do 4 eexists. split; [reflexivity|]. split; [reflexivity|].
  unfold Login, getUserByUsername. cbn [service.lr_Username service.lr_Password].
  rewrite Hu, Hp, Hget, Hact, Hpw. cbn [orb negb].
  cbn [JWTService.GenerateAccessToken JWTService.GenerateRefreshToken].
  split; [reflexivity|].
  unfold entities.UpdateLastLogin, repository.UpdateLastLogin. cbn [ID set_LastLogin].
  rewrite Hex. cbn [negb snd]. unfold GetByID. cbn [rows].
  rewrite find_after_last_login, Hr. cbn [option_map]. split; reflexivity.
Qed.

(** X9. A login with the username and a password that verifies against
    the hash of an active account succeeds: both tokens are the ones
    issued for that account at that instant, the user returned carries
    the instant as last login, and so does the row a lookup by the id
    finds in the store afterwards. *)
Theorem Login_succeeds
    (now : Z) (s : Store) (username password : string) (user : User) :
  username <> "" ->
  password <> "" ->
  GetByUsername s username = Ok user ->
  IsActive user = true ->
  VerifyPassword user password = true ->
  exists access refresh s' row,
    JWTService.GenerateAccessToken cfg now user = Ok access /\
    JWTService.GenerateRefreshToken cfg now user = Ok refresh /\
    Login cfg now s {| service.lr_Username := username; service.lr_Password := password |}
    = (Ok {| service.AccessToken := access; service.RefreshToken := refresh;
             service.User := set_LastLogin user (Some now);
             service.ExpiresIn := 15 |}, s') /\
    GetByID s' (ID user) = Ok row /\
    LastLogin row = Some now.
Proof. apply Login_ok. Qed.

(** X10. Whatever the request, [Login] does not add, remove or reorder
    rows and changes no column but the last login, and the sequence stays
    where it was; when it fails, the store is untouched and the error is
    [ErrInvalidCredentials] or [ErrUserDeactivated], never
    [ErrUserNotFound]. *)
Theorem Login_touches_last_login_only
    (now : Z) (s : Store) (req : service.LoginRequest) :
  let result := Login cfg now s req in
  map forget_last_login (rows (snd result)) = map forget_last_login (rows s) /\
  next_id (snd result) = next_id s /\
  match fst result with
  | Ok _ => True
  | Err err =>
      snd result = s /\ (err = ErrInvalidCredentials \/ err = ErrUserDeactivated)
  end.
Proof.
  unfold Login.
  destruct (_ || _); [cbn; auto|].
  destruct (getUserByUsername _ _) as [user|]; [|cbn; auto].
  destruct (negb (IsActive user)); [cbn; auto|].
  destruct (negb (VerifyPassword _ _)); [cbn; auto|].
  cbn [JWTService.GenerateAccessToken JWTService.GenerateRefreshToken fst snd].
  unfold repository.UpdateLastLogin.
  destruct (negb (existsb _ _)); cbn [snd rows next_id]; [auto|].
  split; [|auto]. rewrite map_map. apply map_ext.
  intros r. destruct (by_id _ r); reflexivity.
Qed.

End AuthServiceMore.

Section TokensAndStore.
Context {codec : jwt.Codec}.
Variable cfg : config.JWTConfig.
Import entities repository services spec.

(** X11. [RefreshToken] on a refresh token within its lifetime answers
    from the store as it is now, not from the token: with no row of the
    token's user id it is [ErrUserNotFound], with an inactive row
    [ErrUserDeactivated], and otherwise a new access token and a new
    refresh token issued at that instant for the row found, so that a
    role changed since the old token was issued is the role of the new
    ones. *)
Theorem RefreshToken_reads_the_store
    (issued now : Z) (s : Store) (user : User) :
  jwt.codec_roundtrip ->
  live issued (config.RefreshExpiry cfg) now ->
  exists refresh,
    JWTService.GenerateRefreshToken cfg issued user = Ok refresh /\
    RefreshToken cfg now s {| service.rt_RefreshToken := refresh |} =
    match GetByID s (ID user) with
    | Err _ => Err ErrUserNotFound
    | Ok row =>
      if IsActive row then
        Ok {| service.AccessToken :=
                jwt.SignedString "HS256"
                  (JWTService.claims_map now (config.AccessExpiry cfg) row "access")
                  (config.SecretKey cfg);
              service.RefreshToken :=
                jwt.SignedString "HS256"
                  (JWTService.claims_map now (config.RefreshExpiry cfg) row "refresh")
                  (config.RefreshSecret cfg);
              service.User := row;
              service.ExpiresIn := 15 |}
      else Err ErrUserDeactivated
    end.
Proof.
  intros Hrt [Hle Hlive]. eexists. split; [reflexivity|].
  unfold RefreshToken, JWTService.ParseRefreshToken. cbn [service.rt_RefreshToken].
  rewrite parseToken_signed;
    [| exact Hrt | apply Validate_issued; assumption | apply claims_map_type].
  unfold claim_user_id. cbn [jwt.Claims].
  rewrite claims_map_user_id, N2Z.id.
  destruct (GetByID s (ID user)) as [row|]; [|reflexivity].
  destruct (IsActive row); reflexivity.
Qed.

(** X12. [ValidateToken] of the auth service on an access token within
    its lifetime returns the row the store has now for the token's user
    id when that row is active, [ErrUserNotFound] when there is none and
    [ErrUserDeactivated] when it is inactive. *)
Theorem ValidateToken_reads_the_store
    (issued now : Z) (s : Store) (user : User) :
  jwt.codec_roundtrip ->
  live issued (config.AccessExpiry cfg) now ->
  exists access,
    JWTService.GenerateAccessToken cfg issued user = Ok access /\
    ValidateToken cfg now s access =
    match GetByID s (ID user) with
    | Err _ => Err ErrUserNotFound
    | Ok row => if IsActive row then Ok row else Err ErrUserDeactivated
    end.
Proof.
  intros Hrt [Hle Hlive]. eexists. split; [reflexivity|].
  unfold ValidateToken, JWTService.ParseAccessToken.
  rewrite parseToken_signed;
    [| exact Hrt | apply Validate_issued; assumption | apply claims_map_type].
  unfold claim_user_id. cbn [jwt.Claims].
  rewrite claims_map_user_id, N2Z.id.
  destruct (GetByID s (ID user)) as [row|]; [|reflexivity].
  destruct (IsActive row); reflexivity.
Qed.

(** [ValidateToken] and [RefreshToken] of the auth service fail with
    [ErrInvalidToken], [ErrUserNotFound] or [ErrUserDeactivated] only:
    what the token library reports, the expiry included, is folded into
    [ErrInvalidToken]. *)
Theorem token_calls_fail_with_three_errors
    (now : Z) (s : Store) (tokenString : string) :
  match ValidateToken cfg now s tokenString with
  | Ok _ => True
  | Err err => err = ErrInvalidToken \/ err = ErrUserNotFound \/ err = ErrUserDeactivated
  end /\
  match RefreshToken cfg now s {| service.rt_RefreshToken := tokenString |} with
  | Ok _ => True
  | Err err => err = ErrInvalidToken \/ err = ErrUserNotFound \/ err = ErrUserDeactivated
  end.
Proof.
  unfold ValidateToken, RefreshToken. cbn [service.rt_RefreshToken]. split.
  - destruct (JWTService.ParseAccessToken _ _ _) as [token|]; [|auto].
    destruct (claim_user_id token); [|auto].
    destruct (GetByID _ _) as [row|]; [|auto].
    destruct (negb (IsActive row)); auto.
  - destruct (JWTService.ParseRefreshToken _ _ _) as [token|]; [|auto].
    destruct (claim_user_id token); [|auto].
    destruct (GetByID _ _) as [row|]; [|auto].
    destruct (negb (IsActive row)); cbn; auto.
Qed.

End TokensAndStore.

(** ** Registration, creation and login together *)

Section RegisterMore.
Context {codec : jwt.Codec} {bcrypt : entities.Bcrypt} {plans : repository.PlanCache}.
Variable cfg : config.JWTConfig.
Import entities repository services spec.

Lemma getValidRole_getDefaultRole (role : Role) : getValidRole role = getDefaultRole role.
Proof.
  unfold getValidRole, getDefaultRole, RoleAdmin, RoleManager, RoleUser, RoleGuest.
  destruct (String.eqb_spec role "") as [->|_]; reflexivity.
Qed.

(** What a successful [Register] has done. *)
Lemma Register_Ok (now : Z) (s s' : Store) (req : service.RegisterRequest) (user : User) :
  Register now s req = (Ok user, s') ->
  exists hash,
    (3 <= String.length (service.rr_Username req))%nat /\
    (8 <= String.length (service.rr_Password req))%nat /\
    GenerateFromPassword (service.rr_Password req) = Ok hash /\
    Create now s
      {| ID := 0; Username := service.rr_Username req; Password := hash;
         FirstName := service.rr_FirstName req; LastName := service.rr_LastName req;
         Role_ := getDefaultRole (service.rr_Role req); IsActive := true;
         LastLogin := None; CreatedAt := 0; UpdatedAt := 0 |} = (Ok user, s').
Proof.
  unfold Register. rewrite validateRegistrationRequest_spec.
  destruct (_ <? 3)%nat eqn:Eu; [discriminate|].
  destruct (_ <? 8)%nat eqn:Ep; [discriminate|].
  destruct (is_ok _); [discriminate|].
  unfold SetPassword.
  destruct (GenerateFromPassword _) as [hash|] eqn:Eh; [|discriminate].
  destruct (entities.Validate _); [discriminate|].
  intros Hcreate. exists hash.
  apply Nat.ltb_ge in Eu, Ep. auto.
Qed.

(** X13. Register, then log in. Once [Register] has returned a user for
    a username of at most 50 characters, a login with the same username
    and password, when the password verifies against the hash, succeeds
    on the resulting store and returns that user: same id, same username,
    same role. For a username of more than 50 characters, which the table
    holds cut, the same login is turned down with
    [ErrInvalidCredentials]. *)
Theorem Register_then_Login
    (now later : Z) (s s' : Store) (req : service.RegisterRequest) (user : User) :
  well_formed s ->
  Register now s req = (Ok user, s') ->
  CompareHashAndPassword (Password user) (service.rr_Password req) = true ->
  ((pg.char_length (service.rr_Username req) <= 50)%nat ->
   exists response s'',
     Login cfg later s'
       {| service.lr_Username := service.rr_Username req;
          service.lr_Password := service.rr_Password req |} = (Ok response, s'') /\
     ID (service.User response) = ID user /\
     Username (service.User response) = service.rr_Username req /\
     Role_ (service.User response) = Role_ user) /\
  ((50 < pg.char_length (service.rr_Username req))%nat ->
   Login cfg later s'
     {| service.lr_Username := service.rr_Username req;
        service.lr_Password := service.rr_Password req |}
   = (Err ErrInvalidCredentials, s')).
Proof.
  intros Hwf Hreg Hpw.
  destruct (Register_Ok _ _ _ _ _ Hreg) as (hash & Hu & Hp & Hhash & Hcreate).
  destruct (hash_shape _ _ Hhash) as [Hlen Hprint].
  assert (Hfit : pg.fits 255 hash = true) by (apply printable_fits; [exact Hprint|lia]).
  destruct (Create_lookup _ _ _ _ _ Hwf Hcreate) as (_ & _ & _ & _ & Hshort & Hlong & _).
  destruct (Create_stored _ _ _ _ _ Hcreate)
    as (_ & _ & _ & _ & _ & Hrole & Hactive & Hhashed & _).
  cbn [Username Password Role_ IsActive] in Hshort, Hlong, Hrole, Hactive, Hhashed.
  assert (Hfields : Password user = hash /\ ID (as_stored user) = ID user /\
                    Role_ user = getDefaultRole (service.rr_Role req)).
  { apply Create_Ok in Hcreate as (values & _ & _ & _ & _ & -> & _). auto. }
  destruct Hfields as (Hpassword & Hid & Hrequested).
  assert (Hname : service.rr_Username req <> "")
    by (destruct (service.rr_Username req); [simpl in Hu; lia|discriminate]).
  assert (Hpass : service.rr_Password req <> "")
    by (destruct (service.rr_Password req); [simpl in Hp; lia|discriminate]).
  split.
  - intros Hfifty. destruct (Hshort Hfifty) as [Hsame Hget].
    destruct (Login_ok cfg later s' (service.rr_Username req) (service.rr_Password req)
                (as_stored user) Hname Hpass Hget Hactive)
      as (access & refresh & s'' & row & _ & _ & Hlogin & _).
    + unfold VerifyPassword. rewrite (Hhashed Hfit), <- Hpassword. exact Hpw.
    + eexists _, s''. split; [exact Hlogin|].
      cbn [service.User ID Username Role_ set_LastLogin].
      split; [exact Hid|]. split; [exact Hsame|].
      rewrite Hrole. symmetry. exact Hrequested.
  - intros Hfifty. destruct (Hlong Hfifty) as [_ Hget].
    unfold Login, getUserByUsername. cbn [service.lr_Username service.lr_Password].
    apply String.eqb_neq in Hname, Hpass. rewrite Hname, Hpass, Hget. reflexivity.
Qed.

(** X14. [CreateUser] with the active flag on is [Register]: the two
    validate alike, normalise the role alike ([getValidRole] and
    [getDefaultRole] agree on every role) and store the same row. *)
Theorem CreateUser_active_is_Register
    (now : Z) (s : Store) (username password firstName lastName : string) (role : Role) :
  CreateUser now s
    {| service.cu_Username := username; service.cu_Password := password;
       service.cu_FirstName := firstName; service.cu_LastName := lastName;
       service.cu_Role := role; service.cu_IsActive := true |}
  = Register now s
      {| service.rr_Username := username; service.rr_Password := password;
         service.rr_FirstName := firstName; service.rr_LastName := lastName;
         service.rr_Role := role |}.
Proof.
  unfold CreateUser, Register, validateCreateUserRequest, validateRegistrationRequest.
  cbn [service.cu_Username service.cu_Password service.cu_FirstName service.cu_LastName
       service.cu_Role service.cu_IsActive service.rr_Username service.rr_Password
       service.rr_FirstName service.rr_LastName service.rr_Role].
  rewrite getValidRole_getDefaultRole. reflexivity.
Qed.

End RegisterMore.

(** ** The user service *)

Section UserServiceStore.
Context {plans : repository.PlanCache}.
Import entities repository services spec.

Lemma find_map_same {A} (p : A -> bool) (f : A -> A) (l : list A) :
  (forall x, In x l -> p (f x) = p x) ->
  find p (map f l) = option_map f (find p l).
Proof.
  induction l as [|x l IH]; cbn [map find option_map]; intros Hp; [reflexivity|].
  rewrite (Hp x (or_introl eq_refl)).
  destruct (p x); [reflexivity|]. apply IH. intros y Hy. apply Hp. right. exact Hy.
Qed.

Lemma find_filter_same {A} (p q : A -> bool) (l : list A) :
  (forall x, p x = true -> q x = true) ->
  find p (List.filter q l) = find p l.
Proof.
  intros Hpq. induction l as [|x l IH]; cbn [List.filter find]; [reflexivity|].
  destruct (p x) eqn:Ep.
  - rewrite (Hpq x Ep). cbn [find]. rewrite Ep. reflexivity.
  - destruct (q x); cbn [find]; rewrite ?Ep; exact IH.
Qed.

Lemma NoDup_map_In_eq {A B} (f : A -> B) (l : list A) (a b : A) :
  List.NoDup (map f l) -> In a l -> In b l -> f a = f b -> a = b.
Proof.
  induction l as [|x l IH]; cbn [map]; intros Hnd Ha Hb Hf; [destruct Ha|].
  apply List.NoDup_cons_iff in Hnd as [Hx Hnd].
  destruct Ha as [<-|Ha], Hb as [<-|Hb]; auto.
  - exfalso. apply Hx. rewrite Hf. apply in_map. exact Hb.
  - exfalso. apply Hx. rewrite <- Hf. apply in_map. exact Ha.
Qed.

(** In a well-formed table, an update of a stored row that keeps its id
    and username, has a valid role and texts within the columns is
    accepted, and the row gets these values. *)
Lemma Update_own_row (now : Z) (s : Store) (stored user : User) :
  well_formed s ->
  In stored (rows s) ->
  ID user = ID stored ->
  Username user = Username stored ->
  role_check (Role_ user) = true ->
  within_columns user = true ->
  Update now s user =
  (None, {| rows := map (updated_row now user) (rows s); next_id := next_id s |}).
Proof.
  intros (Hids & Hnames & _ & _) Hin Hid Hname Hrole Hwithin.
  destruct (stored_row_assigned user Hwithin Hrole) as [Hvalid Hassigned].
  rewrite (Update_within now s user Hvalid Hassigned).
  assert (Hex : existsb (by_id (ID user)) (rows s) = true).
  { apply existsb_exists. exists stored. split; [exact Hin|].
    unfold by_id. rewrite Hid. apply N.eqb_refl. }
  rewrite Hex. cbn [negb].
  assert (Hfree : existsb (fun r => negb (by_id (ID user) r) && by_username (Username user) r)
                    (rows s) = false).
  { match goal with |- ?x = false => destruct x eqn:E end; [|reflexivity].
    apply existsb_exists in E as (r & Hr & Hc). apply andb_prop in Hc as [Hc1 Hc2].
    unfold by_username in Hc2. apply String.eqb_eq in Hc2.
    assert (r = stored) by (eapply NoDup_map_In_eq; eauto; congruence).
    subst r. unfold by_id in Hc1. rewrite Hid, N.eqb_refl in Hc1. discriminate. }
  rewrite Hfree, Hrole. reflexivity.
Qed.

Lemma updated_rows_lookup (now : Z) (s : Store) (user : User) (id : N) :
  GetByID {| rows := map (updated_row now user) (rows s); next_id := next_id s |} id =
  match GetByID s id with
  | Ok r => Ok (updated_row now user r)
  | Err err => Err err
  end.
Proof.
  unfold GetByID. cbn [rows]. rewrite find_map_same.
  - destruct (find (by_id id) (rows s)); reflexivity.
  - intros r _. unfold by_id. rewrite updated_row_ID. reflexivity.
Qed.

Lemma toggle_effect (now : Z) (s : Store) (id : N) (isActive : bool) :
  well_formed s ->
  match GetByID s id with
  | Err _ => toggleUserActiveStatus now s id isActive = (Some ErrUserNotFound, s)
  | Ok user =>
    exists s',
      toggleUserActiveStatus now s id isActive = (None, s') /\
      GetByID s' id = Ok (toggled now isActive user) /\
      (forall id', id' <> id -> GetByID s' id' = GetByID s id')
  end.
Proof.
  intros Hwf. unfold toggleUserActiveStatus.
  destruct (GetByID s id) as [user|] eqn:Hget; [|reflexivity].
  pose proof (GetByID_found _ _ _ Hget) as [Hin Hid].
  pose proof Hwf as (Hids & Hnames & Hseq & Hroles & Hcols).
  assert (Hrole : role_check (Role_ user) = true).
  { rewrite List.Forall_forall in Hroles. apply Hroles, Hin. }
  assert (Hwithin : within_columns user = true).
  { rewrite List.Forall_forall in Hcols. apply Hcols, Hin. }
  rewrite (Update_own_row now s user (set_IsActive user isActive));
    [| exact Hwf | exact Hin | reflexivity | reflexivity | exact Hrole | exact Hwithin].
  eexists. split; [reflexivity|]. split.
  - rewrite updated_rows_lookup, Hget. unfold updated_row, by_id.
    cbn [ID set_IsActive]. rewrite N.eqb_refl. reflexivity.
  - intros id' Hne. rewrite updated_rows_lookup.
    destruct (GetByID s id') as [r|] eqn:Hget'; [|reflexivity].
    pose proof (GetByID_found _ _ _ Hget') as [_ Hid'].
    rewrite updated_row_miss; [reflexivity|].
    unfold by_id. cbn [ID set_IsActive]. apply N.eqb_neq. congruence.
Qed.

(** X15. [ActivateUser] and [DeactivateUser] on a well-formed table: for
    an id no row has they answer [ErrUserNotFound] and change nothing;
    otherwise they succeed, the row of that id gets the flag and a new
    update stamp and keeps every other column, and the rows of all other
    ids are as before. *)
Theorem toggleUserActiveStatus_changes_one_flag
    (now : Z) (s : Store) (id : N) (isActive : bool) :
  well_formed s ->
  match GetByID s id with
  | Err _ => toggleUserActiveStatus now s id isActive = (Some ErrUserNotFound, s)
  | Ok user =>
    exists s',
      toggleUserActiveStatus now s id isActive = (None, s') /\
      GetByID s' id = Ok (toggled now isActive user) /\
      (forall id', id' <> id -> GetByID s' id' = GetByID s id')
  end.
Proof. apply toggle_effect. Qed.

Lemma DeleteUser_effect (s : Store) (id : N) :
  match GetByID s id with
  | Err _ => DeleteUser s id = (Some ErrUserNotFound, s)
  | Ok _ =>
    exists s',
      DeleteUser s id = (None, s') /\
      GetByID s' id = Err ErrUserNotFound /\
      (forall id', id' <> id -> GetByID s' id' = GetByID s id') /\
      (forall r, In r (rows s') <-> In r (rows s) /\ ID r <> id)
  end.
Proof.
  unfold DeleteUser. destruct (GetByID s id) as [user|] eqn:Hget; [|reflexivity].
  pose proof (GetByID_found _ _ _ Hget) as [Hin Hid].
  unfold Delete.
  assert (Hex : existsb (by_id id) (rows s) = true).
  { apply existsb_exists. exists user. split; [exact Hin|]. apply N.eqb_eq, Hid. }
  rewrite Hex. cbn [negb]. eexists. split; [reflexivity|].
  unfold GetByID. cbn [rows]. split; [|split].
  - destruct (find (by_id id) (List.filter _ (rows s))) as [r|] eqn:E; [|reflexivity].
    apply find_some in E as [Hr Hrid]. apply filter_In in Hr as [_ Hr].
    rewrite Hrid in Hr. discriminate.
  - intros id' Hne. rewrite find_filter_same; [reflexivity|].
    intros r Hr. unfold by_id in *. apply N.eqb_eq in Hr.
    apply negb_true_iff, N.eqb_neq. congruence.
  - intros r. rewrite filter_In. unfold by_id.
    rewrite negb_true_iff, N.eqb_neq. reflexivity.
Qed.

(** X16. [DeleteUser] answers [ErrUserNotFound] and changes nothing for an
    id no row has; otherwise it succeeds, a lookup of that id fails
    afterwards, the rows left are exactly the rows of the other ids, and
    lookups of those ids answer as before. *)
Theorem DeleteUser_removes_one_id (s : Store) (id : N) :
  match GetByID s id with
  | Err _ => DeleteUser s id = (Some ErrUserNotFound, s)
  | Ok _ =>
    exists s',
      DeleteUser s id = (None, s') /\
      GetByID s' id = Err ErrUserNotFound /\
      (forall id', id' <> id -> GetByID s' id' = GetByID s id') /\
      (forall r, In r (rows s') <-> In r (rows s) /\ ID r <> id)
  end.
Proof. apply DeleteUser_effect. Qed.

End UserServiceStore.

Section UserServicePasswords.
Context {bcrypt : entities.Bcrypt} {plans : repository.PlanCache}.
Import entities repository services spec.

Lemma ChangePassword_effect
    (now : Z) (s : Store) (id : N) (user : User) (current new : string) :
  well_formed s ->
  GetByID s id = Ok user ->
  let req := {| service.cp_CurrentPassword := current; service.cp_NewPassword := new |} in
  (VerifyPassword user current = false ->
     ChangePassword now s id req = (Some ErrInvalidCredentials, s)) /\
  (VerifyPassword user current = true -> (String.length new < 8)%nat ->
     ChangePassword now s id req = (Some ErrPasswordTooShort, s)) /\
  (VerifyPassword user current = true -> (8 <= String.length new)%nat ->
   forall hash, GenerateFromPassword new = Ok hash ->
   exists s',
     ChangePassword now s id req = (None, s') /\
     GetByID s' id = Ok (rehashed now hash user) /\
     (forall id', id' <> id -> GetByID s' id' = GetByID s id')).
Proof.
  intros Hwf Hget req. subst req. unfold ChangePassword.
  cbn [service.cp_CurrentPassword service.cp_NewPassword]. rewrite Hget.
  pose proof (GetByID_found _ _ _ Hget) as [Hin Hid].
  split; [|split].
  - intros ->. reflexivity.
  - intros -> Hshort. apply Nat.ltb_lt in Hshort. rewrite Hshort. reflexivity.
  - intros -> Hlong hash Hhash. apply Nat.ltb_ge in Hlong. rewrite Hlong.
    cbn [negb]. unfold SetPassword. rewrite Hhash.
    assert (Hrole : role_check (Role_ user) = true).
    { destruct Hwf as (_ & _ & _ & Hroles & _).
      rewrite List.Forall_forall in Hroles. apply Hroles, Hin. }
    assert (Hwithin : within_columns (set_Password user hash) = true).
    { destruct Hwf as (_ & _ & _ & _ & Hcols).
      rewrite List.Forall_forall in Hcols. specialize (Hcols user Hin).
      unfold within_columns in *. rewrite !andb_true_iff in *.
      destruct Hcols as (((Hu & _) & Hf) & Hl).
      destruct (hash_shape new hash Hhash) as [Hlen Hprint].
      cbn [set_Password Username Password FirstName LastName].
      repeat split; try assumption.
      apply printable_fits; [exact Hprint|lia]. }
    rewrite (Update_own_row now s user (set_Password user hash));
      [| exact Hwf | exact Hin | reflexivity | reflexivity | exact Hrole | exact Hwithin].
    eexists. split; [reflexivity|]. split.
    + rewrite updated_rows_lookup, Hget. unfold updated_row, by_id.
      cbn [ID set_Password]. rewrite N.eqb_refl. reflexivity.
    + intros id' Hne. rewrite updated_rows_lookup.
      destruct (GetByID s id') as [r|] eqn:Hget'; [|reflexivity].
      pose proof (GetByID_found _ _ _ Hget') as [_ Hid'].
      rewrite updated_row_miss; [reflexivity|].
      unfold by_id. cbn [ID set_Password]. apply N.eqb_neq. congruence.
Qed.

(** X17. [ChangePassword] for a stored user of a well-formed table checks
    the current password first: if it does not verify, the answer is
    [ErrInvalidCredentials] however short the new one is; if it verifies
    and the new password is shorter than 8, [ErrPasswordTooShort]; in both
    cases nothing is written. Otherwise, with the hash of the new
    password, the row of that user gets the hash and a new update stamp,
    and no other row changes. *)
Theorem ChangePassword_checks_then_rehashes
    (now : Z) (s : Store) (id : N) (user : User) (current new : string) :
  well_formed s ->
  GetByID s id = Ok user ->
  let req := {| service.cp_CurrentPassword := current; service.cp_NewPassword := new |} in
  (VerifyPassword user current = false ->
     ChangePassword now s id req = (Some ErrInvalidCredentials, s)) /\
  (VerifyPassword user current = true -> (String.length new < 8)%nat ->
     ChangePassword now s id req = (Some ErrPasswordTooShort, s)) /\
  (VerifyPassword user current = true -> (8 <= String.length new)%nat ->
   forall hash, GenerateFromPassword new = Ok hash ->
   exists s',
     ChangePassword now s id req = (None, s') /\
     GetByID s' id = Ok (rehashed now hash user) /\
     (forall id', id' <> id -> GetByID s' id' = GetByID s id')).
Proof. apply ChangePassword_effect. Qed.

End UserServicePasswords.

Section UserServiceUpdate.
Context {plans : repository.PlanCache}.
Import entities repository services spec.

Lemma Validate_never_already_exists (user : User) (err : error) :
  entities.Validate user = Some err -> err <> ErrUserAlreadyExists.
Proof.
  unfold entities.Validate.
  destruct (Username user =? ""); [intros [= <-]; discriminate|].
  destruct (_ <? 8)%nat; [intros [= <-]; discriminate|discriminate].
Qed.

Lemma Update_never_already_exists (now : Z) (s s' : Store) (user : User) (err : error) :
  Update now s user = (Some err, s') -> err <> ErrUserAlreadyExists.
Proof.
  intros E. apply Update_Some in E as [_ [-> | [text ->]]]; discriminate.
Qed.

(** X18. [UpdateUser] refuses a new username that a row of another id
    carries, with [ErrUserAlreadyExists] and nothing written, and it
    refuses a new username shorter than 3 with [ErrInvalidUsername]; the
    username the user already has is not a conflict. *)
Theorem UpdateUser_username_rules
    (now : Z) (s : Store) (id : N) (user : User) (req : service.UpdateUserRequest)
    (username : string) :
  GetByID s id = Ok user ->
  service.uu_Username req = Some username ->
  ((String.length username < 3)%nat ->
     UpdateUser now s id req = (Err ErrInvalidUsername, s)) /\
  ((3 <= String.length username)%nat ->
   forall other, GetByUsername s username = Ok other -> ID other <> ID user ->
     UpdateUser now s id req = (Err ErrUserAlreadyExists, s)) /\
  ((3 <= String.length username)%nat ->
   GetByUsername s username = Ok user ->
     UpdateUser now s id req <> (Err ErrUserAlreadyExists, s)).
Proof.
  intros Hget Hname. unfold UpdateUser, validateUpdateUserRequest.
  rewrite Hget, Hname. split; [|split].
  - intros Hshort. apply Nat.ltb_lt in Hshort. rewrite Hshort, orb_true_r. reflexivity.
  - intros Hlong other Hother Hne. apply Nat.ltb_ge in Hlong. rewrite Hlong.
    assert (Hnonempty : (username =? "") = false).
    { destruct username; [simpl in Hlong; discriminate|reflexivity]. }
    rewrite Hnonempty, Hother. cbn [orb].
    apply N.eqb_neq in Hne. rewrite Hne. reflexivity.
  - intros Hlong Hself. apply Nat.ltb_ge in Hlong. rewrite Hlong.
    assert (Hnonempty : (username =? "") = false).
    { destruct username; [simpl in Hlong; discriminate|reflexivity]. }
    rewrite Hnonempty, Hself, N.eqb_refl. cbn [orb negb].
    destruct (entities.Validate _) as [err|] eqn:Ev.
    + apply Validate_never_already_exists in Ev. congruence.
    + destruct (Update now s _) as [[err|] s'] eqn:Eu; [|discriminate].
      apply Update_never_already_exists in Eu. congruence.
Qed.

End UserServiceUpdate.

Section ServicesKeepKeys.
Context {codec : jwt.Codec} {bcrypt : entities.Bcrypt} {plans : repository.PlanCache}.
Variable cfg : config.JWTConfig.
Import entities repository services spec.

Lemma services_well_formed
    (now : Z) (s : Store) (id : N) (isActive : bool)
    (login : service.LoginRequest) (register : service.RegisterRequest)
    (create : service.CreateUserRequest) (update : service.UpdateUserRequest)
    (change : service.ChangePasswordRequest) :
  well_formed s ->
  well_formed (snd (Login cfg now s login)) /\
  well_formed (snd (Register now s register)) /\
  well_formed (snd (CreateUser now s create)) /\
  well_formed (snd (UpdateUser now s id update)) /\
  well_formed (snd (DeleteUser s id)) /\
  well_formed (snd (ChangePassword now s id change)) /\
  well_formed (snd (toggleUserActiveStatus now s id isActive)).
Proof.
  intros Hwf.
  assert (Hcreate : forall u, well_formed (snd (Create now s u)))
    by (intros u; apply (repository_ops_well_formed now s u 0 Hwf)).
  assert (Hupdate : forall u, well_formed (snd (Update now s u)))
    by (intros u; apply (repository_ops_well_formed now s u 0 Hwf)).
  assert (Hdelete : forall i, well_formed (snd (Delete s i)))
    by (intros i; apply (repository_ops_well_formed now s scenario.dave i Hwf)).
  assert (Hlast : forall i, well_formed (snd (repository.UpdateLastLogin now s i)))
    by (intros i; apply (repository_ops_well_formed now s scenario.dave i Hwf)).
  refine (conj _ (conj _ (conj _ (conj _ (conj _ (conj _ _)))))).
  - unfold Login.
    destruct (_ || _); [exact Hwf|].
    destruct (getUserByUsername _ _) as [user|]; [|exact Hwf].
    destruct (negb (IsActive user)); [exact Hwf|].
    destruct (negb (VerifyPassword _ _)); [exact Hwf|].
    cbn [JWTService.GenerateAccessToken JWTService.GenerateRefreshToken snd]. apply Hlast.
  - unfold Register.
    destruct (validateRegistrationRequest _); [exact Hwf|].
    destruct (is_ok _); [exact Hwf|].
    destruct (SetPassword _ _) as [user|]; [|exact Hwf].
    destruct (entities.Validate user); [exact Hwf|]. apply Hcreate.
  - unfold CreateUser.
    destruct (validateCreateUserRequest _); [exact Hwf|].
    destruct (is_ok _); [exact Hwf|].
    destruct (SetPassword _ _) as [user|]; [|exact Hwf].
    destruct (entities.Validate user); [exact Hwf|]. apply Hcreate.
  - unfold UpdateUser.
    destruct (GetByID s id) as [user|]; [|exact Hwf].
    destruct (validateUpdateUserRequest _); [exact Hwf|].
    match goal with |- context [match ?r with Ok _ => _ | Err _ => _ end] =>
      destruct r as [renamed|] end; [|exact Hwf].
    destruct (entities.Validate _); [exact Hwf|].
    specialize (Hupdate (apply_update renamed update)).
    destruct (Update now s _) as [[err|] s']; exact Hupdate.
  - unfold DeleteUser. destruct (GetByID s id); [apply Hdelete|exact Hwf].
  - unfold ChangePassword.
    destruct (GetByID s id) as [user|]; [|exact Hwf].
    destruct (negb _); [exact Hwf|].
    destruct (_ <? 8)%nat; [exact Hwf|].
    destruct (SetPassword _ _) as [user'|]; [apply Hupdate|exact Hwf].
  - unfold toggleUserActiveStatus.
    destruct (GetByID s id) as [user|]; [apply Hupdate|exact Hwf].
Qed.

(** X19. Every operation of the auth service and of the user service
    that writes to the store, whether it succeeds or fails, leaves a
    well-formed table well formed: no two rows with one id or one
    username, every id below the sequence, every role one of the four,
    every text within the length of its column. *)
Theorem services_keep_the_store_well_formed
    (now : Z) (s : Store) (id : N) (isActive : bool)
    (login : service.LoginRequest) (register : service.RegisterRequest)
    (create : service.CreateUserRequest) (update : service.UpdateUserRequest)
    (change : service.ChangePasswordRequest) :
  well_formed s ->
  well_formed (snd (Login cfg now s login)) /\
  well_formed (snd (Register now s register)) /\
  well_formed (snd (CreateUser now s create)) /\
  well_formed (snd (UpdateUser now s id update)) /\
  well_formed (snd (DeleteUser s id)) /\
  well_formed (snd (ChangePassword now s id change)) /\
  well_formed (snd (toggleUserActiveStatus now s id isActive)).
Proof. apply services_well_formed. Qed.

End ServicesKeepKeys.

(** ** Pages and listings *)

Section Pages.
Import entities repository services spec.

Lemma wrap_int64_small (z : Z) :
  (- 2 ^ 63 <= z < 2 ^ 63)%Z -> time.wrap_int64 z = z.
Proof.
  intros Hz. unfold time.wrap_int64.
  rewrite Z.mod_small by lia. lia.
Qed.

Lemma paginateUsers_in_range (users : list User) (limit offset : Z) :
  (0 <= offset)%Z -> (0 <= limit)%Z -> (offset + limit < 2 ^ 63)%Z ->
  paginateUsers users limit offset
  = Returns (firstn (Z.to_nat limit) (skipn (Z.to_nat offset) users)).
Proof.
  intros Hoff Hlim Hsum. unfold paginateUsers, int_add.
  rewrite wrap_int64_small by lia.
  destruct (Z.geb_spec offset (Z.of_nat (List.length users))) as [Hge|Hlt].
  - rewrite skipn_all2 by lia. rewrite firstn_nil. reflexivity.
  - destruct (Z.gtb_spec (offset + limit) (Z.of_nat (List.length users))) as [Hbig|Hfit].
    + assert (H1 : (0 <=? offset)%Z = true) by (apply Z.leb_le; lia).
      assert (H2 : (offset <=? Z.of_nat (List.length users))%Z = true)
        by (apply Z.leb_le; lia).
      rewrite H1, H2. cbn [andb]. f_equal.
      rewrite !firstn_all2; [reflexivity|rewrite length_skipn; lia ..].
    + assert (H1 : (0 <=? offset)%Z = true) by (apply Z.leb_le; lia).
      assert (H2 : (offset <=? offset + limit)%Z = true) by (apply Z.leb_le; lia).
      rewrite H1, H2. cbn [andb]. do 2 f_equal. lia.
Qed.

(** X20. For an offset and a limit that are not negative and whose sum
    stays within the 64-bit integers, [paginateUsers]
    returns the [limit] users that follow the first [offset] ones, fewer
    when the list ends before: the page has at most [limit] users, and
    the users from [offset] on are this page followed by the users from
    [offset + limit] on. A negative offset makes the slice expression
    panic. *)
Theorem paginateUsers_pages (users : list User) (limit offset : Z) :
  ((0 <= offset)%Z -> (0 <= limit)%Z -> (offset + limit < 2 ^ 63)%Z ->
   exists page,
     paginateUsers users limit offset = Returns page /\
     page = firstn (Z.to_nat limit) (skipn (Z.to_nat offset) users) /\
     (Z.of_nat (List.length page) <= limit)%Z /\
     skipn (Z.to_nat offset) users = (page ++ skipn (Z.to_nat (offset + limit)) users)%list) /\
  ((- 2 ^ 63 <= offset < 0)%Z -> paginateUsers users limit offset = Panics).
Proof.
  split.
  - intros Hoff Hlim Hsum. eexists. split; [apply paginateUsers_in_range; assumption|].
    split; [reflexivity|]. split.
    + rewrite length_firstn. lia.
    + rewrite Z2Nat.inj_add by lia. rewrite Nat.add_comm, <- skipn_skipn.
      symmetry. apply firstn_skipn.
  - intros Hneg. unfold paginateUsers.
    destruct (Z.geb_spec offset (Z.of_nat (List.length users))) as [Hge|_]; [lia|].
    assert (H1 : (0 <=? offset)%Z = false) by (apply Z.leb_gt; lia).
    rewrite H1. reflexivity.
Qed.

End Pages.

Section ListingForManager.
Context {order : repository.RowOrder} {text : gotext.Text}.
Import entities repository services spec.

Lemma In_firstn_skipn (A : Type) (x : A) (n m : nat) (l : list A) :
  In x (firstn n (skipn m l)) -> In x l.
Proof.
  intros Hin. rewrite <- (firstn_skipn m l). apply in_or_app. right.
  rewrite <- (firstn_skipn n (skipn m l)). apply in_or_app. left. exact Hin.
Qed.

Lemma wrap_int64_le (z : Z) : (0 <= z)%Z -> (time.wrap_int64 z <= z)%Z.
Proof.
  intros Hz. unfold time.wrap_int64.
  assert (H := Z.mod_le (z + 2 ^ 63) (2 ^ 64) ltac:(lia) ltac:(lia)). lia.
Qed.

Lemma paginateUsers_page (users page : list User) (limit offset : Z) :
  paginateUsers users limit offset = Returns page ->
  (0 <= limit)%Z ->
  (forall u, In u page -> In u users) /\
  (Z.of_nat (List.length page) <= limit)%Z /\
  (List.length page <= List.length users)%nat.
Proof.
  unfold paginateUsers. intros Hpage Hlimit.
  destruct (offset >=? Z.of_nat (List.length users))%Z.
  - injection Hpage as <-. split; [intros u []|simpl; lia].
  - destruct (0 <=? offset)%Z eqn:Hoff; [|discriminate].
    match type of Hpage with (if true && ?c then _ else _) = _ => destruct c eqn:Hend end;
      [|discriminate].
    cbn [andb] in Hpage. injection Hpage as <-. split; [|split].
    + intros u. apply In_firstn_skipn.
    + rewrite length_firstn, length_skipn.
      apply Z.leb_le in Hoff. apply Z.leb_le in Hend.
      assert (Hwrap := wrap_int64_le (offset + limit) ltac:(lia)).
      unfold int_add in *.
      destruct (Z.gtb_spec (time.wrap_int64 (offset + limit)) (Z.of_nat (List.length users)));
        lia.
    + rewrite length_firstn, length_skipn. lia.
Qed.

Lemma paginateUsers_returns (users : list User) (limit offset : Z) :
  (0 <= offset)%Z -> (0 <= limit)%Z ->
  (Z.of_nat (List.length users) + limit < 2 ^ 63)%Z ->
  exists page, paginateUsers users limit offset = Returns page.
Proof.
  intros Hoff Hlim Hlen. unfold paginateUsers.
  destruct (Z.geb_spec offset (Z.of_nat (List.length users))) as [Hge|Hlt]; [eauto|].
  unfold int_add. rewrite wrap_int64_small by lia.
  assert (H1 : (0 <=? offset)%Z = true) by (apply Z.leb_le; lia).
  rewrite H1. cbn [andb].
  destruct (Z.gtb_spec (offset + limit) (Z.of_nat (List.length users))).
  - assert (H2 : (offset <=? Z.of_nat (List.length users))%Z = true)
      by (apply Z.leb_le; lia).
    rewrite H2. eauto.
  - assert (H2 : (offset <=? offset + limit)%Z = true) by (apply Z.leb_le; lia).
    rewrite H2. eauto.
Qed.

Lemma filterUsersByText_sub (users : list User) (search : string) (u : User) :
  In u (filterUsersByText users search) -> In u users.
Proof.
  unfold filterUsersByText. destruct (search =? ""); [tauto|].
  intros Hin. apply filter_In in Hin. tauto.
Qed.

Lemma filterUsersByText_length (users : list User) (search : string) :
  (List.length (filterUsersByText users search) <= List.length users)%nat.
Proof.
  unfold filterUsersByText. destruct (search =? ""); [lia|]. apply filter_length_le.
Qed.

Lemma manager_query (s : Store) (role : Role) :
  order_keeps_rows ->
  (role =? "") || (role =? RoleUser) || (role =? RoleGuest) = true ->
  exists users,
    (if role =? "" then GetByRoles s [RoleUser; RoleGuest] else GetByRole s role) = Ok users /\
    Permutation users (manager_rows s role).
Proof.
  intros Horder Hrole. unfold manager_rows.
  destruct (role =? "") eqn:Hempty.
  - eexists. split; [reflexivity|]. cbn [existsb].
    etransitivity; [apply Horder|].
    erewrite filter_ext; [reflexivity|].
    intros u. cbn. rewrite orb_false_r. reflexivity.
  - eexists. split; [reflexivity|]. apply Horder.
Qed.

Lemma ListUsersForManager_spec (s : Store) (req : service.ListUsersRequest) :
  order_keeps_rows ->
  (Z.of_nat (List.length (rows s)) < 2 ^ 62)%Z ->
  exists resp,
    ListUsersForManager s req = Returns (Ok resp) /\
    (1 <= service.Limit resp <= 100)%Z /\
    (0 <= service.Offset resp)%Z /\
    (Z.of_nat (List.length (service.Users resp)) <= service.Limit resp)%Z /\
    (Z.of_nat (List.length (service.Users resp)) <= service.Total resp
       <= Z.of_nat (List.length (rows s)))%Z /\
    (forall u, In u (service.Users resp) ->
       In u (rows s) /\
       (Role_ u = RoleUser \/ Role_ u = RoleGuest) /\
       (service.lu_Role req <> "" -> Role_ u = service.lu_Role req) /\
       (forall isActive, service.lu_IsActive req = Some isActive -> IsActive u = isActive)) /\
    (service.lu_Role req <> "" -> service.lu_Role req <> RoleUser ->
     service.lu_Role req <> RoleGuest ->
     service.Users resp = [] /\ service.Total resp = 0%Z).
Proof.
  intros Horder Hsize. unfold ListUsersForManager.
  set (limit := if (service.lu_Limit req <=? 0)%Z || (service.lu_Limit req >? 100)%Z
                then 20%Z else service.lu_Limit req).
  set (offset := if (service.lu_Offset req <? 0)%Z then 0%Z else service.lu_Offset req).
  assert (Hlimit : (1 <= limit <= 100)%Z).
  { subst limit. destruct (Z.leb_spec (service.lu_Limit req) 0);
      destruct (Z.gtb_spec (service.lu_Limit req) 100); cbn [orb]; lia. }
  assert (Hoffset : (0 <= offset)%Z).
  { subst offset. destruct (Z.ltb_spec (service.lu_Offset req) 0); lia. }
  destruct (String.eqb_spec (service.lu_Role req) "") as [Hempty|Hempty];
    [|destruct (String.eqb_spec (service.lu_Role req) RoleUser) as [Huser|Huser];
      [|destruct (String.eqb_spec (service.lu_Role req) RoleGuest) as [Hguest|Hguest]]];
    cbn [negb andb].
  4: { eexists. split; [reflexivity|]. cbn.
       repeat split; try lia; intros; contradiction. }
  all: destruct (manager_query s (service.lu_Role req) Horder) as (users & Hq & Hperm);
    [rewrite ?Hempty, ?Huser, ?Hguest; reflexivity|].
  all: assert (Hrows : forall u, In u users ->
         In u (rows s) /\ (Role_ u = RoleUser \/ Role_ u = RoleGuest) /\
         (service.lu_Role req <> "" -> Role_ u = service.lu_Role req)).
  1, 3, 5: intros u Hin; apply (Permutation_in _ Hperm) in Hin;
      unfold manager_rows in Hin; apply filter_In in Hin; destruct Hin as [Hin Hrole];
      split; [exact Hin|].
  1: { rewrite Hempty in Hrole. cbn in Hrole. apply orb_true_iff in Hrole.
       rewrite !String.eqb_eq in Hrole. split; [exact Hrole|congruence]. }
  1: { rewrite Huser in Hrole. cbn in Hrole. apply String.eqb_eq in Hrole.
       split; [left; exact Hrole|intros _; rewrite Huser; exact Hrole]. }
  1: { destruct (service.lu_Role req =? "") eqn:E; [apply String.eqb_eq in E; contradiction|].
       apply String.eqb_eq in Hrole.
       split; [right; congruence|intros _; exact Hrole]. }
  all: assert (Hlen : (List.length users <= List.length (rows s))%nat)
    by (rewrite (Permutation_length Hperm); apply filter_length_le).
  all: match goal with
       | |- context [match ?q with Ok _ => _ | Err _ => _ end] =>
         replace q with (@Ok error _ users)
       end.
  2, 4, 6: rewrite <- Hq; try rewrite Hempty; try reflexivity;
    destruct (service.lu_Role req =? "") eqn:E; try reflexivity;
    apply String.eqb_eq in E; contradiction.
  all: set (found := if negb (service.lu_Search req =? "")
                     then filterUsersByText users (service.lu_Search req) else users).
  all: assert (Hfound : (forall u, In u found -> In u users) /\
                        (List.length found <= List.length users)%nat)
    by (subst found; destruct (negb (service.lu_Search req =? ""));
        [split; [intros u; apply filterUsersByText_sub|apply filterUsersByText_length]
        |split; [tauto|lia]]).
  all: destruct Hfound as [Hsub Hshort].
  all: destruct (paginateUsers_returns found limit offset Hoffset ltac:(lia) ltac:(lia))
    as (page & Hpage).
  all: rewrite Hpage.
  all: destruct (paginateUsers_page found page limit offset Hpage ltac:(lia))
    as (Hin & Hcount & Hpagelen).
  all: set (shown := match service.lu_IsActive req with
                     | Some isActive => filterUsersByActiveStatus page isActive
                     | None => page
                     end).
  all: assert (Hshown : (forall u, In u shown -> In u page /\
                           forall isActive, service.lu_IsActive req = Some isActive ->
                                            IsActive u = isActive) /\
                        (List.length shown <= List.length page)%nat)
    by (subst shown; destruct (service.lu_IsActive req) as [isActive|];
        [split;
         [intros u Hu; apply filter_In in Hu; destruct Hu as [Hu Hflag]; split; [exact Hu|];
          intros b [= <-]; apply Bool.eqb_prop; exact Hflag
         |apply filter_length_le]
        |split; [intros u Hu; split; [exact Hu|discriminate]|lia]]).
  all: destruct Hshown as [Hshown Hshownlen].
  all: eexists; split; [reflexivity|]; cbn [service.Users service.Total service.Limit
                                            service.Offset].
  all: split; [exact Hlimit|]; split; [exact Hoffset|]; split; [fold shown; lia|];
    split; [fold shown found; lia|]; split.
  all: try (intros u Hu; fold shown in Hu; destruct (Hshown u Hu) as [Hu' Hflag];
            destruct (Hrows u (Hsub u (Hin u Hu'))) as (H1 & H2 & H3);
            repeat split; assumption).
  all: intros; contradiction.
Qed.

(** X21. [ListUsersForManager] on a table of fewer than 2^62 rows always
    answers, without an error and without a slice out of range. The limit
    of the answer lies between 1 and 100 and its offset is not negative;
    the page has at most [Limit] users and at most [Total], and [Total] at
    most the number of rows. Every user of the page is a row of the table
    with role user or guest, has the role asked for when one was asked
    for, and has the activity flag asked for when one was asked for. A
    role other than user and guest gives the empty page with total 0. *)
Theorem ListUsersForManager_shows_users_and_guests
    (s : Store) (req : service.ListUsersRequest) :
  order_keeps_rows ->
  (Z.of_nat (List.length (rows s)) < 2 ^ 62)%Z ->
  exists resp,
    ListUsersForManager s req = Returns (Ok resp) /\
    (1 <= service.Limit resp <= 100)%Z /\
    (0 <= service.Offset resp)%Z /\
    (Z.of_nat (List.length (service.Users resp)) <= service.Limit resp)%Z /\
    (Z.of_nat (List.length (service.Users resp)) <= service.Total resp
       <= Z.of_nat (List.length (rows s)))%Z /\
    (forall u, In u (service.Users resp) ->
       In u (rows s) /\
       (Role_ u = RoleUser \/ Role_ u = RoleGuest) /\
       (service.lu_Role req <> "" -> Role_ u = service.lu_Role req) /\
       (forall isActive, service.lu_IsActive req = Some isActive -> IsActive u = isActive)) /\
    (service.lu_Role req <> "" -> service.lu_Role req <> RoleUser ->
     service.lu_Role req <> RoleGuest ->
     service.Users resp = [] /\ service.Total resp = 0%Z).
Proof. apply ListUsersForManager_spec. Qed.

(** X22. The activity filter of [ListUsersForManager] is applied to the
    page, after the count and the cut: a request with the filter set has
    the total, limit and offset of the same request without it, and its
    users are the users of that page with the flag asked for. *)
Theorem ListUsersForManager_filters_the_page
    (s : Store) (req : service.ListUsersRequest) (isActive : bool)
    (resp : service.ListUsersResponse) :
  let unfiltered :=
    {| service.lu_Limit := service.lu_Limit req; service.lu_Offset := service.lu_Offset req;
       service.lu_Role := service.lu_Role req; service.lu_IsActive := None;
       service.lu_Search := service.lu_Search req |} in
  let filtered :=
    {| service.lu_Limit := service.lu_Limit req; service.lu_Offset := service.lu_Offset req;
       service.lu_Role := service.lu_Role req; service.lu_IsActive := Some isActive;
       service.lu_Search := service.lu_Search req |} in
  ListUsersForManager s unfiltered = Returns (Ok resp) ->
  ListUsersForManager s filtered
  = Returns (Ok {| service.Users := filterUsersByActiveStatus (service.Users resp) isActive;
                   service.Total := service.Total resp;
                   service.Limit := service.Limit resp;
                   service.Offset := service.Offset resp |}).
Proof.
  intros unfiltered filtered. subst unfiltered filtered.
  unfold ListUsersForManager.
  cbn [service.lu_Limit service.lu_Offset service.lu_Role service.lu_IsActive
       service.lu_Search].
  destruct (negb (service.lu_Role req =? "") && negb (service.lu_Role req =? RoleUser)
            && negb (service.lu_Role req =? RoleGuest)).
  - intros [= <-]. reflexivity.
  - destruct (if service.lu_Role req =? "" then _ else _) as [users|err]; [|discriminate].
    destruct (paginateUsers _ _ _) as [page|]; [|discriminate].
    intros [= <-]. reflexivity.
Qed.

End ListingForManager.

Lemma insert_row_Permutation (u : entities.User) (l : list entities.User) :
  Permutation (plain.insert_row u l) (u :: l).
Proof.
  induction l as [|v rest IH]; cbn [plain.insert_row]; [reflexivity|].
  destruct (entities.CreatedAt v <? entities.CreatedAt u)%Z; [reflexivity|].
  rewrite IH. apply perm_swap.
Qed.

Lemma plain_order_keeps_rows : @repository.order_keeps_rows plain.row_order.
Proof.
  intros l. cbn. unfold plain.newest_first.
  induction l as [|u rest IH]; cbn [fold_right]; [reflexivity|].
  rewrite insert_row_Permutation. constructor. exact IH.
Qed.


(** ** The middleware chain *)

Section Gates.
Context {codec : jwt.Codec}.
Variable cfg : config.JWTConfig.
Variable cookieService : cookie.CookieService.
Import gin middleware.

(** A token that parses and carries an identity lets the request through
    with that identity attached. *)
Lemma RequireAuth_pass (now : Z) (s : repository.Store) (c : Context)
    (token : string) (parsed : jwt.Token) (userInfo : service.UserInfo) :
  extractToken cookieService c = Ok token ->
  JWTService.ParseAccessToken cfg now token = Ok parsed ->
  JWTService.ExtractUserFromToken parsed = Ok userInfo ->
  RequireAuth cfg cookieService now s c = set_user_info c userInfo.
Proof.
  intros Hext Hparse Huser. unfold RequireAuth. rewrite Hext, Hparse, Huser. reflexivity.
Qed.

Lemma RequireAuth_cases (now : Z) (s : repository.Store) (c : Context) :
  let c' := RequireAuth cfg cookieService now s c in
  (IsAborted c' = true /\ spec.status c' = Some 401%Z /\ Keys c' = Keys c /\
   SetCookies c' = SetCookies c /\ Request_ c' = Request_ c) \/
  (exists token parsed userInfo,
     extractToken cookieService c = Ok token /\
     JWTService.ParseAccessToken cfg now token = Ok parsed /\
     JWTService.ExtractUserFromToken parsed = Ok userInfo /\
     c' = set_user_info c userInfo).
Proof.
  intros c'. subst c'. unfold RequireAuth.
  destruct (extractToken cookieService c) as [token|] eqn:Hext;
    [|left; repeat split].
  destruct (JWTService.ParseAccessToken cfg now token) as [parsed|err] eqn:Hparse.
  - destruct (JWTService.ExtractUserFromToken parsed) as [userInfo|] eqn:Huser;
      [|left; repeat split].
    right. exists token, parsed, userInfo. repeat split; assumption.
  - rewrite (parseToken_error_text _ _ _ _ _ Hparse). left. repeat split.
Qed.

(** X23. [RequireAuth] on any request either aborts it with status 401,
    the keys of the context as they were, or lets it through with the
    identity read from its access token attached and no response written.
    In neither case does it write a cookie: the renewal from the refresh
    token is never reached. *)
Theorem RequireAuth_rejects_or_attaches (now : Z) (s : repository.Store) (c : Context) :
  let c' := RequireAuth cfg cookieService now s c in
  SetCookies c' = SetCookies c /\
  Request_ c' = Request_ c /\
  ((IsAborted c' = true /\ spec.status c' = Some 401%Z /\ Keys c' = Keys c) \/
   (exists token parsed userInfo,
      extractToken cookieService c = Ok token /\
      JWTService.ParseAccessToken cfg now token = Ok parsed /\
      JWTService.ExtractUserFromToken parsed = Ok userInfo /\
      c' = set_user_info c userInfo /\
      IsAborted c' = IsAborted c /\ Response c' = Response c)).
Proof.
  cbv zeta.
  destruct (RequireAuth_cases now s c)
    as [(Hab & Hst & Hk & Hck & Hrq)|(token & parsed & userInfo & Hext & Hparse & Huser & Hc')].
  - split; [exact Hck|]. split; [exact Hrq|]. left. auto.
  - rewrite Hc'. split; [reflexivity|]. split; [reflexivity|].
    right. exists token, parsed, userInfo. repeat split; assumption.
Qed.

(** X24. A request that carries the access token issued to a user is let
    through by [RequireAuth] at every instant of the token's lifetime,
    with the id, the username and the role of that user under the keys
    [user_id], [username] and [role]. The store is not read: the row of
    the user may have changed or gone since. *)
Theorem RequireAuth_admits_issued_token
    (issued now : Z) (user : entities.User) (s : repository.Store) (c : Context)
    (token : string) :
  jwt.codec_roundtrip ->
  JWTService.GenerateAccessToken cfg issued user = Ok token ->
  extractToken cookieService c = Ok token ->
  spec.live issued (config.AccessExpiry cfg) now ->
  let c' := RequireAuth cfg cookieService now s c in
  c' = set_user_info c (spec.identity_of user) /\
  IsAborted c' = IsAborted c /\
  Response c' = Response c /\
  Get c' "user_id" = Some (AnyUint (entities.ID user)) /\
  Get c' "username" = Some (AnyString (entities.Username user)) /\
  Get c' "role" = Some (AnyString (entities.Role_ user)) /\
  Get c' "user_info" = Some (AnyUserInfo (spec.identity_of user)).
Proof.
  intros Hrt Hgen Hext [Hle Hlive] c'.
  assert (Hc' : c' = set_user_info c (spec.identity_of user)).
  { injection Hgen as <-. subst c'.
    eapply RequireAuth_pass; [exact Hext| |apply ExtractUserFromToken_claims_map].
    unfold JWTService.ParseAccessToken.
    apply parseToken_signed;
      [exact Hrt | apply Validate_issued; assumption | apply claims_map_type]. }
  rewrite Hc'. split; [reflexivity|]. split; [reflexivity|]. split; [reflexivity|].
  unfold Get, set_user_info, Set_. cbn [Keys].
  repeat split.
  - rewrite !lookup_insert_ne by discriminate. apply lookup_insert_eq.
  - rewrite !lookup_insert_ne by discriminate. apply lookup_insert_eq.
  - rewrite !lookup_insert_ne by discriminate. apply lookup_insert_eq.
  - apply lookup_insert_eq.
Qed.

Lemma RequireRole_attached (role : entities.Role) (c : Context) (userInfo : service.UserInfo) :
  let c' := set_user_info c userInfo in
  RequireRole role c' =
  if service.ui_Role userInfo =? role then c'
  else Abort (JSON c' StatusForbidden
                [("success", HBool false); ("error", HString "Forbidden");
                 ("message", HString ("Required role: " +:+ role))]).
Proof.
  intros c'. subst c'. unfold RequireRole. rewrite Get_role_set_user_info.
  destruct (_ =? role); reflexivity.
Qed.

Lemma RequireManagerOrHigher_attached (c : Context) (userInfo : service.UserInfo) :
  let c' := set_user_info c userInfo in
  RequireManagerOrHigher c' =
  if (service.ui_Role userInfo =? "admin") || (service.ui_Role userInfo =? "manager") then c'
  else Abort (JSON c' StatusForbidden
                [("success", HBool false); ("error", HString "Forbidden");
                 ("message", HString "Required role: manager or admin")]).
Proof.
  intros c'. subst c'. unfold RequireManagerOrHigher. rewrite Get_role_set_user_info.
  unfold entities.RoleAdmin, entities.RoleManager.
  destruct (_ =? "admin"), (_ =? "manager"); reflexivity.
Qed.

(** X25. The chain of [RequireAuth] and [RequireAdmin] lets a request
    through exactly when its access token parses to an identity whose role
    is [admin]; the chain of [RequireAuth] and [RequireManagerOrHigher],
    exactly when that role is [admin] or [manager]. A request stopped by
    either chain is answered with 401 or 403. *)
Theorem chains_admit_by_token_role (now : Z) (s : repository.Store) (c : Context) :
  IsAborted c = false ->
  let auth := RequireAuth cfg cookieService now s in
  let identified (allowed : entities.Role -> Prop) :=
    exists token parsed userInfo,
      extractToken cookieService c = Ok token /\
      JWTService.ParseAccessToken cfg now token = Ok parsed /\
      JWTService.ExtractUserFromToken parsed = Ok userInfo /\
      allowed (service.ui_Role userInfo) in
  (IsAborted (run [auth; RequireAdmin] c) = false <->
   identified (fun role => role = "admin")) /\
  (IsAborted (run [auth; RequireManagerOrHigher] c) = false <->
   identified (fun role => role = "admin" \/ role = "manager")) /\
  (IsAborted (run [auth; RequireAdmin] c) = true ->
   spec.status (run [auth; RequireAdmin] c) = Some 401%Z \/
   spec.status (run [auth; RequireAdmin] c) = Some 403%Z) /\
  (IsAborted (run [auth; RequireManagerOrHigher] c) = true ->
   spec.status (run [auth; RequireManagerOrHigher] c) = Some 401%Z \/
   spec.status (run [auth; RequireManagerOrHigher] c) = Some 403%Z).
Proof.
  intros Hc auth identified. subst auth identified. cbn [run].
  destruct (RequireAuth_cases now s c)
    as [(Hab & Hst & _)|(token & parsed & userInfo & Hext & Hparse & Huser & Hc')].
  - rewrite Hab. cbv iota. rewrite Hab, Hst.
    assert (Hno : forall allowed : entities.Role -> Prop,
      ~ exists token parsed userInfo,
          extractToken cookieService c = Ok token /\
          JWTService.ParseAccessToken cfg now token = Ok parsed /\
          JWTService.ExtractUserFromToken parsed = Ok userInfo /\
          allowed (service.ui_Role userInfo)).
    { intros allowed (token & parsed & userInfo & Hext & Hparse & Huser & _).
      rewrite (RequireAuth_pass now s c token parsed userInfo Hext Hparse Huser) in Hab.
      cbn in Hab. congruence. }
    split; [|split; [|split; intros _; left; reflexivity]].
    + split; [discriminate|]. intros H.
      destruct (Hno (fun role => role = "admin") H).
    + split; [discriminate|]. intros H.
      destruct (Hno (fun role => role = "admin" \/ role = "manager") H).
  - rewrite Hc'. change (IsAborted (set_user_info c userInfo)) with (IsAborted c).
    rewrite Hc. unfold RequireAdmin.
    rewrite (RequireRole_attached entities.RoleAdmin c userInfo).
    rewrite (RequireManagerOrHigher_attached c userInfo).
    unfold entities.RoleAdmin.
    assert (Hsame : forall (allowed : entities.Role -> Prop),
      (exists token' parsed' userInfo',
          extractToken cookieService c = Ok token' /\
          JWTService.ParseAccessToken cfg now token' = Ok parsed' /\
          JWTService.ExtractUserFromToken parsed' = Ok userInfo' /\
          allowed (service.ui_Role userInfo')) <-> allowed (service.ui_Role userInfo)).
    { intros allowed. split.
      - intros (token' & parsed' & userInfo' & Hext' & Hparse' & Huser' & Hrole).
        congruence.
      - intros Hrole. exists token, parsed, userInfo. auto. }
    rewrite (Hsame (fun role => role = "admin")).
    rewrite (Hsame (fun role => role = "admin" \/ role = "manager")).
    destruct (String.eqb_spec (service.ui_Role userInfo) "admin") as [Ha|Ha];
      destruct (String.eqb_spec (service.ui_Role userInfo) "manager") as [Hm|Hm];
      cbn [orb]; change (IsAborted (set_user_info c userInfo)) with (IsAborted c);
      rewrite ?Hc; cbn [IsAborted Abort JSON];
      repeat split; try tauto; try congruence; try (intros; right; reflexivity);
      try (intros [?|?]; congruence).
  all: change (IsAborted (set_user_info c userInfo)) with (IsAborted c); congruence.
Qed.

(** X26. On a request whose identity has been attached,
    [RequireManagerOrHigher] lets the request through untouched when the
    role is [admin] or [manager] and aborts it with status 403 for every
    other role; whatever [RequireAdmin] lets through, it lets through. *)
Theorem RequireManagerOrHigher_admits_admin_and_manager
    (c : Context) (userInfo : service.UserInfo) :
  IsAborted c = false ->
  let c' := set_user_info c userInfo in
  let role := service.ui_Role userInfo in
  (role = "admin" \/ role = "manager" -> RequireManagerOrHigher c' = c') /\
  (role <> "admin" -> role <> "manager" ->
   IsAborted (RequireManagerOrHigher c') = true /\
   spec.status (RequireManagerOrHigher c') = Some 403%Z /\
   Keys (RequireManagerOrHigher c') = Keys c') /\
  (IsAborted (RequireAdmin c') = false -> IsAborted (RequireManagerOrHigher c') = false).
Proof.
  intros Hc c' role. subst c' role.
  rewrite (RequireManagerOrHigher_attached c userInfo).
  unfold RequireAdmin. rewrite (RequireRole_attached entities.RoleAdmin c userInfo).
  unfold entities.RoleAdmin.
  destruct (String.eqb_spec (service.ui_Role userInfo) "admin") as [Ha|Ha];
    destruct (String.eqb_spec (service.ui_Role userInfo) "manager") as [Hm|Hm];
    cbn [orb]; repeat split; try tauto; try congruence;
    try (intros [?|?]; congruence); cbn; congruence.
Qed.

End Gates.

Section RoleGates.
Import gin middleware.

(** X27. What the role gates do with the key [role]. Without the key,
    [RequireRole] and [RequireManagerOrHigher] abort with status 401;
    with a value that is not a string, with status 500; with a string,
    [RequireRole] lets through the required role only and answers 403
    otherwise. Neither gate ever touches the keys, the cookies or the
    request, and a request let through is returned as it came. *)
Theorem role_gates_outcomes (role : entities.Role) (c : Context) :
  let gates := [RequireRole role; RequireManagerOrHigher] in
  (forall gate, In gate gates ->
     Keys (gate c) = Keys c /\ SetCookies (gate c) = SetCookies c /\
     Request_ (gate c) = Request_ c /\
     (gate c = c \/ IsAborted (gate c) = true) /\
     (Get c "role" = None ->
      IsAborted (gate c) = true /\ spec.status (gate c) = Some 401%Z) /\
     (forall n, Get c "role" = Some (AnyUint n) ->
      IsAborted (gate c) = true /\ spec.status (gate c) = Some 500%Z) /\
     (forall u, Get c "role" = Some (AnyUserInfo u) ->
      IsAborted (gate c) = true /\ spec.status (gate c) = Some 500%Z)) /\
  (forall userRole, Get c "role" = Some (AnyString userRole) ->
     (userRole = role -> RequireRole role c = c) /\
     (userRole <> role ->
      IsAborted (RequireRole role c) = true /\
      spec.status (RequireRole role c) = Some 403%Z)).
Proof.
  intros gates. subst gates. split.
  - intros gate [<-|[<-|[]]].
    + unfold RequireRole.
      destruct (Get c "role") as [[n|userRole|u]|];
        [| destruct (negb (userRole =? role)) | |];
        repeat split; auto; try discriminate.
    + unfold RequireManagerOrHigher.
      destruct (Get c "role") as [[n|userRole|u]|];
        [| destruct (negb (userRole =? entities.RoleAdmin)
                     && negb (userRole =? entities.RoleManager)) | |];
        repeat split; auto; try discriminate.
  - intros userRole Hrole. unfold RequireRole. rewrite Hrole.
    destruct (String.eqb_spec userRole role); cbn [negb]; split;
      try reflexivity; try tauto; try congruence.
Qed.

End RoleGates.

(** ** Cookies and logout *)

Section Prefixes.
Import spec.
Local Arguments Ascii.eqb : simpl never.

Lemma strip_prefix_Some (p s r : string) :
  strip_prefix p s = Some r -> s = p +:+ r.
Proof.
  revert s. induction p as [|x p IH]; intros s; simpl.
  - intros [= <-]. reflexivity.
  - destruct s as [|y s]; [discriminate|].
    destruct (Ascii.eqb_spec x y) as [<-|]; [|discriminate].
    intros Hs. rewrite (IH s Hs). reflexivity.
Qed.

Lemma strip_prefix_app (p r : string) : strip_prefix p (p +:+ r) = Some r.
Proof.
  induction p as [|x p IH]; simpl; [reflexivity|].
  rewrite Ascii.eqb_refl. exact IH.
Qed.

Lemma substring_whole (r : string) : substring 0 (String.length r) r = r.
Proof. induction r as [|x r IH]; simpl; [reflexivity|]. rewrite IH. reflexivity. Qed.

Lemma substring_prefix (p r : string) : substring 0 (String.length p) (p +:+ r) = p.
Proof.
  induction p as [|x p IH]; simpl; [destruct r; reflexivity|].
  rewrite IH. reflexivity.
Qed.

Lemma substring_after_prefix (p r : string) :
  substring (String.length p) (String.length (p +:+ r) - String.length p) (p +:+ r) = r.
Proof.
  induction p as [|x p IH]; simpl.
  - rewrite Nat.sub_0_r. apply substring_whole.
  - exact IH.
Qed.


(** The test of [GetTokenFromRequest] on the authorization header, and the
    token it cuts out of it. *)
Lemma bearer_header_test (h : string) :
  (if (7 <? String.length h)%nat && (substring 0 7 h =? "Bearer ")
   then Some (substring 7 (String.length h - 7) h) else None)
  = match bearer_credential h with
    | Some credential => if credential =? "" then None else Some credential
    | None => None
    end.
Proof.
  unfold bearer_credential.
  destruct (strip_prefix "Bearer " h) as [r|] eqn:Hstrip.
  - apply strip_prefix_Some in Hstrip. subst h.
    change 7%nat with (String.length "Bearer ") at 2 3 4.
    rewrite substring_prefix, substring_after_prefix, length_append.
    rewrite String.eqb_refl, andb_true_r.
    destruct r as [|x r]; reflexivity.
  - destruct (substring 0 7 h =? "Bearer ") eqn:E; [|rewrite andb_false_r; reflexivity].
    apply String.eqb_eq in E.
    destruct (strip_prefix_of_substring "Bearer " h E) as [r Hr]. congruence.
Qed.

End Prefixes.

Section Cookies.
Context {codec : jwt.Codec}.
Variable cfg : config.JWTConfig.
Variable cookieService : cookie.CookieService.
Import gin cookie spec.

Lemma GetTokenFromRequest_sources (c : Context) :
  GetTokenFromRequest cookieService c =
  match Cookie c (accessTokenName cookieService) with
  | Ok token => Ok token
  | Err _ =>
    match bearer_credential (GetHeader c "Authorization") with
    | Some credential =>
        if credential =? ""
        then Err (entities.Errorf "invalid authorization header format")
        else Ok credential
    | None =>
        if GetHeader c "Authorization" =? ""
        then Err (entities.Errorf "no token found in request")
        else Err (entities.Errorf "invalid authorization header format")
    end
  end.
Proof.
  unfold GetTokenFromRequest, GetAccessToken.
  destruct (Cookie c (accessTokenName cookieService)) as [token|]; [reflexivity|].
  set (h := GetHeader c "Authorization").
  assert (Htest := bearer_header_test h).
  destruct (h =? "") eqn:Hh.
  - apply String.eqb_eq in Hh. rewrite Hh. reflexivity.
  - destruct ((7 <? String.length h)%nat && (substring 0 7 h =? "Bearer "));
      destruct (bearer_credential h) as [credential|];
      try destruct (credential =? ""); congruence.
Qed.

(** X28. [GetTokenFromRequest] returns the value of the access cookie
    when the request has that cookie, empty or not; otherwise the bearer
    credential of the authorization header when there is one and it is
    not empty; otherwise an error. So, on a request with a token in the
    cookie and another in the header, it returns the cookie's while
    [extractToken] of the middleware returns the header's. *)
Theorem GetTokenFromRequest_cookie_then_header (c : Context) :
  GetTokenFromRequest cookieService c =
  match Cookie c (accessTokenName cookieService) with
  | Ok token => Ok token
  | Err _ =>
    match bearer_credential (GetHeader c "Authorization") with
    | Some credential =>
        if credential =? ""
        then Err (entities.Errorf "invalid authorization header format")
        else Ok credential
    | None =>
        if GetHeader c "Authorization" =? ""
        then Err (entities.Errorf "no token found in request")
        else Err (entities.Errorf "invalid authorization header format")
    end
  end /\
  (forall inHeader inCookie,
     bearer_credential (GetHeader c "Authorization") = Some inHeader ->
     cookie_token (accessTokenName cookieService) c = Some inCookie ->
     GetTokenFromRequest cookieService c = Ok inCookie /\
     middleware.extractToken cookieService c = Ok inHeader).
Proof.
  split; [apply GetTokenFromRequest_sources|].
  intros inHeader inCookie Hheader Hcookie. split.
  - rewrite GetTokenFromRequest_sources.
    unfold cookie_token in Hcookie. unfold Cookie.
    destruct (find _ _) as [kv|]; [|discriminate].
    destruct (snd kv =? ""); congruence.
  - unfold middleware.extractToken. rewrite header_branch_bearer_credential, Hheader.
    reflexivity.
Qed.

Lemma services_Logout_nil (now : Z) (token : string) : services.Logout cfg now token = None.
Proof.
  unfold services.Logout.
  destruct (JWTService.ParseAccessToken cfg now token) as [parsed|]; [|reflexivity].
  destruct (services.claim_user_id parsed); reflexivity.
Qed.

(** X29. The logout handler answers every request with status 200 and
    never with 500: the logout of the auth service returns no error for
    any token, valid or not. When the request carries a token, in the
    access cookie or in the header, the handler writes two cookies, the
    ones [SetAuthCookies] writes, with an empty value and a negative
    [Max-Age]; when it carries none, it writes no cookie. It touches
    neither the keys nor the abort flag. *)
Theorem Logout_always_answers_200 (now : Z) (c : Context) (accessToken refreshToken : string) :
  let c' := api.Logout cfg cookieService now c in
  let written := drop (List.length (SetCookies c))
                   (SetCookies (SetAuthCookies cookieService c accessToken refreshToken)) in
  (forall token, services.Logout cfg now token = None) /\
  spec.status c' = Some 200%Z /\
  IsAborted c' = IsAborted c /\
  Keys c' = Keys c /\
  SetCookies c' =
    (SetCookies c ++
     if is_ok (GetTokenFromRequest cookieService c) then map expired written else [])%list.
Proof.
  intros c' written. subst c' written.
  split; [intros token; apply services_Logout_nil|].
  unfold api.Logout.
  destruct (GetTokenFromRequest cookieService c) as [token|].
  - rewrite services_Logout_nil.
    cbn [is_ok]. unfold ClearAuthCookies, SetAuthCookies, SetCookie, JSON, spec.status.
    cbn [Response SetCookies IsAborted Keys fmap option_fmap option_map fst].
    repeat split.
    rewrite <- !app_assoc. rewrite drop_app_length. reflexivity.
  - cbn [is_ok]. unfold JSON, spec.status. cbn. rewrite app_nil_r. repeat split.
Qed.

End Cookies.

(** ** The properties above on the concrete users and requests *)

Lemma scenario_store_well_formed : spec.well_formed scenario.store.
Proof.
  unfold spec.well_formed, scenario.store. cbn [repository.rows repository.next_id map].
  split; [|split; [|split; [|split]]].
  - repeat (constructor; [cbn; intuition discriminate|]). constructor.
  - repeat (constructor; [cbn; intuition discriminate|]). constructor.
  - repeat (constructor; [reflexivity|]). constructor.
  - repeat (constructor; [reflexivity|]). constructor.
  - repeat (constructor; [vm_compute; reflexivity|]). constructor.
Qed.

Lemma repository_keeps_the_keys_witness :
  spec.well_formed (snd (@repository.Create plain.plans 7 scenario.store scenario.dave)).
Proof.
  exact (proj1 (@repository_keeps_the_keys plain.plans 7 scenario.store scenario.dave 0
                  scenario_store_well_formed)).
Defined.

Lemma Create_then_lookup_witness :
  (exists created s',
     @repository.Create plain.plans 7 scenario.store scenario.dave = (Ok created, s') /\
     repository.GetByUsername s' "dave" = Ok (entities.set_LastLogin created None) /\
     entities.ID created = 3%N) /\
  (exists created s',
     @repository.Create plain.plans 7 scenario.store
       (entities.set_Username scenario.dave scenario.fifty_and_space) = (Ok created, s') /\
     entities.Username created = scenario.fifty_and_space /\
     repository.GetByUsername s' scenario.fifty_and_space = Err entities.ErrUserNotFound /\
     repository.GetByUsername s' scenario.fifty = Ok (spec.as_stored created)).
Proof.
  split.
  - pose (r := @repository.Create plain.plans 7 scenario.store scenario.dave).
    pose (created := match fst r with Ok u => u | Err _ => scenario.dave end).
    assert (E : @repository.Create plain.plans 7 scenario.store scenario.dave
                = (Ok created, snd r)) by (vm_compute; reflexivity).
    exists created, (snd r). split; [exact E|]. split; [|reflexivity].
    destruct (@Create_then_lookup plain.plans 7 scenario.store (snd r) scenario.dave created
                scenario_store_well_formed E) as (_ & _ & _ & _ & Hshort & _ & Hsame).
    rewrite <- (Hsame ltac:(vm_compute; reflexivity)).
    exact (proj2 (Hshort ltac:(vm_compute; lia))).
  - pose (user := entities.set_Username scenario.dave scenario.fifty_and_space).
    pose (r := @repository.Create plain.plans 7 scenario.store user).
    pose (created := match fst r with Ok u => u | Err _ => scenario.dave end).
    assert (E : @repository.Create plain.plans 7 scenario.store user = (Ok created, snd r))
      by (vm_compute; reflexivity).
    exists created, (snd r). split; [exact E|]. split; [reflexivity|].
    destruct (@Create_then_lookup plain.plans 7 scenario.store (snd r) user created
                scenario_store_well_formed E) as (_ & Hstored & _ & _ & _ & Hlong & _).
    split; [exact (proj2 (Hlong ltac:(vm_compute; lia)))|exact Hstored].
Defined.

Lemma Login_succeeds_witness :
  exists response s',
    @services.Login plain.codec plain.bcrypt scenario.cfg 7 scenario.store
      {| service.lr_Username := "alice"; service.lr_Password := "wonderland" |}
    = (Ok response, s') /\
    entities.LastLogin (service.User response) = Some 7%Z.
Proof.
  destruct (@Login_succeeds plain.codec plain.bcrypt scenario.cfg 7 scenario.store
              "alice" "wonderland" scenario.alice
              ltac:(discriminate) ltac:(discriminate) eq_refl eq_refl eq_refl)
    as (access & refresh & s' & row & _ & _ & H & _).
  eexists _, s'. split; [exact H|reflexivity].
Defined.

Lemma RefreshToken_reads_the_store_witness :
  exists refresh,
    @JWTService.GenerateRefreshToken plain.codec scenario.cfg 0 scenario.bob = Ok refresh /\
    @services.RefreshToken plain.codec scenario.cfg scenario.soon scenario.store_bob_off
      {| service.rt_RefreshToken := refresh |} = Err entities.ErrUserDeactivated.
Proof.
  assert (Hlive : spec.live 0 (config.RefreshExpiry scenario.cfg) scenario.soon)
    by (split; [vm_compute; discriminate | reflexivity]).
  exact (@RefreshToken_reads_the_store plain.codec scenario.cfg 0 scenario.soon
           scenario.store_bob_off scenario.bob plain_codec_roundtrip Hlive).
Defined.

Lemma ValidateToken_reads_the_store_witness :
  exists access,
    @JWTService.GenerateAccessToken plain.codec scenario.cfg 0 scenario.alice = Ok access /\
    @services.ValidateToken plain.codec scenario.cfg scenario.soon scenario.store access
    = Ok scenario.alice.
Proof.
  assert (Hlive : spec.live 0 (config.AccessExpiry scenario.cfg) scenario.soon)
    by (split; [vm_compute; discriminate | reflexivity]).
  exact (@ValidateToken_reads_the_store plain.codec scenario.cfg 0 scenario.soon
           scenario.store scenario.alice plain_codec_roundtrip Hlive).
Defined.

Lemma Register_then_Login_witness :
  let request username :=
    {| service.rr_Username := username; service.rr_Password := "longpassword";
       service.rr_FirstName := "Dave"; service.rr_LastName := "Bowman";
       service.rr_Role := "" |} in
  let register username :=
    @services.Register plain.bcrypt plain.plans 7 scenario.store (request username) in
  let login username s :=
    @services.Login plain.codec plain.bcrypt scenario.cfg 9 s
      {| service.lr_Username := username; service.lr_Password := "longpassword" |} in
  (exists response s'',
     login "dave" (snd (register "dave")) = (Ok response, s'') /\
     entities.Username (service.User response) = "dave") /\
  is_ok (fst (register scenario.fifty_and_space)) = true /\
  login scenario.fifty_and_space (snd (register scenario.fifty_and_space))
  = (Err entities.ErrInvalidCredentials, snd (register scenario.fifty_and_space)).
Proof.
  intros request register login.
  split; [|split; [reflexivity|]].
  - pose (r := register "dave").
    pose (user := match fst r with Ok u => u | Err _ => scenario.dave end).
    assert (E : @services.Register plain.bcrypt plain.plans 7 scenario.store (request "dave")
                = (Ok user, snd r)) by (vm_compute; reflexivity).
    destruct (@Register_then_Login plain.codec plain.bcrypt plain.plans scenario.cfg 7 9
                scenario.store (snd r) (request "dave") user scenario_store_well_formed E
                ltac:(vm_compute; reflexivity)) as [Hshort _].
    destruct (Hshort ltac:(vm_compute; lia)) as (response & s'' & H & _ & Hname & _).
    exists response, s''. split; [exact H|exact Hname].
  - pose (r := register scenario.fifty_and_space).
    pose (user := match fst r with Ok u => u | Err _ => scenario.dave end).
    assert (E : @services.Register plain.bcrypt plain.plans 7 scenario.store
                  (request scenario.fifty_and_space)
                = (Ok user, snd r)) by (vm_compute; reflexivity).
    destruct (@Register_then_Login plain.codec plain.bcrypt plain.plans scenario.cfg 7 9
                scenario.store (snd r) (request scenario.fifty_and_space) user
                scenario_store_well_formed E
                ltac:(vm_compute; reflexivity)) as [_ Hlong].
    exact (Hlong ltac:(vm_compute; lia)).
Defined.

Lemma toggleUserActiveStatus_changes_one_flag_witness :
  exists s',
    @services.toggleUserActiveStatus plain.plans 5 scenario.store 2 false = (None, s') /\
    repository.GetByID s' 2 = Ok (spec.toggled 5 false scenario.bob) /\
    forall id', id' <> 2%N -> repository.GetByID s' id' = repository.GetByID scenario.store id'.
Proof.
  exact (@toggleUserActiveStatus_changes_one_flag plain.plans 5 scenario.store 2 false
           scenario_store_well_formed).
Defined.

Lemma ChangePassword_checks_then_rehashes_witness :
  (@services.ChangePassword plain.bcrypt plain.plans 5 scenario.store 1
     {| service.cp_CurrentPassword := "looking-glass";
        service.cp_NewPassword := "jabberwocky" |}
   = (Some entities.ErrInvalidCredentials, scenario.store)) /\
  exists s',
    @services.ChangePassword plain.bcrypt plain.plans 5 scenario.store 1
      {| service.cp_CurrentPassword := "wonderland";
         service.cp_NewPassword := "jabberwocky" |} = (None, s') /\
    repository.GetByID s' 1
    = Ok (spec.rehashed 5 (plain.hash "jabberwocky") scenario.alice).
Proof.
  split.
  - exact (proj1 (@ChangePassword_checks_then_rehashes plain.bcrypt plain.plans 5
                    scenario.store 1 scenario.alice "looking-glass" "jabberwocky"
                    scenario_store_well_formed eq_refl) eq_refl).
  - destruct (proj2 (proj2 (@ChangePassword_checks_then_rehashes plain.bcrypt plain.plans 5
                               scenario.store 1 scenario.alice "wonderland" "jabberwocky"
                               scenario_store_well_formed eq_refl))
                eq_refl ltac:(vm_compute; lia) (plain.hash "jabberwocky") eq_refl)
      as (s' & H & Hrow & _).
    exists s'. split; [exact H|exact Hrow].
Defined.

Lemma UpdateUser_username_rules_witness :
  @services.UpdateUser plain.plans 5 scenario.store 1
    {| service.uu_Username := Some "bob"; service.uu_FirstName := None;
       service.uu_LastName := None; service.uu_Role := None;
       service.uu_IsActive := None |}
  = (Err entities.ErrUserAlreadyExists, scenario.store).
Proof.
  exact (proj1 (proj2 (@UpdateUser_username_rules plain.plans 5 scenario.store 1
                         scenario.alice
                         {| service.uu_Username := Some "bob"; service.uu_FirstName := None;
                            service.uu_LastName := None; service.uu_Role := None;
                            service.uu_IsActive := None |}
                         "bob" eq_refl eq_refl))
           ltac:(vm_compute; lia) scenario.bob eq_refl ltac:(discriminate)).
Defined.

Lemma services_keep_the_store_well_formed_witness :
  spec.well_formed
    (snd (@services.Register plain.bcrypt plain.plans 7 scenario.store
            {| service.rr_Username := "dave"; service.rr_Password := "longpassword";
               service.rr_FirstName := "Dave"; service.rr_LastName := "Bowman";
               service.rr_Role := "" |})) /\
  spec.well_formed (snd (services.DeleteUser scenario.store 1)).
Proof.
  destruct (@services_keep_the_store_well_formed plain.codec plain.bcrypt plain.plans
              scenario.cfg 7 scenario.store 1 false
              {| service.lr_Username := "alice"; service.lr_Password := "wonderland" |}
              {| service.rr_Username := "dave"; service.rr_Password := "longpassword";
                 service.rr_FirstName := "Dave"; service.rr_LastName := "Bowman";
                 service.rr_Role := "" |}
              {| service.cu_Username := "dave"; service.cu_Password := "longpassword";
                 service.cu_FirstName := "Dave"; service.cu_LastName := "Bowman";
                 service.cu_Role := ""; service.cu_IsActive := false |}
              {| service.uu_Username := Some "bob"; service.uu_FirstName := None;
                 service.uu_LastName := None; service.uu_Role := None;
                 service.uu_IsActive := None |}
              {| service.cp_CurrentPassword := "wonderland";
                 service.cp_NewPassword := "jabberwocky" |}
              scenario_store_well_formed)
    as (_ & Hregister & _ & _ & Hdelete & _).
  split; [exact Hregister|exact Hdelete].
Defined.

Lemma paginateUsers_pages_witness :
  exists page,
    services.paginateUsers [scenario.alice; scenario.bob; scenario.dave] 1 1
    = services.Returns page /\
    page = [scenario.bob] /\
    (Z.of_nat (List.length page) <= 1)%Z /\
    [scenario.bob; scenario.dave] = (page ++ [scenario.dave])%list.
Proof.
  exact (proj1 (paginateUsers_pages [scenario.alice; scenario.bob; scenario.dave] 1 1)
           ltac:(lia) ltac:(lia) ltac:(lia)).
Defined.

Lemma ListUsersForManager_shows_users_and_guests_witness :
  exists resp,
    @services.ListUsersForManager plain.row_order plain.text
      (snd (@repository.Create plain.plans 7 scenario.store scenario.dave))
      {| service.lu_Limit := 0; service.lu_Offset := -3; service.lu_Role := "";
         service.lu_IsActive := None; service.lu_Search := "DAV" |}
    = services.Returns (Ok resp) /\
    (1 <= service.Limit resp <= 100)%Z /\
    (0 <= service.Offset resp)%Z.
Proof.
  destruct (@ListUsersForManager_shows_users_and_guests plain.row_order plain.text
              (snd (@repository.Create plain.plans 7 scenario.store scenario.dave))
              {| service.lu_Limit := 0; service.lu_Offset := -3; service.lu_Role := "";
                 service.lu_IsActive := None; service.lu_Search := "DAV" |}
              plain_order_keeps_rows ltac:(vm_compute; reflexivity))
    as (resp & H & Hlimit & Hoffset & _).
  exists resp. split; [exact H|]. split; [exact Hlimit|exact Hoffset].
Defined.

Lemma ListUsersForManager_filters_the_page_witness :
  @services.ListUsersForManager plain.row_order plain.text
    (snd (@repository.Create plain.plans 7 scenario.store scenario.dave))
    {| service.lu_Limit := 0; service.lu_Offset := 0; service.lu_Role := "";
       service.lu_IsActive := Some false; service.lu_Search := "" |}
  = services.Returns (Ok {| service.Users := []; service.Total := 1;
                            service.Limit := 20; service.Offset := 0 |}).
Proof.
  pose (s := snd (@repository.Create plain.plans 7 scenario.store scenario.dave)).
  pose (req := {| service.lu_Limit := 0; service.lu_Offset := 0; service.lu_Role := "";
                  service.lu_IsActive := None; service.lu_Search := "" |}).
  pose (out := @services.ListUsersForManager plain.row_order plain.text s req).
  pose (resp := match out with
                | services.Returns (Ok r) => r
                | _ => {| service.Users := []; service.Total := 0;
                          service.Limit := 0; service.Offset := 0 |}
                end).
  assert (E : @services.ListUsersForManager plain.row_order plain.text s req
              = services.Returns (Ok resp)) by (vm_compute; reflexivity).
  exact (@ListUsersForManager_filters_the_page plain.row_order plain.text s req false resp E).
Defined.

Lemma RequireAuth_admits_issued_token_witness :
  gin.Get (@middleware.RequireAuth plain.codec scenario.cfg cookie.NewCookieService
             scenario.soon scenario.store scenario.with_access_cookie_only) "role"
  = Some (gin.AnyString "admin").
Proof.
  assert (Hlive : spec.live 0 (config.AccessExpiry scenario.cfg) scenario.soon)
    by (split; [vm_compute; discriminate | reflexivity]).
  destruct (@RequireAuth_admits_issued_token plain.codec scenario.cfg cookie.NewCookieService
              0 scenario.soon scenario.alice scenario.store
              scenario.with_access_cookie_only scenario.alice_access
              plain_codec_roundtrip eq_refl ltac:(vm_compute; reflexivity) Hlive)
    as (_ & _ & _ & _ & _ & H & _).
  exact H.
Defined.

Lemma chains_admit_by_token_role_witness :
  gin.IsAborted
    (gin.run [@middleware.RequireAuth plain.codec scenario.cfg cookie.NewCookieService
                scenario.soon scenario.store; middleware.RequireAdmin]
       scenario.with_access_cookie_only) = false <->
  exists token parsed userInfo,
    middleware.extractToken cookie.NewCookieService scenario.with_access_cookie_only
    = Ok token /\
    @JWTService.ParseAccessToken plain.codec scenario.cfg scenario.soon token = Ok parsed /\
    JWTService.ExtractUserFromToken parsed = Ok userInfo /\
    service.ui_Role userInfo = "admin".
Proof.
  destruct (@chains_admit_by_token_role plain.codec scenario.cfg cookie.NewCookieService
              scenario.soon scenario.store scenario.with_access_cookie_only eq_refl)
    as [H _].
  exact H.
Defined.

Lemma RequireManagerOrHigher_admits_admin_and_manager_witness :
  let c := middleware.set_user_info (scenario.request None [])
             (spec.identity_of scenario.bob) in
  middleware.RequireManagerOrHigher c = c.
Proof.
  destruct (RequireManagerOrHigher_admits_admin_and_manager (scenario.request None [])
              (spec.identity_of scenario.bob) eq_refl) as [H _].
  exact (H (or_intror eq_refl)).
Defined.

Lemma role_gates_outcomes_witness :
  gin.IsAborted (middleware.RequireRole "admin" (scenario.request None [])) = true /\
  spec.status (middleware.RequireRole "admin" (scenario.request None [])) = Some 401%Z.
Proof.
  destruct (role_gates_outcomes "admin" (scenario.request None [])) as [H _].
  destruct (H (middleware.RequireRole "admin") (or_introl eq_refl))
    as (_ & _ & _ & _ & Hnone & _).
  exact (Hnone eq_refl).
Defined.

Lemma GetTokenFromRequest_cookie_then_header_witness :
  let c := scenario.request (Some "Bearer abc.def") [("access_token", "xyz")] in
  cookie.GetTokenFromRequest cookie.NewCookieService c = Ok "xyz" /\
  middleware.extractToken cookie.NewCookieService c = Ok "abc.def".
Proof.
  exact (proj2 (GetTokenFromRequest_cookie_then_header cookie.NewCookieService
                  (scenario.request (Some "Bearer abc.def") [("access_token", "xyz")]))
           "abc.def" "xyz" eq_refl eq_refl).
Defined.

(** ** The role gates and the role predicates of the entity *)

Section GatesAndEntity.
Import gin middleware.

(** X30. The role gates of the middleware decide as the role predicates
    of the user entity do. On a request that carries the identity of a
    user, [RequireRole] lets it through exactly when [HasRole] holds of
    the user, [RequireAdmin] exactly when [IsAdmin] does, and
    [RequireManagerOrHigher] exactly when [IsManagerOrHigher] does. *)
Theorem role_gates_agree_with_the_entity
    (c : Context) (user : entities.User) (role : entities.Role) :
  IsAborted c = false ->
  let c' := set_user_info c (spec.identity_of user) in
  (IsAborted (RequireRole role c') = false <-> entities.HasRole user role = true) /\
  (IsAborted (RequireAdmin c') = false <-> entities.IsAdmin user = true) /\
  (IsAborted (RequireManagerOrHigher c') = false <->
   entities.IsManagerOrHigher user = true).
Proof.
  intros Hc c'. subst c'. unfold RequireAdmin.
  rewrite !RequireRole_attached, RequireManagerOrHigher_attached.
  unfold entities.HasRole, entities.IsAdmin, entities.IsManagerOrHigher.
  cbn [spec.identity_of service.ui_Role].
  change "admin" with entities.RoleAdmin. change "manager" with entities.RoleManager.
  destruct (entities.Role_ user =? role);
    destruct (entities.Role_ user =? entities.RoleAdmin);
    destruct (entities.Role_ user =? entities.RoleManager);
    cbn [orb]; change (IsAborted (set_user_info c (spec.identity_of user))) with (IsAborted c);
    cbn [IsAborted Abort JSON]; rewrite ?Hc; repeat split; congruence.
Qed.

End GatesAndEntity.

Lemma role_gates_agree_with_the_entity_witness :
  let c := middleware.set_user_info (scenario.request None [])
             (spec.identity_of scenario.bob) in
  gin.IsAborted (middleware.RequireAdmin c) = false <-> entities.IsAdmin scenario.bob = true.
Proof.
  destruct (role_gates_agree_with_the_entity (scenario.request None []) scenario.bob
              "user" eq_refl) as (_ & H & _).
  exact H.
Defined.
